(** * Sherlock: a Redfish exporter -- the collection engine, embedded in Rocq

    The development follows the Go sources:
    - [internal/redfish/client.go]      the per-target client (session)
    - [internal/collector/*.go]         the five collectors
    - [cmd/sherlock/main.go]            the orchestrator and the scrape handler

    Go code is sequential code over mutable objects guarded by [sync.Mutex];
    it is embedded as state-passing functions in a small monad whose
    outcomes are: a normal return, a goroutine parked forever in
    [Mutex.Lock], or a runtime panic. *)

From Stdlib Require Import PrimFloat DecimalNat DecimalString.
From stdpp Require Import gmap strings list fin_maps.

Open Scope string_scope.

(** ** Go library functions on strings *)

Module strings.

(** [strings.HasPrefix] *)
Definition HasPrefix (s pre : string) : bool := String.prefix pre s.

(** [strings.Contains] *)
Fixpoint Contains (s substr : string) : bool :=
  HasPrefix s substr ||
  match s with
  | EmptyString => false
  | String _ rest => Contains rest substr
  end.

(** [strings.TrimPrefix]: [s] without the leading [pre], or [s] itself. *)
Definition TrimPrefix (s pre : string) : string :=
  if HasPrefix s pre then String.substring (String.length pre) (String.length s - String.length pre) s
  else s.

End strings.

Module fmt.

(** [fmt.Sprintf("%d", n)] for a non-negative [n]. *)
Definition Sprintf_d (n : nat) : string := NilZero.string_of_uint (Nat.to_uint n).

(** [fmt.Sprintf("%d", z)] *)
Definition Sprintf_dZ (z : Z) : string := NilZero.string_of_int (Z.to_int z).

End fmt.

(** Functions of Go's standard library on [float64] that the code calls and
    that have no counterpart on primitive floats. *)
Class GoFloatLib := {
  (** [fmt.Sprintf("%.0f", x)] *)
  Sprintf_0f : float -> string;
  (** [math.Round] *)
  math_Round : float -> float;
  (** [math.Pow] *)
  math_Pow : float -> float -> float;
  (** the conversion [float64(n)] of an [int] *)
  float64_of_int : Z -> float;
  (** the conversion [int(x)] of a [float64] *)
  int_of_float64 : float -> Z;
}.

(** ** Outcomes of a call, and the monad of Go code over a state [S] *)

Inductive outcome (S A : Type) : Type :=
| Returns (a : A) (s : S)
    (** the call returned [a] *)
| Blocked (s : S)
    (** the goroutine is parked in [Lock] on a mutex nobody will release *)
| Panicked (msg : string) (s : S).
    (** a runtime panic (or fatal error) unwound the call *)
Arguments Returns {S A} a s.
Arguments Blocked {S A} s.
Arguments Panicked {S A} msg s.

Definition M (S A : Type) : Type := S -> outcome S A.

Definition ret {S A} (a : A) : M S A := fun s => Returns a s.

Definition bind {S A B} (m : M S A) (k : A -> M S B) : M S B :=
  fun s =>
    match m s with
    | Returns a s' => k a s'
    | Blocked s' => Blocked s'
    | Panicked msg s' => Panicked msg s'
    end.

Notation "'do' x <- m ; k" := (bind m (fun x => k))
  (at level 10, x pattern, m at level 100, k at level 200,
   format "'[v' 'do'  x  <-  m ; '/' k ']'").
Notation "m ;;; k" := (bind m (fun _ => k))
  (at level 100, k at level 200, right associativity).

Definition get {S} : M S S := fun s => Returns s s.
Definition modify {S} (f : S -> S) : M S unit := fun s => Returns tt (f s).
Definition panic {S A} (msg : string) : M S A := fun s => Panicked msg s.

(** [defer d] followed by the rest of the function body: [d] runs when the
    body returns and also while a panic unwinds; it never runs when the
    body is parked. *)
Definition deferring {S A} (d : M S unit) (body : M S A) : M S A :=
  fun s =>
    match body s with
    | Returns a s' => bind d (fun _ => ret a) s'
    | Blocked s' => Blocked s'
    | Panicked msg s' =>
        match d s' with
        | Returns _ s'' => Panicked msg s''
        | Blocked s'' => Blocked s''
        | Panicked msg' s'' => Panicked msg' s''
        end
    end.

(** Run a computation on a component of the state. *)
Definition zoom {S T A} (proj : S -> T) (upd : T -> S -> S) (m : M T A) : M S A :=
  fun s =>
    match m (proj s) with
    | Returns a t => Returns a (upd t s)
    | Blocked t => Blocked (upd t s)
    | Panicked msg t => Panicked msg (upd t s)
    end.

(** Run a computation on a local value; the value is dropped afterwards. *)
Definition scoped {S T A} (m : M T A) (t : T) : M S A :=
  fun s =>
    match m t with
    | Returns a _ => Returns a s
    | Blocked _ => Blocked s
    | Panicked msg _ => Panicked msg s
    end.

(** [for _, x := range xs { m(x) }] over a slice of objects. *)
Fixpoint forEach {C A} (m : M C A) (xs : list C) : outcome (list C) (list A) :=
  match xs with
  | [] => Returns [] []
  | x :: rest =>
      match m x with
      | Returns a x' =>
          match forEach m rest with
          | Returns others rest' => Returns (a :: others) (x' :: rest')
          | Blocked rest' => Blocked (x' :: rest')
          | Panicked msg rest' => Panicked msg (x' :: rest')
          end
      | Blocked x' => Blocked (x' :: rest)
      | Panicked msg x' => Panicked msg (x' :: rest)
      end
  end.

(** [sync.Mutex]: [true] when held.  It is not reentrant: [Lock] on a held
    mutex parks the caller until somebody else unlocks it. *)
Module Mutex.
Definition Lock {S} (held : S -> bool) (set : bool -> S -> S) : M S unit :=
  fun s => if held s then Blocked s else Returns tt (set true s).
Definition Unlock {S} (held : S -> bool) (set : bool -> S -> S) : M S unit :=
  fun s => if held s then Returns tt (set false s)
           else Panicked "sync: unlock of unlocked mutex" s.
End Mutex.

(** Go's [error]: [None] is [nil]. *)
Definition error := option string.

(** A [(value, error)] result where exactly one side is meaningful. *)
Inductive result (A : Type) : Type :=
| Ok (a : A)
| Err (e : string).
Arguments Ok {A} a.
Arguments Err {A} e.

(** ** The remote data, as gofish decodes it

    Numeric fields that the collectors widen with [float64(...)] hold the
    widened value; [TotalCores] is an [int]. *)

Record Status := { Health : string; State : string }.

Record PowerSupply := {
  psu_Name : string;
  psu_Status : Status;
  PowerInputWatts : float;
  PowerOutputWatts : float;
}.

Record Voltage := { volt_Name : string; volt_Status : Status; ReadingVolts : float }.

Record PowerControl := { PowerConsumedWatts : float }.

Record Power := {
  PowerSupplies : list PowerSupply;
  Voltages : list Voltage;
  PowerControls : list PowerControl;
}.

Record Temperature := { temp_Name : string; temp_Status : Status; ReadingCelsius : float }.

Record Fan := { fan_Name : string; fan_Status : Status; Reading : float }.

Record Thermal := { Temperatures : list Temperature; Fans : list Fan }.

(** A chassis object, with what its [Power()] and [Thermal()] calls answer. *)
Record Chassis := {
  ID : string;
  PowerReply : result Power;
  ThermalReply : result Thermal;
}.

Record Processor := {
  proc_ID : string;
  proc_Status : Status;
  TotalCores : Z;
  Model : string;
}.

Record MemorySummary := { TotalSystemMemoryGiB : float; mem_Status : Status }.

Record ComputerSystem := {
  PowerState : string;
  memorySummary : MemorySummary;
  ProcessorsReply : result (list Processor);
}.

(** ** The network: a scripted management controller and a trace of the
    remote calls made so far *)

Inductive Event :=
| EvConnect (endpoint : string)
| EvLogout (handle : nat)
| EvChassis
| EvSystems
| EvProcessors
| EvPower (chassisID : string)
| EvThermal (chassisID : string).

(** What the controller answers: the [n]-th connection attempt, the [n]-th
    chassis listing (a possibly partial list of possibly nil pointers, and an
    error), the [n]-th systems listing. *)
Record Bmc := {
  connectReply : nat -> error;
  chassisReply : nat -> list (option Chassis) * error;
  systemsReply : nat -> list ComputerSystem * error;
}.

Record Net := {
  bmc : Bmc;
  connects : nat;
  chassisCalls : nat;
  systemsCalls : nat;
  trace : list Event;
}.

Definition emit (ev : Event) (n : Net) : Net :=
  {| bmc := bmc n; connects := connects n; chassisCalls := chassisCalls n;
     systemsCalls := systemsCalls n; trace := trace n ++ [ev] |}.

Module gofish.

(** [gofish.Connect]: the handle of the [n]-th connection is [n]. *)
Definition Connect (endpoint : string) : M Net (result nat) :=
  fun n =>
    let n' := {| bmc := bmc n; connects := S (connects n); chassisCalls := chassisCalls n;
                 systemsCalls := systemsCalls n; trace := trace n ++ [EvConnect endpoint] |} in
    match connectReply (bmc n) (connects n) with
    | None => Returns (Ok (connects n)) n'
    | Some e => Returns (Err e) n'
    end.

(** [APIClient.Logout] *)
Definition Logout (handle : nat) : M Net unit := modify (emit (EvLogout handle)).

(** [Service.Chassis] *)
Definition Service_Chassis : M Net (list (option Chassis) * error) :=
  fun n =>
    Returns (chassisReply (bmc n) (chassisCalls n))
      {| bmc := bmc n; connects := connects n; chassisCalls := S (chassisCalls n);
         systemsCalls := systemsCalls n; trace := trace n ++ [EvChassis] |}.

(** [Service.Systems] *)
Definition Service_Systems : M Net (list ComputerSystem * error) :=
  fun n =>
    Returns (systemsReply (bmc n) (systemsCalls n))
      {| bmc := bmc n; connects := connects n; chassisCalls := chassisCalls n;
         systemsCalls := S (systemsCalls n); trace := trace n ++ [EvSystems] |}.

(** [Chassis.Power] *)
Definition Chassis_Power (ch : Chassis) : M Net (result Power) :=
  do _ <- modify (emit (EvPower (ID ch))); ret (PowerReply ch).

(** [Chassis.Thermal] *)
Definition Chassis_Thermal (ch : Chassis) : M Net (result Thermal) :=
  do _ <- modify (emit (EvThermal (ID ch))); ret (ThermalReply ch).

(** [ComputerSystem.Processors] *)
Definition System_Processors (sys : ComputerSystem) : M Net (result (list Processor)) :=
  do _ <- modify (emit EvProcessors); ret (ProcessorsReply sys).

End gofish.

(** ** internal/redfish/client.go *)

Module redfish.

Record Config := {
  Host : string;
  Username : string;
  Password : string;
  Insecure : bool;
}.

(** [Client]: [APIClient] is the connection handle ([None] is a nil pointer);
    [Service] is the service root of that same handle. *)
Record Client := {
  APIClient : option nat;
  config : Config;
  mutex : bool;
}.

(** A client together with the network it talks to. *)
Record Env := { net : Net; client : Client }.

Definition set_net (n : Net) (e : Env) : Env := {| net := n; client := client e |}.
Definition set_client (c : Client) (e : Env) : Env := {| net := net e; client := c |}.
Definition set_mutex (b : bool) (e : Env) : Env :=
  set_client {| APIClient := APIClient (client e); config := config (client e); mutex := b |} e.
Definition set_APIClient (h : option nat) (e : Env) : Env :=
  set_client {| APIClient := h; config := config (client e); mutex := mutex (client e) |} e.

Definition onNet {A} (m : M Net A) : M Env A := zoom net set_net m.
Definition mutex_Lock : M Env unit := Mutex.Lock (fun e => mutex (client e)) set_mutex.
Definition mutex_Unlock : M Env unit := Mutex.Unlock (fun e => mutex (client e)) set_mutex.

(** [connect] *)
Definition connect (cfg : Config) : M Net (result Client) :=
  do r <- gofish.Connect (Host cfg);
  match r with
  | Err e => ret (Err ("failed to connect to Redfish API: " ++ e))
  | Ok apiClient => ret (Ok {| APIClient := Some apiClient; config := cfg; mutex := false |})
  end.

(** [NewClient] *)
Definition NewClient (cfg : Config) : M Net (result Client) :=
  do r <- connect cfg;
  match r with
  | Err e => ret (Err e)
  | Ok c => ret (Ok c)
  end.

(** [Client.Close] *)
Definition Close : M Env unit :=
  mutex_Lock ;;;
  deferring mutex_Unlock
    (do e <- get;
     match APIClient (client e) with
     | Some h => onNet (gofish.Logout h)
     | None => ret tt
     end).

(** [Client.reconnect] *)
Definition reconnect : M Env error :=
  mutex_Lock ;;;
  deferring mutex_Unlock
    (do e <- get;
     (match APIClient (client e) with
      | Some _ => Close
      | None => ret tt
      end) ;;;
     do r <- onNet (connect (config (client e)));
     match r with
     | Err err => ret (Some err)
     | Ok newClient => modify (set_APIClient (APIClient newClient)) ;;; ret None
     end).

(** [Client.GetChassis] *)
Definition GetChassis : M Env (list (option Chassis) * error) :=
  mutex_Lock ;;;
  deferring mutex_Unlock (onNet gofish.Service_Chassis).

(** [isAuthError], on a non-nil error *)
Definition isAuthError (errStr : string) : bool :=
  strings.Contains errStr "401" ||
  strings.Contains errStr "unauthorized" ||
  strings.Contains errStr "authentication" ||
  strings.Contains errStr "session expired".

(** The condition under which a failed listing is used all the same. *)
Definition isPartial (errStr : string) (chassis : list (option Chassis)) : bool :=
  strings.Contains errStr "failed to retrieve some items" && (0 <? length chassis)%nat.

(** The loop [for _, ch := range chassis { if ch != nil && ch.ID == id { return ch, nil } }] *)
Fixpoint lookFor (id : string) (chassis : list (option Chassis)) : option Chassis :=
  match chassis with
  | [] => None
  | Some ch :: rest => if String.eqb (ID ch) id then Some ch else lookFor id rest
  | None :: rest => lookFor id rest
  end.

(** [Client.GetMainChassis] *)
Definition GetMainChassis : M Env (result Chassis) :=
  mutex_Lock ;;;
  deferring mutex_Unlock
    (do (chassis, err) <- onNet gofish.Service_Chassis;
     do r <-
       match err with
       | None => ret (Ok chassis)
       | Some e =>
           if isPartial e chassis then ret (Ok chassis)
           else if isAuthError e then
             do reconnectErr <- reconnect;
             match reconnectErr with
             | Some re =>
                 ret (Err ("failed to reconnect: " ++ re ++ " (original error: " ++ e ++ ")"))
             | None =>
                 do (chassis', err') <- onNet gofish.Service_Chassis;
                 match err' with
                 | Some e' => ret (Err e')
                 | None => ret (Ok chassis')
                 end
             end
           else ret (Err e)
       end;
     match r with
     | Err e => ret (Err e)
     | Ok chassis =>
         if (length chassis =? 0)%nat then ret (Err "no chassis found")
         else match lookFor "1" chassis with
              | Some ch => ret (Ok ch)
              | None => ret (Err "main chassis (ID 1) not found")
              end
     end).

(** [Client.GetChassisWithID] *)
Definition GetChassisWithID (id : string) : M Env (result Chassis) :=
  if String.eqb id "1" then GetMainChassis
  else
  mutex_Lock ;;;
  deferring mutex_Unlock
    (do (chassis, err) <- onNet gofish.Service_Chassis;
     do r <-
       match err with
       | None => ret (Ok chassis)
       | Some e =>
           if isPartial e chassis then ret (Ok chassis)
           else if isAuthError e then
             do reconnectErr <- reconnect;
             match reconnectErr with
             | Some re =>
                 ret (Err ("failed to reconnect: " ++ re ++ " (original error: " ++ e ++ ")"))
             | None =>
                 do (chassis', err') <- onNet gofish.Service_Chassis;
                 match err' with
                 | Some e' => ret (Err e')
                 | None => ret (Ok chassis')
                 end
             end
           else ret (Err e)
       end;
     match r with
     | Err e => ret (Err e)
     | Ok chassis =>
         if (length chassis =? 0)%nat then ret (Err "no chassis found")
         else match lookFor id chassis with
              | Some ch => ret (Ok ch)
              | None => ret (Err ("chassis with ID " ++ id ++ " not found"))
              end
     end).

(** The test [len(ch.ID) == 1 && ch.ID[0] >= '0' && ch.ID[0] <= '9'] on the
    bytes of an identifier. *)
Definition isNumericID (id : string) : bool :=
  (String.length id =? 1)%nat &&
  match String.get 0 id with
  | Some c => (48 <=? Ascii.nat_of_ascii c)%nat && (Ascii.nat_of_ascii c <=? 57)%nat
  | None => false
  end.

(** [filterNumericChassis]; [None] is the nil-pointer panic of [ch.ID] on a
    nil entry. *)
Fixpoint filterNumericChassis (chassis : list (option Chassis))
  : option (list (option Chassis)) :=
  match chassis with
  | [] => Some []
  | None :: _ => None
  | Some ch :: rest =>
      match filterNumericChassis rest with
      | None => None
      | Some result => Some (if isNumericID (ID ch) then Some ch :: result else result)
      end
  end.

End redfish.

(** ** pkg/utils *)

Module utils.

(** [Round] *)
Definition Round `{GoFloatLib} (num : float) (places : Z) : float :=
  let multiplier := math_Pow 10 (float64_of_int places) in
  (math_Round (num * multiplier) / multiplier)%float.

End utils.

(** ** internal/collector/collector.go *)

Module collector.

(** A sample sent on the metrics channel: a constant metric built by
    [prometheus.MustNewConstMetric], or a collector's scrape-duration gauge
    (its value is a wall-clock duration, which is not modelled). *)
Inductive Metric :=
| ConstMetric (fqName : string) (value : float) (labelValues : list string)
| ScrapeTime (fqName : string).

(** [BaseCollector].  [scrapeTime] is the gauge's name; [recorded] tells
    whether [RecordScrapeTime] has set it. *)
Record BaseCollector := {
  mutex : bool;
  scrapeTime : string;
  recorded : bool;
  target : string;
}.

(** [NewBaseCollector] *)
Definition NewBaseCollector (namespace subsystem : string) : BaseCollector :=
  {| mutex := false;
     scrapeTime := namespace ++ "_" ++ subsystem ++ "_scrape_duration_seconds";
     recorded := false;
     target := "" |}.

(** Struct embedding: a collector type contains a [BaseCollector]. *)
Class Embeds (C : Type) := {
  base : C -> BaseCollector;
  with_base : BaseCollector -> C -> C;
}.

Section Base.
Context {C : Type} `{Embeds C}.

Definition mutex_held (c : C) : bool := mutex (base c).
Definition set_mutex (b : bool) (c : C) : C :=
  with_base {| mutex := b; scrapeTime := scrapeTime (base c);
               recorded := recorded (base c); target := target (base c) |} c.
Definition mutex_Lock : M C unit := Mutex.Lock mutex_held set_mutex.
Definition mutex_Unlock : M C unit := Mutex.Unlock mutex_held set_mutex.

(** [BaseCollector.SetTarget] *)
Definition SetTarget (t : string) : M C unit :=
  mutex_Lock ;;;
  deferring mutex_Unlock
    (modify (fun c => with_base {| mutex := mutex (base c); scrapeTime := scrapeTime (base c);
                                   recorded := recorded (base c); target := t |} c)).

(** [BaseCollector.RecordScrapeTime] *)
Definition RecordScrapeTime : M C unit :=
  mutex_Lock ;;;
  deferring mutex_Unlock
    (modify (fun c => with_base {| mutex := mutex (base c); scrapeTime := scrapeTime (base c);
                                   recorded := true; target := target (base c) |} c)).

(** [BaseCollector.CollectScrapeTime] *)
Definition CollectScrapeTime (c : C) : list Metric := [ScrapeTime (scrapeTime (base c))].

End Base.

(** A collector at work: the collector object and the client it was handed. *)
Record Run (C : Type) := { col : C; env : redfish.Env }.
Arguments col {C} r.
Arguments env {C} r.

Definition onCol {C A} (m : M C A) : M (Run C) A :=
  zoom col (fun c r => {| col := c; env := env r |}) m.
Definition onClient {C A} (m : M redfish.Env A) : M (Run C) A :=
  zoom env (fun e r => {| col := col r; env := e |}) m.
Definition onRemote {C A} (m : M Net A) : M (Run C) A := onClient (redfish.onNet m).

(** The [Collector] interface ([Describe] sends static descriptors only and
    is left out). *)
Class Collector (C : Type) := {
  Update : M (Run C) error;
  Collect : M C (list Metric);
  setTarget : string -> M C unit;
}.

(** The health mapping.  Every collector that reports a health writes this
    same block: [health := 2.0; if h != "" { if h == "OK" { health = 1.0 }
    else { health = 0.0 } }]. *)
Definition healthOf (h : string) : float :=
  if negb (String.eqb h "") then
    if String.eqb h "OK" then 1%float else 0%float
  else 2%float.

End collector.

(** ** internal/collector/system.go *)

Module system.
Import collector.

Record systemReading := {
  powerState : float;
  health : float;
  cores : float;
  name : string;
  model : string;
  totalMemoryGiB : string;
}.

(** The zero value, which a map lookup yields for a missing key. *)
Definition zeroReading : systemReading :=
  {| powerState := 0; health := 0; cores := 0; name := ""; model := ""; totalMemoryGiB := "" |}.

Record SystemCollector := {
  baseCollector : BaseCollector;
  readings : gmap string systemReading;
  firstCPUID : string;
}.

#[global] Instance SystemCollector_Embeds : Embeds SystemCollector := {
  base := baseCollector;
  with_base b c := {| baseCollector := b; readings := readings c; firstCPUID := firstCPUID c |};
}.

Definition set_readings (m : gmap string systemReading) (c : SystemCollector) : SystemCollector :=
  {| baseCollector := baseCollector c; readings := m; firstCPUID := firstCPUID c |}.
Definition set_firstCPUID (id : string) (c : SystemCollector) : SystemCollector :=
  {| baseCollector := baseCollector c; readings := readings c; firstCPUID := id |}.

(** [NewSystemCollector] *)
Definition NewSystemCollector : SystemCollector :=
  {| baseCollector := NewBaseCollector "ipmi" "system"; readings := ∅; firstCPUID := "" |}.

Section WithLib.
Context `{GoFloatLib}.

(** The reading built for one processor. *)
Definition cpuReading (powerState : float) (cpu : Processor) : systemReading :=
  let health := healthOf (Health (proc_Status cpu)) in
  {| powerState := powerState;
     health := health;
     cores := float64_of_int (TotalCores cpu);
     name := proc_ID cpu;
     model := Model cpu;
     totalMemoryGiB := "" |}.

(** The body of the loop over the processors: one map store. *)
Definition storeCPU (powerState : float) (m : gmap string systemReading) (cpu : Processor)
  : gmap string systemReading :=
  <[proc_ID cpu := cpuReading powerState cpu]> m.

(** What [Update] does to the collector once the processors are fetched
    (it holds the collector's mutex throughout). *)
Definition storeSystem (system : ComputerSystem) (powerState : float)
    (processors : list Processor) (c : SystemCollector) : SystemCollector :=
  let c := match processors with
           | p :: _ => set_firstCPUID (proc_ID p) c
           | [] => c
           end in
  let c := set_readings (foldl (storeCPU powerState) (readings c) processors) c in
  let memoryHealth := healthOf (Health (mem_Status (memorySummary system))) in
  let total := Sprintf_0f (TotalSystemMemoryGiB (memorySummary system)) in
  if (0 <? size (readings c))%nat then
    let reading := default zeroReading (readings c !! firstCPUID c) in
    let reading := {| powerState := powerState;
                      health := memoryHealth;
                      cores := cores reading;
                      name := name reading;
                      model := model reading;
                      totalMemoryGiB := total |} in
    set_readings (<[firstCPUID c := reading]> (readings c)) c
  else c.

(** [SystemCollector.Update] *)
Definition Update : M (Run SystemCollector) error :=
  deferring (onCol RecordScrapeTime)
    (do (systems, err) <- onRemote gofish.Service_Systems;
     match err with
     | Some _ => ret None
     | None =>
         match systems with
         | [] => panic "runtime error: index out of range [0] with length 0"
         | system :: _ =>
             onCol mutex_Lock ;;;
             deferring (onCol mutex_Unlock)
               (onCol (modify (set_readings ∅)) ;;;
                let powerState : float :=
                  if String.eqb (PowerState system) "On" then 1%float else 0%float in
                do r <- onRemote (gofish.System_Processors system);
                match r with
                | Err _ => ret None
                | Ok processors =>
                    onCol (modify (storeSystem system powerState processors)) ;;;
                    ret None
                end)
         end
     end).

(** The samples [Collect] sends for one reading. *)
Definition collectReading (firstCPUID : string) (reading : systemReading) : list Metric :=
  ((if String.eqb (name reading) firstCPUID then
      [ConstMetric "ipmi_system_power_state" (powerState reading) [];
       ConstMetric "ipmi_memory_health" (health reading) [totalMemoryGiB reading]]
    else []) ++
   [ConstMetric "ipmi_cpu_health" (health reading)
      [name reading; model reading; fmt.Sprintf_dZ (int_of_float64 (cores reading))]])%list.

(** [SystemCollector.Collect].  Go ranges over the map in an unspecified
    order; the samples are listed here in the order of [map_to_list]. *)
Definition Collect : M SystemCollector (list Metric) :=
  mutex_Lock ;;;
  deferring mutex_Unlock
    (do c <- get;
     ret (concat (map (fun kv => collectReading (firstCPUID c) (snd kv))
                      (map_to_list (readings c)))
          ++ CollectScrapeTime c)%list).

#[global] Instance SystemCollector_Collector : Collector SystemCollector := {
  Update := Update;
  Collect := Collect;
  setTarget := SetTarget;
}.

End WithLib.
End system.

(** ** internal/collector/sensors.go *)

Module sensors.
Import collector.

Record sensorReading := {
  value : float;
  health : float;
  name : string;
  sensorType : string;
}.

Record SensorCollector := {
  baseCollector : BaseCollector;
  readings : gmap string sensorReading;
}.

#[global] Instance SensorCollector_Embeds : Embeds SensorCollector := {
  base := baseCollector;
  with_base b c := {| baseCollector := b; readings := readings c |};
}.

Definition set_readings (m : gmap string sensorReading) (c : SensorCollector) : SensorCollector :=
  {| baseCollector := baseCollector c; readings := m |}.

(** [NewSensorCollector] *)
Definition NewSensorCollector : SensorCollector :=
  {| baseCollector := NewBaseCollector "ipmi" "sensor"; readings := ∅ |}.

(** The reading built for one temperature sensor. *)
Definition temperatureReading (temp : Temperature) : sensorReading :=
  let health := healthOf (Health (temp_Status temp)) in
  {| value := ReadingCelsius temp;
     health := health;
     name := temp_Name temp;
     sensorType := "temperature" |}.

(** The body of the loop over the temperatures. *)
Definition storeTemperature (m : gmap string sensorReading) (temp : Temperature)
  : gmap string sensorReading :=
  if String.eqb (temp_Name temp) "" then m
  else <[temp_Name temp := temperatureReading temp]> m.

Section WithLib.
Context `{GoFloatLib}.

(** The reading built for one voltage sensor. *)
Definition voltageReading (volt : Voltage) : sensorReading :=
  let health := healthOf (Health (volt_Status volt)) in
  {| value := utils.Round (ReadingVolts volt) 3;
     health := health;
     name := volt_Name volt;
     sensorType := "voltage" |}.

(** The body of the loop over the voltages. *)
Definition storeVoltage (m : gmap string sensorReading) (volt : Voltage)
  : gmap string sensorReading :=
  if String.eqb (volt_Name volt) "" then m
  else <[volt_Name volt := voltageReading volt]> m.

(** [SensorCollector.Update] *)
Definition Update : M (Run SensorCollector) error :=
  deferring (onCol RecordScrapeTime)
    (onCol mutex_Lock ;;;
     onCol (modify (set_readings ∅)) ;;;
     onCol mutex_Unlock ;;;
     do r <- onClient (redfish.GetChassisWithID "1");
     match r with
     | Err _ => ret None
     | Ok chassis =>
         onCol mutex_Lock ;;;
         deferring (onCol mutex_Unlock)
           (do t <- onRemote (gofish.Chassis_Thermal chassis);
            match t with
            | Err _ => ret None
            | Ok thermal =>
                onCol (modify (fun c =>
                  set_readings (foldl storeTemperature (readings c) (Temperatures thermal)) c)) ;;;
                do p <- onRemote (gofish.Chassis_Power chassis);
                match p with
                | Err _ =>
                    do r <- get;
                    if (0 <? size (readings (col r)))%nat then ret None
                    else ret None
                | Ok power =>
                    onCol (modify (fun c =>
                      set_readings (foldl storeVoltage (readings c) (Voltages power)) c)) ;;;
                    ret None
                end
            end)
     end).

End WithLib.

(** The samples [Collect] sends for one reading. *)
Definition collectReading (reading : sensorReading) : list Metric :=
  if String.eqb (sensorType reading) "temperature" then
    [ConstMetric "ipmi_temperature_celsius" (value reading) [name reading];
     ConstMetric "ipmi_temperature_health" (health reading) [name reading]]
  else if String.eqb (sensorType reading) "voltage" then
    [ConstMetric "ipmi_voltage_volts" (value reading) [name reading];
     ConstMetric "ipmi_voltage_health" (health reading) [name reading]]
  else [].

(** [SensorCollector.Collect] (samples in the order of [map_to_list]) *)
Definition Collect : M SensorCollector (list Metric) :=
  mutex_Lock ;;;
  deferring mutex_Unlock
    (do c <- get;
     ret (concat (map (fun kv => collectReading (snd kv)) (map_to_list (readings c)))
          ++ CollectScrapeTime c)%list).

#[global] Instance SensorCollector_Collector `{GoFloatLib} : Collector SensorCollector := {
  Update := Update;
  Collect := Collect;
  setTarget := SetTarget;
}.

End sensors.

(** ** internal/collector/power.go *)

Module power.
Import collector.

Record psuReading := {
  health : float;
  acPower : float;
  dcPower : float;
  name : string;
}.

Record PowerCollector := {
  baseCollector : BaseCollector;
  readings : gmap string psuReading;
}.

#[global] Instance PowerCollector_Embeds : Embeds PowerCollector := {
  base := baseCollector;
  with_base b c := {| baseCollector := b; readings := readings c |};
}.

Definition set_readings (m : gmap string psuReading) (c : PowerCollector) : PowerCollector :=
  {| baseCollector := baseCollector c; readings := m |}.

(** [NewPowerCollector] *)
Definition NewPowerCollector : PowerCollector :=
  {| baseCollector := NewBaseCollector "ipmi" "power"; readings := ∅ |}.

(** The reading built for one power supply, [psuCount] being its ordinal. *)
Definition psuReadingOf (psuCount : nat) (psu : PowerSupply) : psuReading :=
  let health := healthOf (Health (psu_Status psu)) in
  {| health := health;
     name := "PSU " ++ fmt.Sprintf_d psuCount;
     acPower := PowerInputWatts psu;
     dcPower := PowerOutputWatts psu |}.

(** The body of the loop over the power supplies, the same in [Update] and
    in [tryAlternativeChassis]; the state is the map and [psuCount]. *)
Definition storePSU (st : gmap string psuReading * nat) (psu : PowerSupply)
  : gmap string psuReading * nat :=
  let (m, psuCount) := st in
  if String.eqb (psu_Name psu) "" then (m, psuCount)
  else
    let psuCount := S psuCount in
    (<[psu_Name psu := psuReadingOf psuCount psu]> m, psuCount).

(** The whole loop, started with [psuCount := 0]. *)
Definition storePSUs (m : gmap string psuReading) (psus : list PowerSupply)
  : gmap string psuReading * nat :=
  foldl storePSU (m, 0) psus.

(** The deferred [c.mutex.Unlock()] calls registered so far, run at exit. *)
Fixpoint unlocks (pending : nat) : M PowerCollector unit :=
  match pending with
  | 0 => ret tt
  | S k => mutex_Unlock ;;; unlocks k
  end.

Definition denylisted : string := "NVMeSSD.0.Group.0.StorageBackplane".

(** The loop of [tryAlternativeChassis] and the code after it.  [pending]
    counts the [defer c.mutex.Unlock()] statements executed so far: a
    [defer] inside the loop body runs when the function exits, not when the
    iteration ends. *)
Fixpoint scanChassis (allChassis : list (option Chassis)) (pending : nat)
  : M (Run PowerCollector) error :=
  match allChassis with
  | [] =>
      deferring (onCol (unlocks pending))
        (do r <- get;
         if (size (readings (col r)) =? 0)%nat
         then ret (Some "could not find any chassis with power supply information")
         else ret None)
  | None :: _ =>
      deferring (onCol (unlocks pending))
        (panic "runtime error: invalid memory address or nil pointer dereference")
  | Some chassis :: rest =>
      if String.eqb (ID chassis) denylisted then scanChassis rest pending
      else
        do p <- onRemote (gofish.Chassis_Power chassis);
        match p with
        | Err _ => scanChassis rest pending
        | Ok power =>
            onCol mutex_Lock ;;;
            let pending := S pending in
            do r <- get;
            let (m, psuCount) := storePSUs (readings (col r)) (PowerSupplies power) in
            onCol (modify (set_readings m)) ;;;
            if (0 <? psuCount)%nat then deferring (onCol (unlocks pending)) (ret None)
            else scanChassis rest pending
        end
  end.

(** [PowerCollector.tryAlternativeChassis] *)
Definition tryAlternativeChassis : M (Run PowerCollector) error :=
  do (allChassis, err) <- onClient redfish.GetChassis;
  match err with
  | Some e => ret (Some ("failed to get any chassis: " ++ e))
  | None => scanChassis allChassis 0
  end.

(** [PowerCollector.Update] *)
Definition Update : M (Run PowerCollector) error :=
  deferring (onCol RecordScrapeTime)
    (onCol mutex_Lock ;;;
     onCol (modify (set_readings ∅)) ;;;
     onCol mutex_Unlock ;;;
     do r <- onClient (redfish.GetChassisWithID "1");
     match r with
     | Err _ => tryAlternativeChassis
     | Ok chassis =>
         do p <- onRemote (gofish.Chassis_Power chassis);
         match p with
         | Err _ => tryAlternativeChassis
         | Ok power =>
             onCol mutex_Lock ;;;
             deferring (onCol mutex_Unlock)
               (onCol (modify (fun c =>
                  set_readings (fst (storePSUs (readings c) (PowerSupplies power))) c)) ;;;
                ret None)
         end
     end).

(** The samples [Collect] sends for one reading. *)
Definition collectReading (reading : psuReading) : list Metric :=
  [ConstMetric "ipmi_psu_health" (health reading) [name reading];
   ConstMetric "ipmi_psu_ac_input_power_watts" (acPower reading) [name reading];
   ConstMetric "ipmi_psu_dc_output_power_watts" (dcPower reading) [name reading]].

(** [PowerCollector.Collect] (samples in the order of [map_to_list]) *)
Definition Collect : M PowerCollector (list Metric) :=
  mutex_Lock ;;;
  deferring mutex_Unlock
    (do c <- get;
     ret (concat (map (fun kv => collectReading (snd kv)) (map_to_list (readings c)))
          ++ CollectScrapeTime c)%list).

#[global] Instance PowerCollector_Collector : Collector PowerCollector := {
  Update := Update;
  Collect := Collect;
  setTarget := SetTarget;
}.

End power.

(** ** internal/collector/fans.go *)

Module fans.
Import collector.

Record fanMetric := {
  health : float;
  state : float;
  speed : float;
  name : string;
}.

Record FansCollector := {
  baseCollector : BaseCollector;
  fans : gmap string fanMetric;
}.

#[global] Instance FansCollector_Embeds : Embeds FansCollector := {
  base := baseCollector;
  with_base b c := {| baseCollector := b; fans := fans c |};
}.

Definition set_fans (m : gmap string fanMetric) (c : FansCollector) : FansCollector :=
  {| baseCollector := baseCollector c; fans := m |}.

(** [NewFansCollector] *)
Definition NewFansCollector : FansCollector :=
  {| baseCollector := NewBaseCollector "ipmi" "fan"; fans := ∅ |}.

(** The reading built for one fan. *)
Definition fanMetricOf (fan : Fan) : fanMetric :=
  let health := healthOf (Health (fan_Status fan)) in
  let state : float :=
    if String.eqb (State (fan_Status fan)) "Enabled" then 1%float else 0%float in
  {| health := health;
     state := state;
     speed := Reading fan;
     name := fan_Name fan |}.

(** The body of the loop over the fans. *)
Definition storeFan (m : gmap string fanMetric) (fan : Fan) : gmap string fanMetric :=
  if String.eqb (fan_Name fan) "" then m
  else <[fan_Name fan := fanMetricOf fan]> m.

(** [FansCollector.Update] *)
Definition Update : M (Run FansCollector) error :=
  deferring (onCol RecordScrapeTime)
    (onCol mutex_Lock ;;;
     onCol (modify (set_fans ∅)) ;;;
     onCol mutex_Unlock ;;;
     do r <- onClient redfish.GetMainChassis;
     match r with
     | Err _ => ret None
     | Ok chassis =>
         do t <- onRemote (gofish.Chassis_Thermal chassis);
         match t with
         | Err _ => ret None
         | Ok thermal =>
             onCol mutex_Lock ;;;
             deferring (onCol mutex_Unlock)
               (onCol (modify (fun c => set_fans (foldl storeFan (fans c) (Fans thermal)) c)) ;;;
                ret None)
         end
     end).

(** The samples [Collect] sends for one reading. *)
Definition collectReading (reading : fanMetric) : list Metric :=
  [ConstMetric "ipmi_fan_health" (health reading) [name reading];
   ConstMetric "ipmi_fan_state" (state reading) [name reading];
   ConstMetric "ipmi_fan_speed_rpm" (speed reading) [name reading]].

(** [FansCollector.Collect] (samples in the order of [map_to_list]) *)
Definition Collect : M FansCollector (list Metric) :=
  mutex_Lock ;;;
  deferring mutex_Unlock
    (do c <- get;
     ret (concat (map (fun kv => collectReading (snd kv)) (map_to_list (fans c)))
          ++ CollectScrapeTime c)%list).

#[global] Instance FansCollector_Collector : Collector FansCollector := {
  Update := Update;
  Collect := Collect;
  setTarget := SetTarget;
}.

End fans.

(** ** internal/collector/telemetry.go *)

Module telemetry.
Import collector.

Record TelemetryCollector := {
  baseCollector : BaseCollector;
  reading : float;
}.

#[global] Instance TelemetryCollector_Embeds : Embeds TelemetryCollector := {
  base := baseCollector;
  with_base b c := {| baseCollector := b; reading := reading c |};
}.

Definition set_reading (x : float) (c : TelemetryCollector) : TelemetryCollector :=
  {| baseCollector := baseCollector c; reading := x |}.

(** [NewTelemetryCollector] *)
Definition NewTelemetryCollector : TelemetryCollector :=
  {| baseCollector := NewBaseCollector "ipmi" "telemetry"; reading := 0 |}.

(** The loop over the power-control entries: the first one whose consumed
    watts are positive is stored, then [break]. *)
Fixpoint firstPositive (pcs : list PowerControl) (c : TelemetryCollector) : TelemetryCollector :=
  match pcs with
  | [] => c
  | pc :: rest =>
      if (0 <? PowerConsumedWatts pc)%float then set_reading (PowerConsumedWatts pc) c
      else firstPositive rest c
  end.

(** [TelemetryCollector.Update] *)
Definition Update : M (Run TelemetryCollector) error :=
  deferring (onCol RecordScrapeTime)
    (onCol mutex_Lock ;;;
     onCol (modify (set_reading 0)) ;;;
     onCol mutex_Unlock ;;;
     do r <- onClient redfish.GetMainChassis;
     match r with
     | Err _ => ret None
     | Ok chassis =>
         do p <- onRemote (gofish.Chassis_Power chassis);
         match p with
         | Err _ => ret None
         | Ok power =>
             onCol mutex_Lock ;;;
             deferring (onCol mutex_Unlock)
               (onCol (modify (firstPositive (PowerControls power))) ;;;
                ret None)
         end
     end).

(** [TelemetryCollector.Collect] *)
Definition Collect : M TelemetryCollector (list Metric) :=
  mutex_Lock ;;;
  deferring mutex_Unlock
    (do c <- get;
     ret ((if (0 <? reading c)%float
           then [ConstMetric "ipmi_telemetry_power_consumption_watts" (reading c) []]
           else []) ++ CollectScrapeTime c)%list).

#[global] Instance TelemetryCollector_Collector : Collector TelemetryCollector := {
  Update := Update;
  Collect := Collect;
  setTarget := SetTarget;
}.

End telemetry.

(** ** internal/config *)

Module config.

Record Config := {
  RedfishHost : string;
  RedfishUsername : string;
  RedfishPassword : string;
  RedfishInsecure : bool;
  ListenAddress : string;
  MetricsPath : string;
}.

End config.

(** ** cmd/sherlock/main.go *)

Module main.
Import collector.

(** A line written by the orchestrator's logger. *)
Record LogEntry := { level : string; msg : string; fields : list (string * string) }.

(** [SherlockCollector].  The map holds pointers: the client stored under a
    hostname is the object every scrape of that target works on. *)
Record SherlockCollector := {
  cfg : config.Config;
  clients : gmap string redfish.Client;
  mutex : bool;
  logger : list LogEntry;
}.

(** The process: the orchestrator and the network. *)
Record World := { sherlock : SherlockCollector; network : Net }.

Definition set_sherlock (c : SherlockCollector) (w : World) : World :=
  {| sherlock := c; network := network w |}.
Definition set_network (n : Net) (w : World) : World :=
  {| sherlock := sherlock w; network := n |}.
Definition set_mutex (b : bool) (w : World) : World :=
  set_sherlock {| cfg := cfg (sherlock w); clients := clients (sherlock w);
                  mutex := b; logger := logger (sherlock w) |} w.
Definition set_client (hostname : string) (client : redfish.Client) (w : World) : World :=
  set_sherlock {| cfg := cfg (sherlock w); clients := <[hostname := client]> (clients (sherlock w));
                  mutex := mutex (sherlock w); logger := logger (sherlock w) |} w.
Definition log (e : LogEntry) (w : World) : World :=
  set_sherlock {| cfg := cfg (sherlock w); clients := clients (sherlock w);
                  mutex := mutex (sherlock w); logger := logger (sherlock w) ++ [e] |} w.

Definition mutex_Lock : M World unit := Mutex.Lock (fun w => mutex (sherlock w)) set_mutex.
Definition mutex_Unlock : M World unit := Mutex.Unlock (fun w => mutex (sherlock w)) set_mutex.
Definition onNetwork {A} (m : M Net A) : M World A := zoom network set_network m.

(** [NewSherlockCollector] *)
Definition NewSherlockCollector (c : config.Config) : SherlockCollector :=
  {| cfg := c; clients := ∅; mutex := false; logger := [] |}.

(** [SherlockCollector.getClient] *)
Definition getClient (hostname : string) : M World (result redfish.Client) :=
  mutex_Lock ;;;
  deferring mutex_Unlock
    (do w <- get;
     match clients (sherlock w) !! hostname with
     | Some client => ret (Ok client)
     | None =>
         let targetURL := "https://" ++ hostname in
         let redfishConfig :=
           {| redfish.Host := targetURL;
              redfish.Username := config.RedfishUsername (cfg (sherlock w));
              redfish.Password := config.RedfishPassword (cfg (sherlock w));
              redfish.Insecure := config.RedfishInsecure (cfg (sherlock w)) |} in
         do r <- onNetwork (redfish.NewClient redfishConfig);
         match r with
         | Err e => ret (Err e)
         | Ok client => modify (set_client hostname client) ;;; ret (Ok client)
         end
     end).

(** [client.Close(); delete(c.clients, target)] for one entry of the map:
    the client is closed through its pointer, then dropped from the map. *)
Definition closeClient (target : string) (client : redfish.Client) : M World unit :=
  zoom (fun w => {| redfish.net := network w; redfish.client := client |})
       (fun e w => set_client target (redfish.client e) (set_network (redfish.net e) w))
       redfish.Close ;;;
  modify (fun w =>
    set_sherlock {| cfg := cfg (sherlock w);
                    clients := delete target (clients (sherlock w));
                    mutex := mutex (sherlock w);
                    logger := logger (sherlock w) |} w).

(** The loop of [Close] over the entries of the map. *)
Fixpoint closeEach (entries : list (string * redfish.Client)) : M World unit :=
  match entries with
  | [] => ret tt
  | (target, client) :: rest => closeClient target client ;;; closeEach rest
  end.

(** [SherlockCollector.Close].  Go ranges over the map in an unspecified
    order; the clients are closed here in the order of [map_to_list]. *)
Definition Close : M World unit :=
  mutex_Lock ;;;
  deferring mutex_Unlock
    (do w <- get; closeEach (map_to_list (clients (sherlock w)))).

(** The five implementations behind the [collector.Collector] interface. *)
Inductive AnyCollector :=
| OfSystem (c : system.SystemCollector)
| OfSensor (c : sensors.SensorCollector)
| OfPower (c : power.PowerCollector)
| OfFans (c : fans.FansCollector)
| OfTelemetry (c : telemetry.TelemetryCollector).

(** What [%T] prints for a collector. *)
Definition typeName (c : AnyCollector) : string :=
  match c with
  | OfSystem _ => "*collector.SystemCollector"
  | OfSensor _ => "*collector.SensorCollector"
  | OfPower _ => "*collector.PowerCollector"
  | OfFans _ => "*collector.FansCollector"
  | OfTelemetry _ => "*collector.TelemetryCollector"
  end.

(** A method of the implementation [C], called through the interface. *)
Definition dispatch {C A} (inj : C -> AnyCollector) (m : M C A) (c : C) : M AnyCollector A :=
  fun _ =>
    match m c with
    | Returns a c' => Returns a (inj c')
    | Blocked c' => Blocked (inj c')
    | Panicked e c' => Panicked e (inj c')
    end.

Definition dispatchRun {C A} (inj : C -> AnyCollector) (m : M (Run C) A) (c : C)
  : M (Run AnyCollector) A :=
  fun r =>
    match m {| col := c; env := env r |} with
    | Returns a r' => Returns a {| col := inj (col r'); env := env r' |}
    | Blocked r' => Blocked {| col := inj (col r'); env := env r' |}
    | Panicked e r' => Panicked e {| col := inj (col r'); env := env r' |}
    end.

Section WithLib.
Context `{GoFloatLib}.

#[global] Instance AnyCollector_Collector : Collector AnyCollector := {
  Update := fun r =>
    match col r with
    | OfSystem c => dispatchRun OfSystem system.Update c r
    | OfSensor c => dispatchRun OfSensor sensors.Update c r
    | OfPower c => dispatchRun OfPower power.Update c r
    | OfFans c => dispatchRun OfFans fans.Update c r
    | OfTelemetry c => dispatchRun OfTelemetry telemetry.Update c r
    end;
  Collect := fun a =>
    match a with
    | OfSystem c => dispatch OfSystem system.Collect c a
    | OfSensor c => dispatch OfSensor sensors.Collect c a
    | OfPower c => dispatch OfPower power.Collect c a
    | OfFans c => dispatch OfFans fans.Collect c a
    | OfTelemetry c => dispatch OfTelemetry telemetry.Collect c a
    end;
  setTarget := fun t a =>
    match a with
    | OfSystem c => dispatch OfSystem (SetTarget t) c a
    | OfSensor c => dispatch OfSensor (SetTarget t) c a
    | OfPower c => dispatch OfPower (SetTarget t) c a
    | OfFans c => dispatch OfFans (SetTarget t) c a
    | OfTelemetry c => dispatch OfTelemetry (SetTarget t) c a
    end;
}.

(** The slice built by [collectTarget]. *)
Definition newCollectors : list AnyCollector :=
  [OfSystem system.NewSystemCollector;
   OfSensor sensors.NewSensorCollector;
   OfPower power.NewPowerCollector;
   OfFans fans.NewFansCollector;
   OfTelemetry telemetry.NewTelemetryCollector].

(** The state of the fan-out: the collectors, the client they share (with
    the network), the buffered error channel, and the goroutines that are
    parked and will never call [wg.Done]. *)
Record FanOut := {
  collectors : list AnyCollector;
  shared : redfish.Env;
  errChan : list string;
  parked : list nat;
}.

Definition set_collectors (cs : list AnyCollector) (f : FanOut) : FanOut :=
  {| collectors := cs; shared := shared f; errChan := errChan f; parked := parked f |}.

(** One goroutine of the fan-out, run to its end:
    [if err := collectors[index].Update(client); err != nil { errChan <- ... }].
    A goroutine that parks keeps what it did so far; a panic in a goroutine
    ends the process. *)
Definition runTask (target : string) (index : nat) : M FanOut unit :=
  fun f =>
    match collectors f !! index with
    | None => Returns tt f
    | Some c =>
        match Update {| col := c; env := shared f |} with
        | Returns err r =>
            Returns tt
              {| collectors := <[index := col r]> (collectors f);
                 shared := env r;
                 errChan :=
                   match err with
                   | None => errChan f
                   | Some e =>
                       errChan f ++
                       ["error updating collector " ++ typeName c ++ " for target "
                          ++ target ++ ": " ++ e]
                   end;
                 parked := parked f |}
        | Blocked r =>
            Returns tt
              {| collectors := <[index := col r]> (collectors f);
                 shared := env r;
                 errChan := errChan f;
                 parked := parked f ++ [index] |}
        | Panicked e r =>
            Panicked e
              {| collectors := <[index := col r]> (collectors f);
                 shared := env r;
                 errChan := errChan f;
                 parked := parked f |}
        end
    end.

(** [wg.Wait()] returns once every goroutine has called [wg.Done]. *)
Definition wg_Wait : M FanOut unit :=
  fun f => match parked f with [] => Returns tt f | _ => Blocked f end.

(** The goroutines, in the order [sched] in which the scheduler runs them
    (each one runs to its end, or parks, before the next starts). *)
Fixpoint runTasks (target : string) (sched : list nat) : M FanOut unit :=
  match sched with
  | [] => ret tt
  | index :: rest => runTask target index ;;; runTasks target rest
  end.

(** [collectTarget] from the construction of the collectors to the closing
    of the error channel. *)
Definition fanOut (sched : list nat) (target : string) : M FanOut unit :=
  zoom collectors set_collectors (forEach (setTarget target)) ;;;
  runTasks target sched ;;;
  wg_Wait.

(** The fan-out at its start: fresh collectors around the target's client. *)
Definition startFanOut (client : redfish.Client) (w : World) : FanOut :=
  {| collectors := newCollectors;
     shared := {| redfish.net := network w; redfish.client := client |};
     errChan := [];
     parked := [] |}.

(** The client is shared by pointer: what the goroutines did to it, and to
    the network, is there for everybody afterwards. *)
Definition publish (target : string) (f : FanOut) (w : World) : World :=
  set_client target (redfish.client (shared f)) (set_network (redfish.net (shared f)) w).

(** [c.logger.Error("collector update failed", "error", err)] *)
Definition logFailure (w : World) (e : string) : World :=
  log {| level := "error"; msg := "collector update failed"; fields := [("error", e)] |} w.

(** [SherlockCollector.collectTarget]; the result is what was sent on [ch].
    [sched] is the order in which the five goroutines run. *)
Definition collectTarget (sched : list nat) (target : string) : M World (list Metric) :=
  do r <- getClient target;
  match r with
  | Err e =>
      modify (log {| level := "error"; msg := "failed to connect to redfish api";
                     fields := [("target", target); ("error", e)] |}) ;;;
      ret []
  | Ok client =>
      do f <- zoom (startFanOut client) (publish target) (fanOut sched target ;;; get);
      modify (fun w => foldl logFailure w (errChan f)) ;;;
      do sent <- scoped (forEach Collect) (collectors f);
      ret (concat sent)
  end.

(** What the scrape handler answers: the plain-text error of [http.Error],
    or the exposition of the samples gathered from the request's registry. *)
Inductive Response :=
| HttpError (text : string) (code : nat)
| Exposition (samples : list Metric).

(** [url.Values.Get]: the first value of the key, or the empty string. *)
Fixpoint Query_Get (query : list (string * string)) (key : string) : string :=
  match query with
  | [] => ""
  | (k, v) :: rest => if String.eqb k key then v else Query_Get rest key
  end.

Definition StatusBadRequest : nat := 400.

(** The handler registered on the metrics path in [main]. *)
Definition metricsHandler (sched : list nat) (query : list (string * string))
  : M World Response :=
  let target := Query_Get query "target" in
  if String.eqb target "" then
    ret (HttpError "Error: 'target' parameter is required (e.g. ?target=bmc.example.com)"
           StatusBadRequest)
  else
    let target := strings.TrimPrefix target "http://" in
    let target := strings.TrimPrefix target "https://" in
    do samples <- collectTarget sched target;
    ret (Exposition samples).

End WithLib.
End main.

(** * Specification-side definitions *)

Module Spec.

(** The health mapping as the specification words it: ["OK"] is 1.0, any
    other non-empty text is 0.0, an empty or absent status is 2.0. *)
Definition health (status : string) : float :=
  match status with
  | "OK" => 1%float
  | "" => 2%float
  | _ => 0%float
  end.

(** A power supply that reports a name. *)
Definition named (psu : PowerSupply) : bool := negb (String.eqb (psu_Name psu) "").

(** The number of named power supplies of a list. *)
Definition namedCount (psus : list PowerSupply) : nat := length (List.filter named psus).

(** The label synthesized for the [n]-th named power supply. *)
Definition label (n : nat) : string := "PSU " ++ fmt.Sprintf_d n.

(** While the loop runs past the first of two entries of one name, every
    label in the map is an ordinal handed out so far, and the ordinal [o] of
    that first entry can only sit under its own name. *)
Definition labelled (o : nat) (k0 : string) (m : gmap string power.psuReading) (n : nat) : Prop :=
  forall k r, m !! k = Some r ->
    exists j, power.name r = label j /\ j <= n /\ (j = o -> k = k0).

(** The network after one more chassis listing. *)
Definition listed (n : Net) : Net :=
  {| bmc := bmc n; connects := connects n; chassisCalls := S (chassisCalls n);
     systemsCalls := systemsCalls n; trace := trace n ++ [EvChassis] |}.

(** The message by which the client says that the requested chassis is not
    in the list. *)
Definition notFound (id : string) : string :=
  if String.eqb id "1" then "main chassis (ID 1) not found"
  else "chassis with ID " ++ id ++ " not found".

(** The errors of the not-found class: the list is empty, or it lacks the
    requested identifier. *)
Definition NotFoundError (id e : string) : Prop :=
  e = "no chassis found" \/ e = notFound id.

(** The first chassis of the list (nil pointers aside) with the identifier. *)
Definition selected (id : string) (chassis : list (option Chassis)) : option Chassis :=
  head (List.filter (fun ch => String.eqb (ID ch) id) (omap (fun ch => ch) chassis)).

(** Resolution of an identifier against a listing that needs no reconnect:
    a listing error is reported as it is unless it is a partial retrieval
    with at least one item; then the entry is selected from the list. *)
Definition resolution (id : string) (chassis : list (option Chassis)) (err : error)
  : result Chassis :=
  let pick :=
    match chassis with
    | [] => Err "no chassis found"
    | _ :: _ =>
        match selected id chassis with
        | Some ch => Ok ch
        | None => Err (notFound id)
        end
    end in
  match err with
  | None => pick
  | Some e => if redfish.isPartial e chassis then pick else Err e
  end.

(** What a collector sends when collected, by the readings it holds. *)
Definition samples `{GoFloatLib} (a : main.AnyCollector) : list collector.Metric :=
  match a with
  | main.OfSystem c =>
      concat (map (fun kv => system.collectReading (system.firstCPUID c) (snd kv))
                (map_to_list (system.readings c)))
      ++ collector.CollectScrapeTime c
  | main.OfSensor c =>
      concat (map (fun kv => sensors.collectReading (snd kv)) (map_to_list (sensors.readings c)))
      ++ collector.CollectScrapeTime c
  | main.OfPower c =>
      concat (map (fun kv => power.collectReading (snd kv)) (map_to_list (power.readings c)))
      ++ collector.CollectScrapeTime c
  | main.OfFans c =>
      concat (map (fun kv => fans.collectReading (snd kv)) (map_to_list (fans.fans c)))
      ++ collector.CollectScrapeTime c
  | main.OfTelemetry c =>
      (if (0 <? telemetry.reading c)%float
       then [collector.ConstMetric "ipmi_telemetry_power_consumption_watts"
               (telemetry.reading c) []]
       else [])
      ++ collector.CollectScrapeTime c
  end%list.

(** The collector's own mutex is free. *)
Definition free (a : main.AnyCollector) : Prop :=
  match a with
  | main.OfSystem c => collector.mutex (collector.base c) = false
  | main.OfSensor c => collector.mutex (collector.base c) = false
  | main.OfPower c => collector.mutex (collector.base c) = false
  | main.OfFans c => collector.mutex (collector.base c) = false
  | main.OfTelemetry c => collector.mutex (collector.base c) = false
  end.

(** The prefix a caller may have put before the hostname is gone. *)
Definition stripped (target : string) : string :=
  strings.TrimPrefix (strings.TrimPrefix target "http://") "https://".

End Spec.



(** * Further specification-side definitions *)

Module Facts.

(** The markers by which an error message counts as an authentication
    failure. *)
Definition authMarkers : list string :=
  ["401"; "unauthorized"; "authentication"; "session expired"].

(** [sub] occurs in [s]. *)
Definition occursIn (sub s : string) : Prop :=
  exists pre post : string, s = (pre ++ sub ++ post)%string.

(** What a resolution comes to, in closed form: parked at once when the
    mutex is held; parked after one listing when that listing fails with an
    authentication-class error that is not a tolerated partial retrieval;
    the resolution of the one listing otherwise. *)
Definition resolveOutcome (id : string) (e : redfish.Env) : outcome redfish.Env (result Chassis) :=
  if redfish.mutex (redfish.client e) then Blocked e
  else
    let (chassis, err) := chassisReply (bmc (redfish.net e)) (chassisCalls (redfish.net e)) in
    let e1 := redfish.set_net (Spec.listed (redfish.net e)) e in
    match err with
    | Some msg =>
        if negb (redfish.isPartial msg chassis) && redfish.isAuthError msg
        then Blocked (redfish.set_mutex true e1)
        else Returns (Spec.resolution id chassis err) e1
    | None => Returns (Spec.resolution id chassis err) e1
    end.

(** An identifier that is one decimal digit. *)
Definition digitID (id : string) : Prop :=
  exists d : nat, d < 10 /\ id = fmt.Sprintf_d d.

(** The non-nil entries of a chassis list. *)
Definition present (chassis : list (option Chassis)) : list Chassis :=
  omap (fun ch => ch) chassis.

(** The last element of a list with the key [k]. *)
Definition lastWith {A} (key : A -> string) (k : string) (l : list A) : option A :=
  last (List.filter (fun x => String.eqb (key x) k) l).

(** The loop that stores one reading per named element: the shape of the
    loops over fans, temperatures and voltages. *)
Definition storeBy {A V} (key : A -> string) (build : A -> V)
    (m : gmap string V) (x : A) : gmap string V :=
  if String.eqb (key x) "" then m else <[key x := build x]> m.

(** The first power-control entry with positive consumed watts. *)
Definition firstPositiveEntry (pcs : list PowerControl) : option PowerControl :=
  List.find (fun pc => (0 <? PowerConsumedWatts pc)%float) pcs.

(** A chassis the fallback scan passes over without taking the collector's
    mutex: denylisted, or answering its power query with an error. *)
Definition passedOver (ch : option Chassis) : Prop :=
  exists c, ch = Some c
    /\ (ID c = power.denylisted \/ exists msg, PowerReply c = Err msg).

(** The power queries the scan makes on the chassis it passes over. *)
Definition failedQueries (chassis : list (option Chassis)) : list Event :=
  omap (fun ch => match ch with
                  | Some c => if String.eqb (ID c) power.denylisted then None
                              else Some (EvPower (ID c))
                  | None => None
                  end) chassis.

(** A collector at work after some more remote calls. *)
Definition afterEvents {C} (evs : list Event) (r : collector.Run C) : collector.Run C :=
  {| collector.col := collector.col r;
     collector.env :=
       redfish.set_net
         {| bmc := bmc (redfish.net (collector.env r));
            connects := connects (redfish.net (collector.env r));
            chassisCalls := chassisCalls (redfish.net (collector.env r));
            systemsCalls := systemsCalls (redfish.net (collector.env r));
            trace := trace (redfish.net (collector.env r)) ++ evs |}
         (collector.env r) |}.

(** The state a call ended in, whatever its outcome. *)
Definition stateOf {S A} (o : outcome S A) : S :=
  match o with
  | Returns _ s => s
  | Blocked s => s
  | Panicked _ s => s
  end.

(** The client [getClient] builds for a hostname from the [n]-th connection. *)
Definition clientFor (c : config.Config) (hostname : string) (n : nat) : redfish.Client :=
  {| redfish.APIClient := Some n;
     redfish.config :=
       {| redfish.Host := ("https://" ++ hostname)%string;
          redfish.Username := config.RedfishUsername c;
          redfish.Password := config.RedfishPassword c;
          redfish.Insecure := config.RedfishInsecure c |};
     redfish.mutex := false |}.

(** The network after one more connection attempt. *)
Definition dialled (endpoint : string) (n : Net) : Net :=
  {| bmc := bmc n; connects := S (connects n); chassisCalls := chassisCalls n;
     systemsCalls := systemsCalls n; trace := trace n ++ [EvConnect endpoint] |}.

(** The logouts of the connections of a list of clients, in order. *)
Definition logouts (entries : list (string * redfish.Client)) : list Event :=
  omap (fun kv => EvLogout <$> redfish.APIClient (snd kv)) entries.

(** Two worlds agree on the clients of every hostname but [target]. *)
Definition sameOthers (target : string) (w w' : main.World) : Prop :=
  forall hostname, hostname <> target ->
    main.clients (main.sherlock w') !! hostname = main.clients (main.sherlock w) !! hostname.

(** The types of the collectors of a fan-out, in the order of the slice. *)
Definition kinds (cs : list main.AnyCollector) : list string := map main.typeName cs.

(** The types of the five collectors [collectTarget] builds. *)
Definition fiveKinds : list string :=
  ["*collector.SystemCollector"; "*collector.SensorCollector"; "*collector.PowerCollector";
   "*collector.FansCollector"; "*collector.TelemetryCollector"].

(** A fan-out around a client whose mutex is held. *)
Definition aroundHeldClient (f : main.FanOut) : Prop :=
  redfish.mutex (redfish.client (main.shared f)) = true
  /\ kinds (main.collectors f) = fiveKinds.

End Facts.

(** * Scenarios: concrete controllers and requests *)

Module Scenario.

(** A stand-in for Go's float library.  The properties below hold for every
    implementation; the scenarios need one to run. *)
Definition lib : GoFloatLib :=
  {| Sprintf_0f := fun _ => "64";
     math_Round := fun x => x;
     math_Pow := fun _ _ => 1000%float;
     float64_of_int := fun _ => 8%float;
     int_of_float64 := fun _ => 8%Z |}.

Definition status (health : string) : Status := {| Health := health; State := "Enabled" |}.

Definition psu (name health : string) : PowerSupply :=
  {| psu_Name := name; psu_Status := status health;
     PowerInputWatts := 100; PowerOutputWatts := 90 |}.

Definition powerOf (psus : list PowerSupply) : Power :=
  {| PowerSupplies := psus;
     Voltages := [{| volt_Name := "12V"; volt_Status := status "OK"; ReadingVolts := 12 |}];
     PowerControls := [{| PowerConsumedWatts := 0 |}; {| PowerConsumedWatts := 250 |}] |}.

Definition thermal : Thermal :=
  {| Temperatures := [{| temp_Name := "Inlet"; temp_Status := status "OK"; ReadingCelsius := 21 |}];
     Fans := [{| fan_Name := "Fan1"; fan_Status := status ""; Reading := 5000 |}] |}.

(** The primary chassis of a healthy controller. *)
Definition chassis1 : Chassis :=
  {| ID := "1";
     PowerReply := Ok (powerOf [psu "PSU1" "OK"; psu "PSU2" "Warning"]);
     ThermalReply := Ok thermal |}.

(** The three chassis of the fallback scenario: [A] is denylisted, [B]
    answers with no power supply, [C] with two. *)
Definition chassisA : Chassis :=
  {| ID := "NVMeSSD.0.Group.0.StorageBackplane";
     PowerReply := Ok (powerOf [psu "X" "OK"]);
     ThermalReply := Err "no thermal" |}.
Definition chassisB : Chassis :=
  {| ID := "2"; PowerReply := Ok (powerOf []); ThermalReply := Err "no thermal" |}.
Definition chassisC : Chassis :=
  {| ID := "3";
     PowerReply := Ok (powerOf [psu "PSU1" "OK"; psu "PSU2" "OK"]);
     ThermalReply := Err "no thermal" |}.

Definition cpu (id health : string) : Processor :=
  {| proc_ID := id; proc_Status := status health; TotalCores := 8; Model := "Xeon" |}.

(** One system: both processors are fine, the memory is not. *)
Definition system1 : ComputerSystem :=
  {| PowerState := "On";
     memorySummary := {| TotalSystemMemoryGiB := 64; mem_Status := status "Critical" |};
     ProcessorsReply := Ok [cpu "CPU1" "OK"; cpu "CPU2" "OK"] |}.

Definition redfishConfig : redfish.Config :=
  {| redfish.Host := "https://bmc1"; redfish.Username := "admin";
     redfish.Password := "password"; redfish.Insecure := true |}.

(** A network that has seen one connection and nothing else. *)
Definition connected (b : Bmc) : redfish.Env :=
  {| redfish.net := {| bmc := b; connects := 1; chassisCalls := 0; systemsCalls := 0;
                       trace := [EvConnect "https://bmc1"] |};
     redfish.client := {| redfish.APIClient := Some 0; redfish.config := redfishConfig;
                          redfish.mutex := false |} |}.

(** A healthy controller. *)
Definition healthy : Bmc :=
  {| connectReply := fun _ => None;
     chassisReply := fun _ => ([Some chassis1], None);
     systemsReply := fun _ => ([system1], None) |}.

(** The session has expired: the first listing is refused, every later one
    (after a new login) would succeed. *)
Definition expired : Bmc :=
  {| connectReply := fun _ => None;
     chassisReply := fun n => match n with
                              | 0 => ([], Some "401 Unauthorized")
                              | _ => ([Some chassis1], None)
                              end;
     systemsReply := fun _ => ([system1], None) |}.

(** The controller cannot be reached. *)
Definition unreachable : Bmc :=
  {| connectReply := fun _ => None;
     chassisReply := fun _ => ([], Some "dial tcp: connection refused");
     systemsReply := fun _ => ([], Some "dial tcp: connection refused") |}.

(** The fallback scenario: no chassis has the identifier 1. *)
Definition fallback : Bmc :=
  {| connectReply := fun _ => None;
     chassisReply := fun _ => ([Some chassisA; Some chassisB; Some chassisC], None);
     systemsReply := fun _ => ([system1], None) |}.

(** The same without the chassis that has no power supply. *)
Definition fallbackWithoutB : Bmc :=
  {| connectReply := fun _ => None;
     chassisReply := fun _ => ([Some chassisA; Some chassisC], None);
     systemsReply := fun _ => ([system1], None) |}.

(** A controller whose only chassis is the denylisted one: no collector
    finds a primary chassis, and the power collector's fallback finds no
    power supply. *)
Definition noPower : Bmc :=
  {| connectReply := fun _ => None;
     chassisReply := fun _ => ([Some chassisA], None);
     systemsReply := fun _ => ([system1], None) |}.

(** A controller that lists no system. *)
Definition noSystems : Bmc :=
  {| connectReply := fun _ => None;
     chassisReply := fun _ => ([Some chassis1], None);
     systemsReply := fun _ => ([], None) |}.

(** A system collector that holds the readings of an earlier update. *)
Definition staleSystemCollector : system.SystemCollector :=
  {| system.baseCollector := collector.NewBaseCollector "ipmi" "system";
     system.readings := {[ "CPU1" := @system.cpuReading lib 1 (cpu "CPU1" "OK") ]};
     system.firstCPUID := "CPU1" |}.

Definition appConfig : config.Config :=
  {| config.RedfishHost := "http://localhost:5000"; config.RedfishUsername := "admin";
     config.RedfishPassword := "password"; config.RedfishInsecure := true;
     config.ListenAddress := "localhost:9290"; config.MetricsPath := "/metrics" |}.

(** The process at start: no client yet, nothing on the network. *)
Definition fresh (b : Bmc) : main.World :=
  {| main.sherlock := main.NewSherlockCollector appConfig;
     main.network := {| bmc := b; connects := 0; chassisCalls := 0; systemsCalls := 0;
                        trace := [] |} |}.

(** A primary chassis whose power data cannot be read. *)
Definition chassisNoPower : Chassis :=
  {| ID := "1"; PowerReply := Err "power unavailable"; ThermalReply := Ok thermal |}.

Definition thermalOnly : Bmc :=
  {| connectReply := fun _ => None;
     chassisReply := fun _ => ([Some chassisNoPower], None);
     systemsReply := fun _ => ([system1], None) |}.

(** A primary chassis whose thermal data cannot be read. *)
Definition chassisNoThermal : Chassis :=
  {| ID := "1";
     PowerReply := Ok (powerOf [psu "PSU1" "OK"]);
     ThermalReply := Err "thermal unavailable" |}.

Definition powerOnly : Bmc :=
  {| connectReply := fun _ => None;
     chassisReply := fun _ => ([Some chassisNoThermal], None);
     systemsReply := fun _ => ([system1], None) |}.

(** Two fans and two sensors that share a name, and a voltage sensor named
    like a temperature sensor. *)
Definition crowdedThermal : Thermal :=
  {| Temperatures :=
       [{| temp_Name := "Inlet"; temp_Status := status "OK"; ReadingCelsius := 21 |};
        {| temp_Name := "12V"; temp_Status := status "OK"; ReadingCelsius := 40 |};
        {| temp_Name := ""; temp_Status := status "OK"; ReadingCelsius := 30 |}];
     Fans := [{| fan_Name := "Fan1"; fan_Status := status "OK"; Reading := 5000 |};
              {| fan_Name := ""; fan_Status := status "OK"; Reading := 4000 |};
              {| fan_Name := "Fan1"; fan_Status := status "Critical"; Reading := 0 |}] |}.

Definition chassisCrowded : Chassis :=
  {| ID := "1"; PowerReply := Ok (powerOf [psu "PSU1" "OK"]); ThermalReply := Ok crowdedThermal |}.

Definition crowded : Bmc :=
  {| connectReply := fun _ => None;
     chassisReply := fun _ => ([Some chassisCrowded], None);
     systemsReply := fun _ => ([system1], None) |}.

(** A listing that comes with an error of the partial-retrieval kind. *)
Definition partialListing : Bmc :=
  {| connectReply := fun _ => None;
     chassisReply := fun _ => ([Some chassisC], Some "failed to retrieve some items");
     systemsReply := fun _ => ([system1], None) |}.

(** A system whose processors cannot be listed. *)
Definition systemNoCPU : ComputerSystem :=
  {| PowerState := "On";
     memorySummary := {| TotalSystemMemoryGiB := 64; mem_Status := status "OK" |};
     ProcessorsReply := Err "processors unavailable" |}.

Definition noProcessors : Bmc :=
  {| connectReply := fun _ => None;
     chassisReply := fun _ => ([Some chassis1], None);
     systemsReply := fun _ => ([systemNoCPU], None) |}.

(** A controller that refuses every connection. *)
Definition refusing : Bmc :=
  {| connectReply := fun _ => Some "dial tcp: connection refused";
     chassisReply := fun _ => ([], Some "dial tcp: connection refused");
     systemsReply := fun _ => ([], Some "dial tcp: connection refused") |}.

(** A session, by the number of its connection and the state of its mutex. *)
Definition session (handle : nat) (held : bool) : redfish.Client :=
  {| redfish.APIClient := Some handle; redfish.config := redfishConfig;
     redfish.mutex := held |}.

(** The process with the sessions [clients] in its registry. *)
Definition serving (b : Bmc) (clients : gmap string redfish.Client) : main.World :=
  {| main.sherlock := {| main.cfg := appConfig; main.clients := clients;
                         main.mutex := false; main.logger := [] |};
     main.network := {| bmc := b; connects := 2; chassisCalls := 0; systemsCalls := 0;
                        trace := [] |} |}.

End Scenario.

(** * Tactics *)

(** Unfolds the monad and the client's locking. *)
Ltac run_client :=
  unfold redfish.GetMainChassis, redfish.GetChassisWithID, redfish.GetChassis,
    redfish.reconnect, redfish.Close, redfish.mutex_Lock, redfish.mutex_Unlock,
    redfish.onNet, Mutex.Lock, Mutex.Unlock, gofish.Service_Chassis,
    deferring, zoom, bind, ret, get, modify;
  cbn.

(** Unfolds the monad, the collectors' locking and the remote calls. *)
Ltac run_collector :=
  unfold collector.onRemote, collector.onClient, collector.onCol, redfish.onNet,
    collector.RecordScrapeTime, collector.SetTarget, collector.mutex_Lock,
    collector.mutex_Unlock, collector.mutex_held, collector.set_mutex,
    Mutex.Lock, Mutex.Unlock, gofish.Service_Systems, gofish.System_Processors,
    gofish.Chassis_Power, gofish.Chassis_Thermal, emit,
    deferring, zoom, scoped, bind, ret, get, modify, panic;
  cbn.

(** * Properties *)

(** From here on [++] is the concatenation of lists. *)
Open Scope list_scope.

(** ** The health mapping *)

Lemma healthOf_spec (s : string) : collector.healthOf s = Spec.health s.
Proof.
  unfold collector.healthOf.
  destruct (String.eqb_spec s "") as [->|Hne]; [reflexivity|].
  destruct (String.eqb_spec s "OK") as [->|Hok]; [reflexivity|].
  simpl. unfold Spec.health.
  destruct s as [|a s]; [congruence|].
  destruct a as [[] [] [] [] [] [] [] []]; try reflexivity.
  destruct s as [|b s]; [reflexivity|].
  destruct b as [[] [] [] [] [] [] [] []]; try reflexivity.
  destruct s as [|c s]; [congruence|reflexivity].
Qed.

(** ** The power snapshot: keyed by name, Spec.labelled by ordinal *)

Section PowerSnapshot.
Implicit Types (m : gmap string power.psuReading) (psus : list PowerSupply).
Implicit Types (psu : PowerSupply) (n : nat) (k : string).

Lemma named_true psu : Spec.named psu = true <-> psu_Name psu <> "".
Proof.
  unfold Spec.named. destruct (String.eqb_spec (psu_Name psu) ""); simpl; split; congruence.
Qed.

Lemma storePSU_named m n psu :
  Spec.named psu = true ->
  power.storePSU (m, n) psu = (<[psu_Name psu := power.psuReadingOf (S n) psu]> m, S n).
Proof.
  unfold Spec.named, power.storePSU. destruct (String.eqb _ _); [discriminate | reflexivity].
Qed.

Lemma storePSU_unnamed m n psu :
  Spec.named psu = false -> power.storePSU (m, n) psu = (m, n).
Proof.
  unfold Spec.named, power.storePSU. destruct (String.eqb _ _); [reflexivity | discriminate].
Qed.

Lemma namedCount_cons psu psus :
  Spec.namedCount (psu :: psus) =
  if Spec.named psu then S (Spec.namedCount psus) else Spec.namedCount psus.
Proof. unfold Spec.namedCount. simpl. destruct (Spec.named psu); reflexivity. Qed.

Lemma namedCount_app psus1 psus2 :
  Spec.namedCount (psus1 ++ psus2) = Spec.namedCount psus1 + Spec.namedCount psus2.
Proof. unfold Spec.namedCount. rewrite List.filter_app, length_app. reflexivity. Qed.

(** [psuCount] ends at the number of named entries. *)
Lemma foldl_storePSU_count psus : forall m n,
  snd (foldl power.storePSU (m, n) psus) = n + Spec.namedCount psus.
Proof.
  induction psus as [|psu psus IH]; intros m n; cbn [foldl].
  - unfold Spec.namedCount; simpl; lia.
  - rewrite namedCount_cons. destruct (Spec.named psu) eqn:E.
    + rewrite storePSU_named, IH by assumption. lia.
    + rewrite storePSU_unnamed, IH by assumption. lia.
Qed.

(** Every store adds at most one key. *)
Lemma foldl_storePSU_size psus : forall m n,
  size (fst (foldl power.storePSU (m, n) psus)) <= size m + Spec.namedCount psus.
Proof.
  induction psus as [|psu psus IH]; intros m n; cbn [foldl].
  - simpl; lia.
  - rewrite namedCount_cons. destruct (Spec.named psu) eqn:E.
    + rewrite storePSU_named by assumption.
      etransitivity; [apply IH|]. rewrite map_size_insert.
      destruct (m !! psu_Name psu); simpl; lia.
    + rewrite storePSU_unnamed by assumption. apply IH.
Qed.

(** A key, once stored, stays. *)
Lemma foldl_storePSU_keeps psus : forall m n k,
  is_Some (m !! k) -> is_Some (fst (foldl power.storePSU (m, n) psus) !! k).
Proof.
  induction psus as [|psu psus IH]; intros m n k Hk; cbn [foldl]; [assumption|].
  destruct (Spec.named psu) eqn:E.
  - rewrite storePSU_named by assumption. apply IH.
    rewrite lookup_insert_is_Some. destruct (decide (psu_Name psu = k)); auto.
  - rewrite storePSU_unnamed by assumption. apply IH, Hk.
Qed.

(** Entries of other names leave a key as it is. *)
Lemma foldl_storePSU_untouched psus : forall m n k,
  Forall (fun x => psu_Name x <> k) psus ->
  fst (foldl power.storePSU (m, n) psus) !! k = m !! k.
Proof.
  induction psus as [|psu psus IH]; intros m n k Hall; cbn [foldl]; [reflexivity|].
  inversion Hall as [|? ? Hne Hrest]; subst.
  destruct (Spec.named psu) eqn:E.
  - rewrite storePSU_named by assumption. rewrite IH by assumption.
    apply lookup_insert_ne, Hne.
  - rewrite storePSU_unnamed by assumption. apply IH, Hrest.
Qed.

(** Entries without a name are skipped and do not advance the ordinal. *)
Lemma foldl_storePSU_filter psus : forall m n,
  foldl power.storePSU (m, n) (List.filter Spec.named psus) =
  foldl power.storePSU (m, n) psus.
Proof.
  induction psus as [|psu psus IH]; intros m n; cbn [foldl List.filter]; [reflexivity|].
  destruct (Spec.named psu) eqn:E; cbn [foldl].
  - rewrite storePSU_named by assumption. apply IH.
  - rewrite storePSU_unnamed by assumption. apply IH.
Qed.

Lemma Sprintf_d_inj a b : fmt.Sprintf_d a = fmt.Sprintf_d b -> a = b.
Proof.
  unfold fmt.Sprintf_d. intros E.
  assert (N : forall x, Nat.to_uint x <> Decimal.Nil).
  { intros x Hx.
    pose proof (DecimalNat.Unsigned.to_of (Nat.to_uint x)) as T.
    rewrite DecimalNat.Unsigned.of_to, Hx in T. discriminate T. }
  apply DecimalNat.Unsigned.to_uint_inj.
  apply (f_equal NilZero.uint_of_string) in E.
  rewrite !NilZero.usu in E by apply N. congruence.
Qed.

Lemma label_inj a b : Spec.label a = Spec.label b -> a = b.
Proof. unfold Spec.label. simpl. intros [= E]. apply Sprintf_d_inj, E. Qed.

Lemma foldl_storePSU_labelled o k0 psus : forall m n,
  o <= n -> Spec.labelled o k0 m n ->
  Spec.labelled o k0 (fst (foldl power.storePSU (m, n) psus)) (snd (foldl power.storePSU (m, n) psus)).
Proof.
  induction psus as [|psu psus IH]; intros m n Hon Hinv; cbn [foldl]; [assumption|].
  destruct (Spec.named psu) eqn:E.
  - rewrite storePSU_named by assumption. apply IH; [lia|].
    intros k r Hk. apply lookup_insert_Some in Hk as [[<- <-]|[Hne Hk]].
    + exists (S n). split; [reflexivity|]. split; [lia|]. lia.
    + destruct (Hinv k r Hk) as (j & Hj & Hle & Hown).
      exists j. split; [assumption|]. split; [lia | assumption].
  - rewrite storePSU_unnamed by assumption. apply IH; assumption.
Qed.

(** Before that first entry every label is an ordinal handed out so far. *)
Lemma foldl_storePSU_bounded psus : forall m n,
  (forall k r, m !! k = Some r -> exists j, power.name r = Spec.label j /\ j <= n) ->
  forall k r, fst (foldl power.storePSU (m, n) psus) !! k = Some r ->
    exists j, power.name r = Spec.label j /\ j <= snd (foldl power.storePSU (m, n) psus).
Proof.
  induction psus as [|psu psus IH]; intros m n Hinv; cbn [foldl]; [assumption|].
  destruct (Spec.named psu) eqn:E.
  - rewrite storePSU_named by assumption. apply IH.
    intros k r Hk. apply lookup_insert_Some in Hk as [[<- <-]|[Hne Hk]].
    + exists (S n). split; [reflexivity | lia].
    + destruct (Hinv k r Hk) as (j & Hj & Hle). exists j. split; [assumption | lia].
  - rewrite storePSU_unnamed by assumption. apply IH, Hinv.
Qed.

End PowerSnapshot.

(** C10.  The power snapshot is keyed by each supply's [Name] while the
    label sent is the encounter ordinal.  So when two entries of a list share
    a non-empty name, the later one takes the place of the earlier one under
    that name and carries its own ordinal; the loop counts every named entry,
    so the snapshot holds fewer readings than there are named entries; the
    ordinal of the overwritten entry labels no reading at all (the labels
    that survive have a gap); and the entries with an empty name change
    neither the snapshot nor the ordinals. *)
Theorem power_duplicate_names_overwrite
    (before between after : list PowerSupply) (p q : PowerSupply) :
  psu_Name p <> "" ->
  psu_Name q = psu_Name p ->
  Forall (fun x => psu_Name x <> psu_Name p) after ->
  let psus := before ++ p :: between ++ q :: after in
  let snapshot := fst (power.storePSUs ∅ psus) in
  snapshot !! psu_Name p
    = Some (power.psuReadingOf (S (Spec.namedCount (before ++ p :: between))) q)
  /\ power.name (power.psuReadingOf (S (Spec.namedCount (before ++ p :: between))) q)
     = Spec.label (S (Spec.namedCount (before ++ p :: between)))
  /\ snd (power.storePSUs ∅ psus) = Spec.namedCount psus
  /\ size snapshot < Spec.namedCount psus
  /\ (forall k r, snapshot !! k = Some r ->
        power.name r <> Spec.label (S (Spec.namedCount before)))
  /\ power.storePSUs ∅ (List.filter Spec.named psus) = power.storePSUs ∅ psus.
Proof.
  intros Hp Hq Hafter psus snapshot.
  assert (Np : Spec.named p = true) by (apply named_true; assumption).
  assert (Nq : Spec.named q = true) by (apply named_true; congruence).
  (* the state after [before], after [p], after [between], after [q] *)
  destruct (foldl power.storePSU (∅, 0) before) as [m1 n1] eqn:E1.
  assert (Hn1 : n1 = Spec.namedCount before).
  { pose proof (foldl_storePSU_count before ∅ 0) as C. rewrite E1 in C. exact C. }
  destruct (foldl power.storePSU (<[psu_Name p := power.psuReadingOf (S n1) p]> m1, S n1) between)
    as [m2 n2] eqn:E2.
  assert (Hn2 : n2 = Spec.namedCount (before ++ p :: between)).
  { pose proof (foldl_storePSU_count between
                  (<[psu_Name p := power.psuReadingOf (S n1) p]> m1) (S n1)) as C.
    rewrite E2 in C. simpl in C. rewrite namedCount_app, namedCount_cons, Np. lia. }
  assert (Hrun : power.storePSUs ∅ psus =
                 foldl power.storePSU (<[psu_Name q := power.psuReadingOf (S n2) q]> m2, S n2) after).
  { unfold power.storePSUs, psus.
    rewrite foldl_app, E1. cbn [foldl]. rewrite storePSU_named by assumption.
    rewrite foldl_app, E2. cbn [foldl]. rewrite storePSU_named by assumption.
    reflexivity. }
  assert (Hcount : Spec.namedCount psus = S n2 + Spec.namedCount after).
  { unfold psus.
    change (before ++ p :: between ++ q :: after)
      with (before ++ (p :: between) ++ q :: after).
    rewrite app_assoc, namedCount_app, namedCount_cons, Nq, <- Hn2. lia. }
  assert (Hkey2 : is_Some (m2 !! psu_Name p)).
  { pose proof (foldl_storePSU_keeps between
                  (<[psu_Name p := power.psuReadingOf (S n1) p]> m1) (S n1) (psu_Name p)) as K.
    rewrite E2 in K. apply K. rewrite lookup_insert_eq. eauto. }
  assert (Hsize2 : size m2 <= n2).
  { pose proof (foldl_storePSU_size (before ++ p :: between) ∅ 0) as Sz.
    rewrite foldl_app, E1 in Sz. cbn [foldl] in Sz.
    rewrite storePSU_named, E2 in Sz by assumption.
    rewrite map_size_empty, <- Hn2 in Sz. exact Sz. }
  split; [|split; [|split; [|split; [|split]]]].
  - unfold snapshot. rewrite Hrun, foldl_storePSU_untouched by assumption.
    rewrite Hq, lookup_insert_eq, <- Hn2. reflexivity.
  - reflexivity.
  - unfold power.storePSUs. rewrite foldl_storePSU_count. reflexivity.
  - unfold snapshot. rewrite Hrun, Hcount.
    eapply Nat.le_lt_trans; [apply foldl_storePSU_size|].
    rewrite map_size_insert_Some by (rewrite Hq; assumption). lia.
  - intros k r Hk Hlabel. unfold snapshot in Hk.
    assert (Hinv : Spec.labelled (S n1) (psu_Name p)
                     (<[psu_Name p := power.psuReadingOf (S n1) p]> m1) (S n1)).
    { intros k' r' Hk'. apply lookup_insert_Some in Hk' as [[<- <-]|[Hne Hk']].
      - exists (S n1). repeat split; lia.
      - pose proof (foldl_storePSU_bounded before ∅ 0) as B. rewrite E1 in B.
        destruct (B (fun k0 r0 H0 => ltac:(rewrite lookup_empty in H0; discriminate)) k' r' Hk')
          as (j & Hj & Hle).
        exists j. simpl in Hle. repeat split; [assumption | lia | lia]. }
    pose proof (foldl_storePSU_labelled (S n1) (psu_Name p) (between ++ q :: after)
                  _ (S n1) (Nat.le_refl _) Hinv) as L.
    rewrite foldl_app, E2 in L. cbn [foldl] in L. rewrite storePSU_named in L by assumption.
    rewrite Hrun in Hk.
    destruct (L k r Hk) as (j & Hj & _ & Hown).
    rewrite Hj in Hlabel. apply label_inj in Hlabel. rewrite <- Hn1 in Hlabel.
    specialize (Hown Hlabel). subst k.
    rewrite foldl_storePSU_untouched in Hk by assumption.
    rewrite Hq, lookup_insert_eq in Hk. injection Hk as <-.
    simpl in Hj. apply (label_inj (S n2) j) in Hj.
    pose proof (foldl_storePSU_count between
                  (<[psu_Name p := power.psuReadingOf (S n1) p]> m1) (S n1)) as C.
    rewrite E2 in C. simpl in C. lia.
  - unfold power.storePSUs. apply foldl_storePSU_filter.
Qed.

(** Two supplies that both call themselves "PS": one reading, labelled
    "PSU 2"; no reading is labelled "PSU 1". *)
Lemma power_duplicate_names_overwrite_witness :
  fst (power.storePSUs ∅ [Scenario.psu "PS" "OK"; Scenario.psu "PS" "Warning"]) !! "PS"
    = Some (power.psuReadingOf 2 (Scenario.psu "PS" "Warning"))
  /\ power.name (power.psuReadingOf 2 (Scenario.psu "PS" "Warning")) = "PSU 2"
  /\ snd (power.storePSUs ∅ [Scenario.psu "PS" "OK"; Scenario.psu "PS" "Warning"]) = 2
  /\ size (fst (power.storePSUs ∅ [Scenario.psu "PS" "OK"; Scenario.psu "PS" "Warning"])) < 2
  /\ (forall k r,
        fst (power.storePSUs ∅ [Scenario.psu "PS" "OK"; Scenario.psu "PS" "Warning"]) !! k
          = Some r ->
        power.name r <> "PSU 1")
  /\ power.storePSUs ∅
       (List.filter Spec.named [Scenario.psu "PS" "OK"; Scenario.psu "PS" "Warning"])
     = power.storePSUs ∅ [Scenario.psu "PS" "OK"; Scenario.psu "PS" "Warning"].
Proof.
  exact (power_duplicate_names_overwrite [] [] []
           (Scenario.psu "PS" "OK") (Scenario.psu "PS" "Warning")
           ltac:(discriminate) eq_refl (List.Forall_nil _)).
Defined.

(** ** The client: resolution of a chassis *)

Section Client.
Import redfish.

Lemma lookFor_selected id chassis : lookFor id chassis = Spec.selected id chassis.
Proof.
  unfold Spec.selected.
  induction chassis as [|[ch|] rest IH]; cbn; [reflexivity| |exact IH].
  destruct (String.eqb (ID ch) id); [reflexivity | exact IH].
Qed.

(** [reconnect] takes the client's mutex first: called with the mutex held,
    it parks before doing anything. *)
Lemma reconnect_parks_when_held (e : Env) :
  mutex (client e) = true -> reconnect e = Blocked e.
Proof. intros Hheld. run_client. rewrite Hheld. reflexivity. Qed.

(** Even with the mutex free, [reconnect] parks inside [Close], which takes
    the same mutex again, whenever there is a connection to close. *)
Lemma reconnect_parks_in_Close (e : Env) h :
  mutex (client e) = false -> APIClient (client e) = Some h ->
  reconnect e = Blocked (set_mutex true e).
Proof.
  intros Hfree Hconn. destruct e as [n [a c m]]; cbn in *; subst.
  reflexivity.
Qed.

(** C1 (the code departs from the claim).  When the first chassis listing
    fails with an authentication-class error, [GetMainChassis] calls
    [reconnect] while it holds the client's mutex; [reconnect] locks the same
    mutex, so the call parks for good: it returns nothing, the connection is
    never logged out, no new connection is made and the listing is never
    retried -- whatever the controller would have answered next. *)
Theorem GetMainChassis_auth_error_parks (e : Env) (chassis : list (option Chassis)) (err : string) :
  mutex (client e) = false ->
  chassisReply (bmc (net e)) (chassisCalls (net e)) = (chassis, Some err) ->
  isPartial err chassis = false ->
  isAuthError err = true ->
  exists e',
    GetMainChassis e = Blocked e'
    /\ trace (net e') = trace (net e) ++ [EvChassis]
    /\ chassisCalls (net e') = S (chassisCalls (net e))
    /\ connects (net e') = connects (net e)
    /\ APIClient (client e') = APIClient (client e)
    /\ mutex (client e') = true.
Proof.
  intros Hfree Hreply Hpartial Hauth.
  destruct e as [n [a c m]]; cbn in *; subst m.
  eexists. split.
  - run_client. rewrite Hreply. cbn. rewrite Hpartial, Hauth. cbn. reflexivity.
  - cbn. repeat split.
Qed.

(** The expired session of the reconnect scenario: the call parks after one
    listing, with no logout on the trace. *)
Lemma GetMainChassis_auth_error_parks_witness :
  exists e',
    GetMainChassis (Scenario.connected Scenario.expired) = Blocked e'
    /\ trace (net e') = [EvConnect "https://bmc1"; EvChassis]
    /\ chassisCalls (net e') = 1
    /\ connects (net e') = 1
    /\ APIClient (client e') = Some 0
    /\ mutex (client e') = true.
Proof.
  exact (GetMainChassis_auth_error_parks (Scenario.connected Scenario.expired)
           [] "401 Unauthorized" eq_refl eq_refl eq_refl eq_refl).
Defined.

(** The listing as [GetMainChassis] and [GetChassisWithID] leave the client
    when no reconnect was needed: one more listing on the network, the mutex
    free again. *)
Lemma resolution_state (e : Env) :
  mutex (client e) = false ->
  set_mutex false (set_mutex true (set_net (Spec.listed (net e)) e))
  = set_net (Spec.listed (net e)) e.
Proof. intros Hfree. destruct e as [n [a c m]]; cbn in *; subst m. reflexivity. Qed.

(** C6 (amended).  With the client's mutex free and a listing that is not an
    authentication failure, [GetChassisWithID id] makes one listing and
    returns: the listing's own error when the listing failed, unless the
    failure is a partial retrieval with at least one item; otherwise the
    first chassis of the list with the identifier [id], or "no chassis
    found" for an empty list, or the not-found message of [id].
    [GetMainChassis] is [GetChassisWithID "1"]. *)
Theorem GetChassisWithID_resolution (id : string) (e : Env)
    (chassis : list (option Chassis)) (err : error) :
  mutex (client e) = false ->
  chassisReply (bmc (net e)) (chassisCalls (net e)) = (chassis, err) ->
  (forall msg, err = Some msg -> isPartial msg chassis = false -> isAuthError msg = false) ->
  GetChassisWithID id e
    = Returns (Spec.resolution id chassis err) (set_net (Spec.listed (net e)) e)
  /\ GetMainChassis e = GetChassisWithID "1" e.
Proof.
  intros Hfree Hreply Hnoauth. split; [|reflexivity].
  rewrite <- (resolution_state e Hfree).
  unfold Spec.resolution, Spec.notFound.
  destruct (String.eqb id "1") eqn:Hid.
  - apply String.eqb_eq in Hid. subst id.
    destruct e as [n [a c m]]; cbn in *; subst m.
    run_client. rewrite Hreply. cbn.
    destruct err as [msg|]; cbn.
    + destruct (isPartial msg chassis) eqn:Hp; cbn.
      * rewrite <- lookFor_selected.
        destruct (lookFor "1" chassis); destruct chassis; reflexivity.
      * rewrite (Hnoauth msg eq_refl Hp). reflexivity.
    + rewrite <- lookFor_selected.
      destruct (lookFor "1" chassis); destruct chassis; reflexivity.
  - destruct e as [n [a c m]]; cbn in *; subst m.
    run_client. rewrite Hid. cbn. rewrite Hreply. cbn.
    destruct err as [msg|]; cbn.
    + destruct (isPartial msg chassis) eqn:Hp; cbn.
      * rewrite <- lookFor_selected.
        destruct (lookFor id chassis); destruct chassis; reflexivity.
      * rewrite (Hnoauth msg eq_refl Hp). reflexivity.
    + rewrite <- lookFor_selected.
      destruct (lookFor id chassis); destruct chassis; reflexivity.
Qed.

(** A healthy controller: the primary chassis is found in one listing. *)
Lemma GetChassisWithID_resolution_witness :
  GetChassisWithID "1" (Scenario.connected Scenario.healthy)
    = Returns (Ok Scenario.chassis1)
        (set_net (Spec.listed (net (Scenario.connected Scenario.healthy)))
           (Scenario.connected Scenario.healthy))
  /\ GetMainChassis (Scenario.connected Scenario.healthy)
     = GetChassisWithID "1" (Scenario.connected Scenario.healthy).
Proof.
  exact (GetChassisWithID_resolution "1" (Scenario.connected Scenario.healthy)
           [Some Scenario.chassis1] None eq_refl eq_refl
           (fun msg (H : None = Some msg) => ltac:(discriminate H))).
Defined.

(** C6 as stated fails: when the controller cannot be reached no list is
    obtained, and [GetMainChassis] reports the transport error itself, which
    is not an error of the not-found class. *)
Lemma GetMainChassis_unreachable_is_not_NotFound :
  exists e',
    GetMainChassis (Scenario.connected Scenario.unreachable)
      = Returns (Err "dial tcp: connection refused") e'
    /\ ~ Spec.NotFoundError "1" "dial tcp: connection refused".
Proof.
  eexists. split; [reflexivity|]. intros [H|H]; discriminate H.
Qed.

(** What [Spec.selected] selects. *)
Lemma selected_Some id chassis ch :
  Spec.selected id chassis = Some ch -> In (Some ch) chassis /\ ID ch = id.
Proof.
  rewrite <- lookFor_selected.
  induction chassis as [|[c|] rest IH]; cbn; [discriminate| |tauto].
  destruct (String.eqb_spec (ID c) id) as [Heq|Hne].
  - intros [= ->]. auto.
  - tauto.
Qed.

Lemma selected_None id chassis ch :
  Spec.selected id chassis = None -> In (Some ch) chassis -> ID ch <> id.
Proof.
  rewrite <- lookFor_selected.
  induction chassis as [|[c|] rest IH]; cbn; [tauto| |].
  - destruct (String.eqb_spec (ID c) id) as [Heq|Hne]; [discriminate|].
    intros Hnone [[= ->]|Hin]; auto.
  - intros Hnone [Habs|Hin]; [discriminate Habs | auto].
Qed.

End Client.

(** ** The collectors *)

Section Collectors.
Import collector.
Context `{GoFloatLib}.

(** C2 (the code departs from the claim).  [SystemCollector.Update] clears
    its readings only after the systems were listed: when that listing
    fails, [Update] returns with the readings it had before the call. *)
Theorem SystemUpdate_failed_listing_keeps_readings
    (r : Run system.SystemCollector) (systems : list ComputerSystem) (msg : string) :
  mutex (base (col r)) = false ->
  systemsReply (bmc (redfish.net (env r))) (systemsCalls (redfish.net (env r)))
    = (systems, Some msg) ->
  exists r',
    system.Update r = Returns None r'
    /\ system.readings (col r') = system.readings (col r)
    /\ trace (redfish.net (env r')) = trace (redfish.net (env r)) ++ [EvSystems].
Proof.
  intros Hfree Hreply.
  destruct r as [[[m s rec t] rd f] [n cl]]; cbn in *; subst m.
  eexists. split.
  - unfold system.Update. run_collector. rewrite Hreply. cbn. reflexivity.
  - cbn. split; reflexivity.
Qed.

(** C4 (the code departs from the claim).  [SystemCollector.Update] indexes
    the list of systems without looking at its length: when the listing
    succeeds with no system, [Update] panics. *)
Theorem SystemUpdate_no_system_panics (r : Run system.SystemCollector) :
  mutex (base (col r)) = false ->
  systemsReply (bmc (redfish.net (env r))) (systemsCalls (redfish.net (env r))) = ([], None) ->
  exists r',
    system.Update r = Panicked "runtime error: index out of range [0] with length 0" r'.
Proof.
  intros Hfree Hreply.
  destruct r as [[[m s rec t] rd f] [n cl]]; cbn in *; subst m.
  eexists. unfold system.Update. run_collector. rewrite Hreply. cbn. reflexivity.
Qed.

(** The first processor's key is in the map once the processors are stored. *)
Lemma foldl_storeCPU_keeps powerState (cpus : list Processor) :
  forall (m : gmap string system.systemReading) k,
    is_Some (m !! k) -> is_Some (foldl (system.storeCPU powerState) m cpus !! k).
Proof.
  induction cpus as [|cpu cpus IH]; intros m k Hk; cbn [foldl]; [assumption|].
  apply IH. unfold system.storeCPU. rewrite lookup_insert_is_Some.
  destruct (decide (proc_ID cpu = k)); auto.
Qed.

(** A processor whose identifier no later processor shares keeps the
    reading built for it. *)
Lemma foldl_storeCPU_untouched powerState (cpus : list Processor) :
  forall (m : gmap string system.systemReading) k,
    Forall (fun cpu => proc_ID cpu <> k) cpus ->
    foldl (system.storeCPU powerState) m cpus !! k = m !! k.
Proof.
  induction cpus as [|cpu cpus IH]; intros m k Hall; cbn [foldl]; [reflexivity|].
  inversion Hall as [|? ? Hne Hrest]; subst.
  rewrite IH by assumption. apply lookup_insert_ne, Hne.
Qed.

(** What [storeSystem] leaves under the first processor's identifier: the
    health is the memory's, whatever the processor's own status says. *)
Lemma storeSystem_first_entry (system : ComputerSystem) (powerState : float)
    (p : Processor) (rest : list Processor) (c : system.SystemCollector) :
  exists reading,
    system.readings (system.storeSystem system powerState (p :: rest) c) !! proc_ID p
      = Some reading
    /\ system.health reading = healthOf (Health (mem_Status (memorySummary system)))
    /\ system.totalMemoryGiB reading = Sprintf_0f (TotalSystemMemoryGiB (memorySummary system))
    /\ system.firstCPUID (system.storeSystem system powerState (p :: rest) c) = proc_ID p.
Proof.
  unfold system.storeSystem. cbn [system.set_firstCPUID system.set_readings
    system.readings system.firstCPUID foldl].
  assert (Hkey : is_Some (foldl (system.storeCPU powerState)
                            (system.storeCPU powerState (system.readings c) p) rest
                          !! proc_ID p)).
  { apply foldl_storeCPU_keeps. unfold system.storeCPU. rewrite lookup_insert_eq. eauto. }
  assert (Hsize : (0 <? size (foldl (system.storeCPU powerState)
                             (system.storeCPU powerState (system.readings c) p) rest))%nat
                  = true).
  { apply Nat.ltb_lt. pose proof (map_size_ne_0_lookup_2 _ _ Hkey). lia. }
  rewrite Hsize. cbn. rewrite lookup_insert_eq. eexists. split; [reflexivity|].
  cbn. auto.
Qed.

Lemma storeSystem_base (system : ComputerSystem) (powerState : float)
    (cpus : list Processor) (c : system.SystemCollector) :
  system.baseCollector (system.storeSystem system powerState cpus c) = system.baseCollector c.
Proof.
  unfold system.storeSystem. destruct cpus; cbn;
    match goal with |- context [if ?b then _ else _] => destruct b end; reflexivity.
Qed.

(** A processor other than the first, whose identifier is its own, carries
    the health mapped from its own status. *)
Lemma storeSystem_other_entry (system : ComputerSystem) (powerState : float)
    (p : Processor) (before after : list Processor) (cpu : Processor)
    (c : system.SystemCollector) :
  proc_ID cpu <> proc_ID p ->
  Forall (fun x => proc_ID x <> proc_ID cpu) after ->
  system.readings (system.storeSystem system powerState (p :: before ++ cpu :: after) c)
    !! proc_ID cpu
  = Some (system.cpuReading powerState cpu).
Proof.
  intros Hne Hafter.
  unfold system.storeSystem in *. cbn [system.set_firstCPUID system.set_readings
    system.readings system.firstCPUID foldl] in *.
  match goal with |- context [if ?b then _ else _] => destruct b end; cbn in *.
  - rewrite lookup_insert_ne by congruence.
    rewrite foldl_app. cbn [foldl]. rewrite foldl_storeCPU_untouched by assumption.
    apply lookup_insert_eq.
  - rewrite foldl_app. cbn [foldl]. rewrite foldl_storeCPU_untouched by assumption.
    apply lookup_insert_eq.
Qed.

(** C9 (the code departs from the claim).  After an [Update] that fetched a
    non-empty processor list, the entry of the first processor holds the
    memory's health in its only health field: the processor's own health is
    replaced, and it is the memory's health that [Collect] sends as that
    processor's CPU health. *)
Theorem SystemUpdate_first_cpu_health_is_memory_health
    (r : Run system.SystemCollector) (sys : ComputerSystem) (others : list ComputerSystem)
    (p : Processor) (rest : list Processor) :
  mutex (base (col r)) = false ->
  systemsReply (bmc (redfish.net (env r))) (systemsCalls (redfish.net (env r)))
    = (sys :: others, None) ->
  ProcessorsReply sys = Ok (p :: rest) ->
  exists r' reading,
    system.Update r = Returns None r'
    /\ system.readings (col r') !! proc_ID p = Some reading
    /\ system.health reading = healthOf (Health (mem_Status (memorySummary sys)))
    /\ In (ConstMetric "ipmi_cpu_health"
             (healthOf (Health (mem_Status (memorySummary sys))))
             [system.name reading; system.model reading;
              fmt.Sprintf_dZ (int_of_float64 (system.cores reading))])
          (system.collectReading (system.firstCPUID (col r')) reading).
Proof.
  intros Hfree Hreply Hcpus.
  destruct r as [[[m s rec t] rd f] [n cl]]; cbn in *; subst m.
  set (ps := if String.eqb (PowerState sys) "On" then 1%float else 0%float).
  set (c0 := {| system.baseCollector :=
                  {| mutex := true; scrapeTime := s; recorded := rec; target := t |};
                system.readings := ∅; system.firstCPUID := f |}).
  destruct (storeSystem_first_entry sys ps p rest c0) as (reading & Hlook & Hhealth & _ & Hfirst).
  eexists. exists reading. split; [|split; [|split]].
  - unfold system.Update. run_collector. rewrite Hreply. cbn. rewrite Hcpus. cbn.
    rewrite !storeSystem_base. cbn. reflexivity.
  - cbn. exact Hlook.
  - exact Hhealth.
  - unfold system.collectReading. rewrite <- Hhealth.
    apply in_or_app. right. left. reflexivity.
Qed.

(** *** The other four collectors start by clearing their snapshot *)

(** What [Update] leaves does not depend on the readings held before. *)
Lemma SensorUpdate_ignores_previous_readings (c : sensors.SensorCollector) (e : redfish.Env) :
  mutex (base c) = false ->
  sensors.Update {| col := c; env := e |}
  = sensors.Update {| col := sensors.set_readings ∅ c; env := e |}.
Proof. intros Hfree. destruct c as [[m s rec t] rd]; cbn in *; subst m. reflexivity. Qed.

Lemma PowerUpdate_ignores_previous_readings (c : power.PowerCollector) (e : redfish.Env) :
  mutex (base c) = false ->
  power.Update {| col := c; env := e |}
  = power.Update {| col := power.set_readings ∅ c; env := e |}.
Proof. intros Hfree. destruct c as [[m s rec t] rd]; cbn in *; subst m. reflexivity. Qed.

Lemma FansUpdate_ignores_previous_readings (c : fans.FansCollector) (e : redfish.Env) :
  mutex (base c) = false ->
  fans.Update {| col := c; env := e |}
  = fans.Update {| col := fans.set_fans ∅ c; env := e |}.
Proof. intros Hfree. destruct c as [[m s rec t] rd]; cbn in *; subst m. reflexivity. Qed.

Lemma TelemetryUpdate_ignores_previous_reading (c : telemetry.TelemetryCollector)
    (e : redfish.Env) :
  mutex (base c) = false ->
  telemetry.Update {| col := c; env := e |}
  = telemetry.Update {| col := telemetry.set_reading 0 c; env := e |}.
Proof. intros Hfree. destruct c as [[m s rec t] rd]; cbn in *; subst m. reflexivity. Qed.

(** The empty-on-failure scenario of the sensors: when the primary chassis
    is resolved and its thermal data cannot be fetched, the snapshot is
    empty after [Update], whatever it held before. *)
Lemma SensorUpdate_failed_thermal_is_empty (r : Run sensors.SensorCollector)
    (chassis : Chassis) (e' : redfish.Env) (msg : string) :
  mutex (base (col r)) = false ->
  redfish.GetChassisWithID "1" (env r) = Returns (Ok chassis) e' ->
  ThermalReply chassis = Err msg ->
  exists r', sensors.Update r = Returns None r' /\ sensors.readings (col r') = ∅.
Proof.
  intros Hfree Hget Hthermal.
  destruct r as [[[m s rec t] rd] e]; cbn in *; subst m.
  eexists. split.
  - unfold sensors.Update. run_collector. rewrite Hget. cbn. rewrite Hthermal. cbn. reflexivity.
  - reflexivity.
Qed.

(** The same when the primary chassis cannot be resolved. *)
Lemma SensorUpdate_failed_chassis_is_empty (r : Run sensors.SensorCollector)
    (e' : redfish.Env) (msg : string) :
  mutex (base (col r)) = false ->
  redfish.GetChassisWithID "1" (env r) = Returns (Err msg) e' ->
  exists r', sensors.Update r = Returns None r' /\ sensors.readings (col r') = ∅.
Proof.
  intros Hfree Hget.
  destruct r as [[[m s rec t] rd] e]; cbn in *; subst m.
  eexists. split.
  - unfold sensors.Update. run_collector. rewrite Hget. cbn. reflexivity.
  - reflexivity.
Qed.

(** *** The snapshot of the power collector *)

(** When the primary chassis is resolved and answers with power data,
    [Update] leaves the loop's map over its power supplies, started empty. *)
Lemma PowerUpdate_primary_snapshot (r : Run power.PowerCollector)
    (chassis : Chassis) (e' : redfish.Env) (pw : Power) :
  mutex (base (col r)) = false ->
  redfish.GetChassisWithID "1" (env r) = Returns (Ok chassis) e' ->
  PowerReply chassis = Ok pw ->
  exists r',
    power.Update r = Returns None r'
    /\ power.readings (col r') = fst (power.storePSUs ∅ (PowerSupplies pw)).
Proof.
  intros Hfree Hget Hpower.
  destruct r as [[[m s rec t] rd] e]; cbn in *; subst m.
  eexists. split.
  - unfold power.Update. run_collector. rewrite Hget. cbn. rewrite Hpower. cbn. reflexivity.
  - reflexivity.
Qed.

(** *** The fallback scan of the power collector *)

(** Once the scan holds the collector's mutex (a chassis answered with no
    named power supply), the next chassis that answers parks the scan: the
    [Lock] of this iteration meets the [Lock] of the earlier one, whose
    deferred [Unlock] has not run_collector. *)
Lemma scanChassis_parks_on_second_answer (chassis : Chassis) (pw : Power)
    (rest : list (option Chassis)) (pending : nat) (r : Run power.PowerCollector) :
  mutex (base (col r)) = true ->
  String.eqb (ID chassis) power.denylisted = false ->
  PowerReply chassis = Ok pw ->
  exists r',
    power.scanChassis (Some chassis :: rest) pending r = Blocked r'
    /\ col r' = col r
    /\ trace (redfish.net (env r')) = trace (redfish.net (env r)) ++ [EvPower (ID chassis)].
Proof.
  intros Hheld Hallowed Hpower.
  destruct r as [[[m s rec t] rd] [n cl]]; cbn in *; subst m.
  eexists. split.
  - rewrite Hallowed. run_collector. rewrite Hpower. cbn. reflexivity.
  - split; reflexivity.
Qed.

End Collectors.

(** C3 (the code departs from the claim).  In the fallback scenario --
    [A] denylisted, [B] answering with no power supply, [C] with "PSU1" and
    "PSU2" -- [A] is skipped without a power query, [B] is queried and the
    collector's mutex is taken, and at [C] the scan parks on that same
    mutex: [Update] never returns and the snapshot stays empty. *)
Theorem PowerUpdate_fallback_scenario_parks :
  exists r',
    power.Update {| collector.col := power.NewPowerCollector;
                    collector.env := Scenario.connected Scenario.fallback |}
      = Blocked r'
    /\ trace (redfish.net (collector.env r'))
       = [EvConnect "https://bmc1"; EvChassis; EvChassis; EvPower "2"; EvPower "3"]
    /\ power.readings (collector.col r') = ∅
    /\ collector.mutex (collector.base (collector.col r')) = true.
Proof.
  match goal with |- exists r', ?run = _ /\ _ => remember run as outcome eqn:E end.
  vm_compute in E. subst outcome.
  eexists. split; [reflexivity|]. repeat split.
Qed.

(** Without [B] the scan does what the scenario expects of it: two
    readings, labelled "PSU 1" and "PSU 2", from [C] only. *)
Lemma PowerUpdate_fallback_without_B :
  exists r',
    power.Update {| collector.col := power.NewPowerCollector;
                    collector.env := Scenario.connected Scenario.fallbackWithoutB |}
      = Returns None r'
    /\ trace (redfish.net (collector.env r'))
       = [EvConnect "https://bmc1"; EvChassis; EvChassis; EvPower "3"]
    /\ power.readings (collector.col r')
       = {[ "PSU1" := power.psuReadingOf 1 (Scenario.psu "PSU1" "OK");
            "PSU2" := power.psuReadingOf 2 (Scenario.psu "PSU2" "OK") ]}
    /\ power.name (power.psuReadingOf 1 (Scenario.psu "PSU1" "OK")) = "PSU 1"
    /\ power.name (power.psuReadingOf 2 (Scenario.psu "PSU2" "OK")) = "PSU 2".
Proof.
  match goal with |- exists r', ?run = _ /\ _ => remember run as outcome eqn:E end.
  vm_compute in E. subst outcome.
  eexists. split; [reflexivity|]. repeat split.
Qed.

(** A collector that still holds readings, a controller that cannot be
    reached: the readings survive the update. *)
Lemma SystemUpdate_failed_listing_keeps_readings_witness :
  exists r',
    @system.Update Scenario.lib
      {| collector.col := Scenario.staleSystemCollector;
         collector.env := Scenario.connected Scenario.unreachable |}
      = Returns None r'
    /\ system.readings (collector.col r') = system.readings Scenario.staleSystemCollector
    /\ trace (redfish.net (collector.env r')) = [EvConnect "https://bmc1"] ++ [EvSystems].
Proof.
  exact (@SystemUpdate_failed_listing_keeps_readings Scenario.lib
           {| collector.col := Scenario.staleSystemCollector;
              collector.env := Scenario.connected Scenario.unreachable |}
           [] "dial tcp: connection refused" eq_refl eq_refl).
Defined.

(** A controller that lists no system. *)
Lemma SystemUpdate_no_system_panics_witness :
  exists r',
    @system.Update Scenario.lib
      {| collector.col := system.NewSystemCollector;
         collector.env := Scenario.connected Scenario.noSystems |}
      = Panicked "runtime error: index out of range [0] with length 0" r'.
Proof.
  exact (@SystemUpdate_no_system_panics Scenario.lib
           {| collector.col := system.NewSystemCollector;
              collector.env := Scenario.connected Scenario.noSystems |}
           eq_refl eq_refl).
Defined.

(** A healthy first processor and unhealthy memory: the processor's entry
    says 0, and 0 is sent as its CPU health. *)
Lemma SystemUpdate_first_cpu_health_is_memory_health_witness :
  exists r' reading,
    @system.Update Scenario.lib
      {| collector.col := system.NewSystemCollector;
         collector.env := Scenario.connected Scenario.healthy |}
      = Returns None r'
    /\ system.readings (collector.col r') !! "CPU1" = Some reading
    /\ system.health reading = 0%float
    /\ In (collector.ConstMetric "ipmi_cpu_health" 0%float
             [system.name reading; system.model reading;
              fmt.Sprintf_dZ (@int_of_float64 Scenario.lib (system.cores reading))])
          (@system.collectReading Scenario.lib (system.firstCPUID (collector.col r')) reading).
Proof.
  exact (@SystemUpdate_first_cpu_health_is_memory_health Scenario.lib
           {| collector.col := system.NewSystemCollector;
              collector.env := Scenario.connected Scenario.healthy |}
           Scenario.system1 [] (Scenario.cpu "CPU1" "OK") [Scenario.cpu "CPU2" "OK"]
           eq_refl eq_refl eq_refl).
Defined.

(** ** The orchestrator *)

Section ScrapeTime.
Import collector.
Context {C : Type} `{Embeds C}.
Hypothesis base_with_base : forall b c, base (with_base b c) = b.



End ScrapeTime.

Section Orchestrator.
Import collector main.
Context `{GoFloatLib}.




(** The collectors are free once they are bound to the target. *)
Lemma setTarget_newCollectors (target : string) :
  exists cs, forEach (setTarget target) newCollectors = Returns [tt; tt; tt; tt; tt] cs
             /\ Forall Spec.free cs.
Proof. eexists. split; [reflexivity|]. repeat constructor. Qed.





(** *** The scrape handler *)

Lemma substring_whole (s : string) : String.substring 0 (String.length s) s = s.
Proof. induction s as [|a s IH]; cbn; [reflexivity | rewrite IH; reflexivity]. Qed.

Lemma prefix_app (pre s : string) : String.prefix pre (pre ++ s)%string = true.
Proof.
  induction pre as [|a pre IH].
  - destruct s; reflexivity.
  - change (String a pre ++ s)%string with (String a (pre ++ s)%string). cbn.
    destruct (Ascii.ascii_dec a a); [exact IH | congruence].
Qed.

Lemma substring_app (pre s : string) :
  String.substring (String.length pre)
    (String.length (pre ++ s)%string - String.length pre) (pre ++ s)%string = s.
Proof.
  induction pre as [|a pre IH].
  - change ("" ++ s)%string with s. cbn. rewrite Nat.sub_0_r. apply substring_whole.
  - change (String a pre ++ s)%string with (String a (pre ++ s)%string). exact IH.
Qed.

(** [TrimPrefix] removes a prefix that is there. *)
Lemma TrimPrefix_app (pre s : string) : strings.TrimPrefix (pre ++ s)%string pre = s.
Proof.
  unfold strings.TrimPrefix, strings.HasPrefix.
  rewrite prefix_app. apply substring_app.
Qed.

Lemma stripped_http (host : string) :
  Spec.stripped ("http://" ++ host)%string = strings.TrimPrefix host "https://".
Proof. unfold Spec.stripped. rewrite (TrimPrefix_app "http://" host). reflexivity. Qed.

Lemma stripped_https (host : string) : Spec.stripped ("https://" ++ host)%string = host.
Proof.
  unfold Spec.stripped.
  change (strings.TrimPrefix ("https://" ++ host)%string "http://")
    with ("https://" ++ host)%string.
  apply (TrimPrefix_app "https://" host).
Qed.

(** A query without the key has the empty value. *)
Lemma Query_Get_absent (query : list (string * string)) (key : string) :
  Forall (fun kv => fst kv <> key) query -> Query_Get query key = "".
Proof.
  induction 1 as [|[k v] rest Hne _ IH]; cbn; [reflexivity|].
  destruct (String.eqb_spec k key); [contradiction | exact IH].
Qed.

(** C8.  A scrape request whose [target] parameter is absent or empty is
    answered with the client-error status 400 and a plain-text explanation,
    and leaves the process as it was: no client is created, nothing is sent
    to any controller, no sample is produced.  With a target present, the
    scrape runs on the target without a leading [http://] or [https://]. *)
Theorem metricsHandler_requires_target (sched : list nat) (query : list (string * string))
    (w : World) :
  (Forall (fun kv => fst kv <> "target") query -> Query_Get query "target" = "")
  /\ (Query_Get query "target" = "" ->
        metricsHandler sched query w
        = Returns (HttpError
                     "Error: 'target' parameter is required (e.g. ?target=bmc.example.com)"
                     StatusBadRequest) w)
  /\ 400 <= StatusBadRequest < 500
  /\ (Query_Get query "target" <> "" ->
        metricsHandler sched query w
        = (do samples <- collectTarget sched (Spec.stripped (Query_Get query "target"));
           ret (Exposition samples)) w)
  /\ (forall host, Spec.stripped ("http://" ++ host)%string
                   = strings.TrimPrefix host "https://")
  /\ (forall host, Spec.stripped ("https://" ++ host)%string = host).
Proof.
  split; [apply Query_Get_absent|].
  split.
  { intros Hempty. unfold metricsHandler. rewrite Hempty. reflexivity. }
  split; [unfold StatusBadRequest; lia|].
  split.
  { intros Hpresent. unfold metricsHandler.
    destruct (String.eqb_spec (Query_Get query "target") ""); [contradiction | reflexivity]. }
  split; [apply stripped_http | apply stripped_https].
Qed.

End Orchestrator.


(** A request without a target, and one whose target carries a scheme. *)
Lemma metricsHandler_requires_target_witness :
  @main.metricsHandler Scenario.lib [0; 1; 2; 3; 4] [("module", "x")]
    (Scenario.fresh Scenario.healthy)
  = Returns (main.HttpError
               "Error: 'target' parameter is required (e.g. ?target=bmc.example.com)" 400)
      (Scenario.fresh Scenario.healthy)
  /\ @main.metricsHandler Scenario.lib [0; 1; 2; 3; 4] [("target", "https://bmc1")]
       (Scenario.fresh Scenario.healthy)
     = (do samples <- @main.collectTarget Scenario.lib [0; 1; 2; 3; 4] "bmc1";
        ret (main.Exposition samples)) (Scenario.fresh Scenario.healthy).
Proof.
  split.
  - exact (proj1 (proj2 (@metricsHandler_requires_target Scenario.lib [0; 1; 2; 3; 4]
                           [("module", "x")] (Scenario.fresh Scenario.healthy))) eq_refl).
  - exact (proj1 (proj2 (proj2 (proj2
             (@metricsHandler_requires_target Scenario.lib [0; 1; 2; 3; 4]
                [("target", "https://bmc1")] (Scenario.fresh Scenario.healthy)))))
             ltac:(discriminate)).
Defined.

(** ** The health mapping in the collectors *)

(** C5.  The health mapping is the total function that sends "OK" to 1.0,
    any other non-empty status text to 0.0 and an empty (absent) status to
    2.0; on the five listed inputs it yields 2, 1, 0, 0, 0.  Every health a
    collector stores is this function of the status text it was read from:
    the processor and memory health of the system collector, the
    temperature and voltage health of the sensors, the power-supply health
    and the fan health.  (The telemetry collector stores one number, the
    consumed watts, and no health.) *)
Theorem health_mapping_total_and_shared :
  (collector.healthOf "" = 2%float
   /\ collector.healthOf "OK" = 1%float
   /\ collector.healthOf "Warning" = 0%float
   /\ collector.healthOf "Critical" = 0%float
   /\ collector.healthOf "anything-else" = 0%float)
  /\ (forall status, collector.healthOf status = Spec.health status)
  /\ (forall (lib : GoFloatLib) powerState cpu,
        system.health (system.cpuReading powerState cpu)
        = collector.healthOf (Health (proc_Status cpu)))
  /\ (forall (lib : GoFloatLib) sys powerState p rest c,
        exists reading,
          system.readings (system.storeSystem sys powerState (p :: rest) c) !! proc_ID p
            = Some reading
          /\ system.health reading
             = collector.healthOf (Health (mem_Status (memorySummary sys))))
  /\ (forall temp,
        sensors.health (sensors.temperatureReading temp)
        = collector.healthOf (Health (temp_Status temp)))
  /\ (forall (lib : GoFloatLib) volt,
        sensors.health (sensors.voltageReading volt)
        = collector.healthOf (Health (volt_Status volt)))
  /\ (forall psuCount psu,
        power.health (power.psuReadingOf psuCount psu)
        = collector.healthOf (Health (psu_Status psu)))
  /\ (forall fan,
        fans.health (fans.fanMetricOf fan) = collector.healthOf (Health (fan_Status fan))).
Proof.
  split; [repeat split|].
  split; [apply healthOf_spec|].
  split; [reflexivity|].
  split.
  { intros lib sys powerState p rest c.
    destruct (@storeSystem_first_entry lib sys powerState p rest c)
      as (reading & Hlook & Hhealth & _).
    exists reading. split; assumption. }
  repeat split.
Qed.

(** * Further properties *)

(** ** The client *)

Section ClientMore.
Import redfish.

(** [strings.HasPrefix] finds exactly the leading occurrences. *)
Lemma HasPrefix_spec (s pre : string) :
  strings.HasPrefix s pre = true <-> exists post : string, s = (pre ++ post)%string.
Proof.
  unfold strings.HasPrefix. revert s.
  induction pre as [|a pre IH]; intros s.
  - split; [intros _; exists s; reflexivity|]. intros _. destruct s; reflexivity.
  - destruct s as [|b s].
    + split; [discriminate|]. intros [post Hpost]. discriminate Hpost.
    + cbn. destruct (Ascii.ascii_dec a b) as [->|Hne].
      * rewrite IH. split; intros [post Hpost]; exists post.
        -- rewrite Hpost. reflexivity.
        -- change (String b pre ++ post)%string with (String b (pre ++ post)%string) in Hpost.
           congruence.
      * split; [discriminate|]. intros [post Hpost].
        change (String a pre ++ post)%string with (String a (pre ++ post)%string) in Hpost.
        congruence.
Qed.

(** [strings.Contains] finds exactly the occurrences. *)
Lemma Contains_spec (s sub : string) :
  strings.Contains s sub = true <-> Facts.occursIn sub s.
Proof.
  unfold Facts.occursIn.
  induction s as [|c s IH].
  - cbn [strings.Contains]. rewrite orb_false_r, HasPrefix_spec. split.
    + intros [post Hpost]. exists "", post. exact Hpost.
    + intros (pre & post & Hs). destruct pre as [|a pre]; [exists post; exact Hs|].
      discriminate Hs.
  - cbn [strings.Contains]. rewrite orb_true_iff, HasPrefix_spec, IH. split.
    + intros [[post Hpost]|(pre & post & Hs)].
      * exists "", post. exact Hpost.
      * exists (String c pre), post. rewrite Hs. reflexivity.
    + intros (pre & post & Hs). destruct pre as [|a pre].
      * left. exists post. exact Hs.
      * right. exists pre, post.
        change (String a pre ++ sub ++ post)%string
          with (String a (pre ++ sub ++ post)%string) in Hs.
        congruence.
Qed.

(** X1.  [isAuthError] is a case-sensitive substring test. *)
Theorem isAuthError_spec (errStr : string) :
  isAuthError errStr = true
  <-> exists marker, In marker Facts.authMarkers /\ Facts.occursIn marker errStr.
Proof.
  unfold isAuthError, Facts.authMarkers.
  rewrite !orb_true_iff, !Contains_spec. cbn [In]. split.
  - intros [[[Hm|Hm]|Hm]|Hm]; eexists; (split; [|exact Hm]); tauto.
  - intros (marker & [<-|[<-|[<-|[<-|[]]]]] & Hm); tauto.
Qed.

(** X2.  The three outcomes of a resolution.  [GetChassisWithID] never
    panics, never makes a second listing, never connects and never logs
    out: the branch that reconnects and retries parks in [reconnect]. *)
Theorem GetChassisWithID_outcome (id : string) (e : Env) :
  GetChassisWithID id e = Facts.resolveOutcome id e.
Proof.
  unfold Facts.resolveOutcome.
  destruct e as [n [a c m]]. cbn [mutex client net].
  destruct m.
  { (* the mutex is held *)
    unfold GetChassisWithID. destruct (String.eqb id "1"); reflexivity. }
  destruct (chassisReply (bmc n) (chassisCalls n)) as [chassis err] eqn:Hreply.
  assert (Hstate : forall x : Env, mutex (client x) = false ->
            set_mutex false (set_mutex true x) = x).
  { intros [n' [a' c' m']] Hm. cbn in Hm. subst m'. reflexivity. }
  unfold Spec.resolution, Spec.notFound.
  destruct (String.eqb id "1") eqn:Hid.
  - apply String.eqb_eq in Hid. subst id.
    change (GetChassisWithID "1") with GetMainChassis.
    run_client. rewrite Hreply. cbn.
    destruct err as [msg|]; cbn.
    + destruct (isPartial msg chassis) eqn:Hp; cbn.
      * rewrite <- lookFor_selected.
        destruct (lookFor "1" chassis); destruct chassis; reflexivity.
      * destruct (isAuthError msg) eqn:Ha; reflexivity.
    + rewrite <- lookFor_selected.
      destruct (lookFor "1" chassis); destruct chassis; reflexivity.
  - run_client. rewrite Hid. cbn. rewrite Hreply. cbn.
    destruct err as [msg|]; cbn.
    + destruct (isPartial msg chassis) eqn:Hp; cbn.
      * rewrite <- lookFor_selected.
        destruct (lookFor id chassis); destruct chassis; reflexivity.
      * destruct (isAuthError msg) eqn:Ha; reflexivity.
    + rewrite <- lookFor_selected.
      destruct (lookFor id chassis); destruct chassis; reflexivity.
Qed.

(** X3.  [Close] logs the connection out once and changes nothing else: the
    handle stays in the client, so a second [Close] logs it out again. *)
Theorem Close_logs_out_each_time (e : Env) (h : nat) :
  mutex (client e) = false ->
  APIClient (client e) = Some h ->
  Close e = Returns tt (set_net (emit (EvLogout h) (net e)) e)
  /\ (Close ;;; Close) e
     = Returns tt (set_net (emit (EvLogout h) (emit (EvLogout h) (net e))) e).
Proof.
  intros Hfree Hconn. destruct e as [n [a c m]]; cbn in *; subst. split; reflexivity.
Qed.

(** X4.  [filterNumericChassis] keeps, in order, the chassis whose identifier
    is one decimal digit; identifiers of two or more digits are dropped with
    the rest; a nil entry makes it panic. *)
Theorem filterNumericChassis_spec (chassis : list (option Chassis)) :
  (forall id, isNumericID id = true <-> Facts.digitID id)
  /\ (Forall (fun ch => ch <> None) chassis ->
       filterNumericChassis chassis
       = Some (List.filter (fun ch => match ch with
                                      | Some c => isNumericID (ID c)
                                      | None => false
                                      end) chassis))
  /\ (In None chassis -> filterNumericChassis chassis = None)
  /\ (forall result, filterNumericChassis chassis = Some result ->
        filterNumericChassis result = Some result).
Proof.
  split; [|split; [|split]].
  - intros id. unfold Facts.digitID, isNumericID. split.
    + destruct id as [|c [|c' id]]; try (cbn; discriminate).
      cbn [String.length String.get Nat.eqb andb].
      intros Hc. apply andb_true_iff in Hc as [Hlo Hhi].
      apply Nat.leb_le in Hlo, Hhi.
      exists (Ascii.nat_of_ascii c - 48). split; [lia|].
      rewrite <- (Ascii.ascii_nat_embedding c) at 1.
      remember (Ascii.nat_of_ascii c) as k eqn:Hk. clear Hk.
      do 48 (destruct k as [|k]; [lia|]).
      do 10 (destruct k as [|k]; [reflexivity|]). lia.
    + intros (d & Hd & ->).
      do 10 (destruct d as [|d]; [reflexivity|]). lia.
  - induction 1 as [|[ch|] rest Hch _ IH]; cbn; [reflexivity| |congruence].
    rewrite IH. destruct (isNumericID (ID ch)); reflexivity.
  - induction chassis as [|[ch|] rest IH]; cbn; [tauto| |reflexivity].
    intros [Habs|Hin]; [discriminate|]. rewrite (IH Hin). reflexivity.
  - induction chassis as [|[ch|] rest IH]; cbn; intros result.
    + intros [= <-]. reflexivity.
    + destruct (filterNumericChassis rest) as [kept|]; [|discriminate].
      destruct (isNumericID (ID ch)) eqn:Hnum; intros [= <-]; cbn.
      * rewrite (IH kept eq_refl), Hnum. reflexivity.
      * apply IH. reflexivity.
    + discriminate.
Qed.

End ClientMore.

(** ** The snapshots of the collectors *)

Section Snapshots.
Import collector.
Context `{GoFloatLib}.

Lemma lastWith_cons {A} (key : A -> string) (k : string) (x : A) (l : list A) :
  Facts.lastWith key k (x :: l)
  = match Facts.lastWith key k l with
    | Some y => Some y
    | None => if String.eqb (key x) k then Some x else None
    end.
Proof.
  unfold Facts.lastWith. cbn [List.filter].
  destruct (String.eqb (key x) k); [apply last_cons|].
  destruct (last _); reflexivity.
Qed.

(** What a store-by-name loop leaves under a key: the reading of the last
    element of that name; the empty name is never stored. *)
Lemma foldl_storeBy_lookup {A V} (key : A -> string) (build : A -> V) (l : list A) :
  forall (m : gmap string V) (k : string),
    foldl (Facts.storeBy key build) m l !! k
    = if String.eqb k "" then m !! k
      else match Facts.lastWith key k l with
           | Some x => Some (build x)
           | None => m !! k
           end.
Proof.
  induction l as [|x l IH]; intros m k; cbn [foldl].
  - unfold Facts.lastWith. cbn. destruct (String.eqb k ""); reflexivity.
  - rewrite IH, lastWith_cons. unfold Facts.storeBy.
    destruct (String.eqb_spec k "") as [->|Hk].
    + destruct (String.eqb_spec (key x) ""); [reflexivity|].
      apply lookup_insert_ne. assumption.
    + destruct (Facts.lastWith key k l); [reflexivity|].
      destruct (String.eqb_spec (key x) k) as [<-|Hne].
      * destruct (String.eqb_spec (key x) ""); [contradiction|]. apply lookup_insert_eq.
      * destruct (String.eqb (key x) ""); [reflexivity|]. apply lookup_insert_ne, Hne.
Qed.

(** X5.  The snapshot of the fans after a successful update holds, under each
    non-empty name, the reading of the last fan of that name, and nothing
    under the empty name. *)
Theorem FansUpdate_snapshot (r : Run fans.FansCollector) (chassis : Chassis)
    (e' : redfish.Env) (th : Thermal) :
  mutex (base (col r)) = false ->
  redfish.GetMainChassis (env r) = Returns (Ok chassis) e' ->
  ThermalReply chassis = Ok th ->
  exists r',
    fans.Update r = Returns None r'
    /\ forall k,
         fans.fans (col r') !! k
         = if String.eqb k "" then None
           else fans.fanMetricOf <$> Facts.lastWith fan_Name k (Fans th).
Proof.
  intros Hfree Hget Hthermal.
  destruct r as [[[m s rec t] rd] e]; cbn in *; subst m.
  eexists. split.
  - unfold fans.Update. run_collector. rewrite Hget. cbn. rewrite Hthermal. cbn. reflexivity.
  - intros k. cbn.
    change fans.storeFan with (Facts.storeBy fan_Name fans.fanMetricOf).
    rewrite foldl_storeBy_lookup, lookup_empty.
    destruct (String.eqb k ""); [reflexivity|].
    destruct (Facts.lastWith fan_Name k (Fans th)); reflexivity.
Qed.

(** X6.  The snapshot of the sensors after a successful update.  Temperatures
    and voltages share one map keyed by name: a voltage sensor takes the
    place of a temperature sensor of the same name. *)
Theorem SensorUpdate_snapshot (r : Run sensors.SensorCollector) (chassis : Chassis)
    (e' : redfish.Env) (th : Thermal) (pw : Power) :
  mutex (base (col r)) = false ->
  redfish.GetChassisWithID "1" (env r) = Returns (Ok chassis) e' ->
  ThermalReply chassis = Ok th ->
  PowerReply chassis = Ok pw ->
  exists r',
    sensors.Update r = Returns None r'
    /\ forall k,
         sensors.readings (col r') !! k
         = if String.eqb k "" then None
           else match Facts.lastWith volt_Name k (Voltages pw) with
                | Some volt => Some (sensors.voltageReading volt)
                | None =>
                    sensors.temperatureReading
                      <$> Facts.lastWith temp_Name k (Temperatures th)
                end.
Proof.
  intros Hfree Hget Hthermal Hpower.
  destruct r as [[[m s rec t] rd] e]; cbn in *; subst m.
  eexists. split.
  - unfold sensors.Update. run_collector. rewrite Hget. cbn. rewrite Hthermal. cbn.
    rewrite Hpower. cbn. reflexivity.
  - intros k. cbn.
    change sensors.storeVoltage with (Facts.storeBy volt_Name sensors.voltageReading).
    change sensors.storeTemperature
      with (Facts.storeBy temp_Name sensors.temperatureReading).
    rewrite !foldl_storeBy_lookup, lookup_empty.
    destruct (String.eqb k ""); [reflexivity|].
    destruct (Facts.lastWith volt_Name k (Voltages pw)); [reflexivity|].
    destruct (Facts.lastWith temp_Name k (Temperatures th)); reflexivity.
Qed.

(** X7.  When the power data cannot be fetched after the thermal data, the
    sensors keep the temperatures and report success. *)
Theorem SensorUpdate_keeps_temperatures (r : Run sensors.SensorCollector)
    (chassis : Chassis) (e' : redfish.Env) (th : Thermal) (msg : string) :
  mutex (base (col r)) = false ->
  redfish.GetChassisWithID "1" (env r) = Returns (Ok chassis) e' ->
  ThermalReply chassis = Ok th ->
  PowerReply chassis = Err msg ->
  exists r',
    sensors.Update r = Returns None r'
    /\ forall k,
         sensors.readings (col r') !! k
         = if String.eqb k "" then None
           else sensors.temperatureReading
                  <$> Facts.lastWith temp_Name k (Temperatures th).
Proof.
  intros Hfree Hget Hthermal Hpower.
  destruct r as [[[m s rec t] rd] e]; cbn in *; subst m.
  eexists. split.
  - unfold sensors.Update. run_collector. rewrite Hget. cbn. rewrite Hthermal. cbn.
    rewrite Hpower. cbn.
    match goal with |- context [if ?b then _ else _] => destruct b end; reflexivity.
  - intros k. cbn.
    change sensors.storeTemperature
      with (Facts.storeBy temp_Name sensors.temperatureReading).
    rewrite foldl_storeBy_lookup, lookup_empty.
    destruct (String.eqb k ""); [reflexivity|].
    destruct (Facts.lastWith temp_Name k (Temperatures th)); reflexivity.
Qed.

(** X8.  When the thermal data cannot be fetched the sensors stop there: the
    snapshot is empty and no power query is made. *)
Theorem SensorUpdate_stops_after_failed_thermal (r : Run sensors.SensorCollector)
    (chassis : Chassis) (e' : redfish.Env) (msg : string) :
  mutex (base (col r)) = false ->
  redfish.GetChassisWithID "1" (env r) = Returns (Ok chassis) e' ->
  ThermalReply chassis = Err msg ->
  exists r',
    sensors.Update r = Returns None r'
    /\ sensors.readings (col r') = ∅
    /\ trace (redfish.net (env r')) = trace (redfish.net e') ++ [EvThermal (ID chassis)].
Proof.
  intros Hfree Hget Hthermal.
  destruct r as [[[m s rec t] rd] e]; cbn in *; subst m.
  eexists. split.
  - unfold sensors.Update. run_collector. rewrite Hget. cbn. rewrite Hthermal. cbn.
    reflexivity.
  - split; reflexivity.
Qed.

End Snapshots.
Section SnapshotsMore.
Import collector.
Context `{GoFloatLib}.

Lemma firstPositive_find (pcs : list PowerControl) (c : telemetry.TelemetryCollector) :
  telemetry.firstPositive pcs c
  = match Facts.firstPositiveEntry pcs with
    | Some pc => telemetry.set_reading (PowerConsumedWatts pc) c
    | None => c
    end.
Proof.
  unfold Facts.firstPositiveEntry.
  induction pcs as [|pc pcs IH]; cbn; [reflexivity|].
  destruct (0 <? PowerConsumedWatts pc)%float; [reflexivity | exact IH].
Qed.

(** X9.  The telemetry collector keeps the consumed watts of the first
    power-control entry that reports a positive value, and sends it; when no
    entry is positive it keeps 0 and sends nothing but its scrape time. *)
Theorem TelemetryUpdate_first_positive (r : Run telemetry.TelemetryCollector)
    (chassis : Chassis) (e' : redfish.Env) (pw : Power) :
  mutex (base (col r)) = false ->
  redfish.GetMainChassis (env r) = Returns (Ok chassis) e' ->
  PowerReply chassis = Ok pw ->
  exists r',
    telemetry.Update r = Returns None r'
    /\ telemetry.reading (col r')
       = match Facts.firstPositiveEntry (PowerControls pw) with
         | Some pc => PowerConsumedWatts pc
         | None => 0%float
         end
    /\ telemetry.Collect (col r')
       = Returns
           (match Facts.firstPositiveEntry (PowerControls pw) with
            | Some pc => [ConstMetric "ipmi_telemetry_power_consumption_watts"
                            (PowerConsumedWatts pc) []]
            | None => []
            end ++ CollectScrapeTime (col r'))
           (col r').
Proof.
  intros Hfree Hget Hpower.
  destruct r as [[[m s rec t] rd] e]; cbn in *; subst m.
  destruct (Facts.firstPositiveEntry (PowerControls pw)) as [pc|] eqn:Hfind.
  - eexists. split.
    + unfold telemetry.Update. run_collector. rewrite Hget. cbn. rewrite Hpower. cbn.
      rewrite firstPositive_find, Hfind. reflexivity.
    + cbn. split; [reflexivity|].
      apply List.find_some in Hfind as [_ Hpos].
      unfold telemetry.Collect. run_collector. rewrite Hpos. reflexivity.
  - eexists. split.
    + unfold telemetry.Update. run_collector. rewrite Hget. cbn. rewrite Hpower. cbn.
      rewrite firstPositive_find, Hfind. reflexivity.
    + cbn. split; reflexivity.
Qed.

(** The labels of a power snapshot: ordinals handed out so far, no two
    keys with the same one, and no empty key. *)
Lemma foldl_storePSU_labels (psus : list PowerSupply) :
  forall (m : gmap string power.psuReading) (n : nat),
    (forall k r, m !! k = Some r ->
       k <> "" /\ exists j, 1 <= j <= n /\ power.name r = Spec.label j) ->
    (forall k1 k2 r1 r2, m !! k1 = Some r1 -> m !! k2 = Some r2 ->
       power.name r1 = power.name r2 -> k1 = k2) ->
    let out := foldl power.storePSU (m, n) psus in
    (forall k r, fst out !! k = Some r ->
       k <> "" /\ exists j, 1 <= j <= snd out /\ power.name r = Spec.label j)
    /\ (forall k1 k2 r1 r2, fst out !! k1 = Some r1 -> fst out !! k2 = Some r2 ->
          power.name r1 = power.name r2 -> k1 = k2).
Proof.
  induction psus as [|psu psus IH]; intros m n Hlab Hinj; cbn [foldl]; [auto|].
  destruct (Spec.named psu) eqn:E.
  - rewrite storePSU_named by assumption. apply IH.
    + intros k r Hk. apply lookup_insert_Some in Hk as [[<- <-]|[Hne Hk]].
      * split; [apply named_true, E|]. exists (S n). split; [lia | reflexivity].
      * destruct (Hlab k r Hk) as (Hk0 & j & Hj & Hname).
        split; [assumption|]. exists j. split; [lia | assumption].
    + intros k1 k2 r1 r2 H1 H2 Hsame.
      apply lookup_insert_Some in H1 as [[<- <-]|[Hne1 H1]];
        apply lookup_insert_Some in H2 as [[<- <-]|[Hne2 H2]].
      * reflexivity.
      * destruct (Hlab k2 r2 H2) as (_ & j & Hj & Hname).
        rewrite Hname in Hsame. apply (label_inj (S n) j) in Hsame. lia.
      * destruct (Hlab k1 r1 H1) as (_ & j & Hj & Hname).
        rewrite Hname in Hsame. apply (label_inj j (S n)) in Hsame. lia.
      * eapply Hinj; eassumption.
  - rewrite storePSU_unnamed by assumption. apply IH; assumption.
Qed.

(** X10.  In a power snapshot no key is empty, every label is "PSU j" for an
    ordinal [j] between 1 and the number of named supplies, and no two
    readings carry the same label. *)
Theorem power_labels_distinct (psus : list PowerSupply) :
  (forall k r, fst (power.storePSUs ∅ psus) !! k = Some r ->
     k <> "" /\ exists j, 1 <= j <= Spec.namedCount psus /\ power.name r = Spec.label j)
  /\ (forall k1 k2 r1 r2,
        fst (power.storePSUs ∅ psus) !! k1 = Some r1 ->
        fst (power.storePSUs ∅ psus) !! k2 = Some r2 ->
        power.name r1 = power.name r2 -> k1 = k2).
Proof.
  unfold power.storePSUs.
  destruct (foldl_storePSU_labels psus ∅ 0) as [Hlab Hinj].
  - intros k r Hk. rewrite lookup_empty in Hk. discriminate.
  - intros k1 k2 r1 r2 Hk. rewrite lookup_empty in Hk. discriminate.
  - cbn zeta in *. rewrite foldl_storePSU_count in Hlab. cbn in Hlab. auto.
Qed.

(** X11.  When the primary chassis answers with power data, the power
    collector never falls back -- not even when that data names no power
    supply: it returns without error, with an empty snapshot, after the one
    power query. *)
Theorem PowerUpdate_primary_never_falls_back (r : Run power.PowerCollector)
    (chassis : Chassis) (e' : redfish.Env) (pw : Power) :
  mutex (base (col r)) = false ->
  redfish.GetChassisWithID "1" (env r) = Returns (Ok chassis) e' ->
  PowerReply chassis = Ok pw ->
  exists r',
    power.Update r = Returns None r'
    /\ power.readings (col r') = fst (power.storePSUs ∅ (PowerSupplies pw))
    /\ (Spec.namedCount (PowerSupplies pw) = 0 -> power.readings (col r') = ∅)
    /\ trace (redfish.net (env r')) = trace (redfish.net e') ++ [EvPower (ID chassis)].
Proof.
  intros Hfree Hget Hpower.
  destruct r as [[[m s rec t] rd] e]; cbn in *; subst m.
  eexists. split.
  - unfold power.Update. run_collector. rewrite Hget. cbn. rewrite Hpower. cbn. reflexivity.
  - cbn. split; [reflexivity|]. split; [|reflexivity].
    intros Hnone. unfold power.storePSUs.
    rewrite <- foldl_storePSU_filter.
    unfold Spec.namedCount in Hnone. apply length_zero_iff_nil in Hnone.
    rewrite Hnone. reflexivity.
Qed.

End SnapshotsMore.

(** ** The fallback scan of the power collector *)

Section Fallback.
Import collector.

Lemma afterEvents_nil {C} (r : Run C) : Facts.afterEvents [] r = r.
Proof.
  destruct r as [c [[b cn cc sc tr] cl]]. unfold Facts.afterEvents. cbn.
  rewrite app_nil_r. reflexivity.
Qed.

Lemma afterEvents_app {C} (evs1 evs2 : list Event) (r : Run C) :
  Facts.afterEvents evs2 (Facts.afterEvents evs1 r) = Facts.afterEvents (evs1 ++ evs2) r.
Proof.
  destruct r as [c [[b cn cc sc tr] cl]]. unfold Facts.afterEvents. cbn.
  rewrite app_assoc. reflexivity.
Qed.

Lemma failedQueries_cons (c : Chassis) (chassis : list (option Chassis)) :
  Facts.failedQueries (Some c :: chassis)
  = if String.eqb (ID c) power.denylisted then Facts.failedQueries chassis
    else EvPower (ID c) :: Facts.failedQueries chassis.
Proof. unfold Facts.failedQueries. cbn. destruct (String.eqb _ _); reflexivity. Qed.

(** The scan goes past the chassis that are denylisted or fail their power
    query without taking the collector's mutex; only the failing ones were
    queried. *)
Lemma scanChassis_passes_over (skipped rest : list (option Chassis)) (pending : nat) :
  Forall Facts.passedOver skipped ->
  forall r : Run power.PowerCollector,
    power.scanChassis (skipped ++ rest) pending r
    = power.scanChassis rest pending (Facts.afterEvents (Facts.failedQueries skipped) r).
Proof.
  induction 1 as [|ch skipped (c & -> & Hc) _ IH]; intros r.
  - change (Facts.failedQueries []) with (@nil Event).
    rewrite afterEvents_nil. reflexivity.
  - cbn [app power.scanChassis]. rewrite failedQueries_cons.
    destruct (String.eqb_spec (ID c) power.denylisted) as [Hdeny|Hallowed].
    + cbn. apply IH.
    + destruct Hc as [Hdeny|[msg Hpower]]; [contradiction|].
      cbn.
      change (EvPower (ID c) :: Facts.failedQueries skipped)
        with ([EvPower (ID c)] ++ Facts.failedQueries skipped).
      rewrite <- afterEvents_app, <- IH.
      destruct r as [col0 [[b cn cc sc tr] cl]].
      run_collector. rewrite Hpower. reflexivity.
Qed.

(** A chassis that answers with at least one named power supply ends the
    scan. *)
Lemma scanChassis_hit (c : Chassis) (pw : Power) (rest : list (option Chassis))
    (r : Run power.PowerCollector) :
  mutex (base (col r)) = false ->
  ID c <> power.denylisted ->
  PowerReply c = Ok pw ->
  0 < Spec.namedCount (PowerSupplies pw) ->
  power.scanChassis (Some c :: rest) 0 r
  = Returns None
      (Facts.afterEvents [EvPower (ID c)]
         {| col := power.set_readings
                     (fst (power.storePSUs (power.readings (col r)) (PowerSupplies pw)))
                     (col r);
            env := env r |}).
Proof.
  intros Hfree Hallowed Hpower Hnamed.
  apply String.eqb_neq in Hallowed.
  destruct r as [[[m s rec t] rd] [[b cn cc sc tr] cl]]; cbn in *; subst m.
  rewrite Hallowed. run_collector. rewrite Hpower. cbn.
  pose proof (foldl_storePSU_count (PowerSupplies pw) rd 0) as Hcount.
  unfold power.storePSUs.
  destruct (foldl power.storePSU (rd, 0) (PowerSupplies pw)) as [m' n'] eqn:Hfold.
  cbn in Hcount. subst n'.
  destruct (Spec.namedCount (PowerSupplies pw)) as [|n]; [lia|].
  reflexivity.
Qed.

(** X12.  The fallback scan stops at the first chassis that answers with a
    named power supply: the chassis before it were passed over (the
    denylisted ones without a query), its supplies make the snapshot, and
    the chassis after it are never queried. *)
Theorem fallback_first_answer_wins (r : Run power.PowerCollector)
    (skipped rest : list (option Chassis)) (c : Chassis) (pw : Power) :
  mutex (base (col r)) = false ->
  redfish.mutex (redfish.client (env r)) = false ->
  chassisReply (bmc (redfish.net (env r))) (chassisCalls (redfish.net (env r)))
    = (skipped ++ Some c :: rest, None) ->
  Forall Facts.passedOver skipped ->
  ID c <> power.denylisted ->
  PowerReply c = Ok pw ->
  0 < Spec.namedCount (PowerSupplies pw) ->
  exists r',
    power.tryAlternativeChassis r = Returns None r'
    /\ power.readings (col r')
       = fst (power.storePSUs (power.readings (col r)) (PowerSupplies pw))
    /\ trace (redfish.net (env r'))
       = trace (redfish.net (env r))
         ++ EvChassis :: Facts.failedQueries skipped ++ [EvPower (ID c)]
    /\ mutex (base (col r')) = false.
Proof.
  intros Hfree Hclient Hreply Hskipped Hallowed Hpower Hnamed.
  destruct r as [[[m s rec t] rd] [[b cn cc sc tr] [a cf cm]]]; cbn in *; subst m cm.
  eexists. split.
  - unfold power.tryAlternativeChassis. run_client. run_collector. rewrite Hreply. cbn.
    rewrite scanChassis_passes_over by assumption.
    rewrite (scanChassis_hit c pw) by (cbn; auto). reflexivity.
  - cbn. split; [reflexivity|]. split; [|reflexivity].
    rewrite <- !app_assoc. reflexivity.
Qed.

(** X13.  When every chassis of the listing is denylisted or fails its power
    query, the fallback returns the error "could not find any chassis with
    power supply information"; it took no lock and the snapshot is empty. *)
Theorem fallback_finds_nothing (r : Run power.PowerCollector)
    (chassis : list (option Chassis)) :
  mutex (base (col r)) = false ->
  redfish.mutex (redfish.client (env r)) = false ->
  power.readings (col r) = ∅ ->
  chassisReply (bmc (redfish.net (env r))) (chassisCalls (redfish.net (env r)))
    = (chassis, None) ->
  Forall Facts.passedOver chassis ->
  exists r',
    power.tryAlternativeChassis r
      = Returns (Some "could not find any chassis with power supply information") r'
    /\ col r' = col r
    /\ trace (redfish.net (env r'))
       = trace (redfish.net (env r)) ++ EvChassis :: Facts.failedQueries chassis.
Proof.
  intros Hfree Hclient Hempty Hreply Hpassed.
  destruct r as [[[m s rec t] rd] [[b cn cc sc tr] [a cf cm]]]; cbn in *; subst m cm rd.
  eexists. split.
  - unfold power.tryAlternativeChassis. run_client. run_collector. rewrite Hreply. cbn.
    rewrite <- (app_nil_r chassis) at 1.
    rewrite scanChassis_passes_over by assumption. reflexivity.
  - cbn. split; [reflexivity|]. rewrite <- app_assoc. reflexivity.
Qed.

(** X14.  The fallback uses no listing that came with an error -- not even a
    partial retrieval with items, which the resolution of the primary
    chassis tolerates: it returns "failed to get any chassis: ..." and
    queries no chassis. *)
Theorem fallback_rejects_partial_listing (r : Run power.PowerCollector)
    (chassis : list (option Chassis)) (msg : string) :
  redfish.mutex (redfish.client (env r)) = false ->
  chassisReply (bmc (redfish.net (env r))) (chassisCalls (redfish.net (env r)))
    = (chassis, Some msg) ->
  exists r',
    power.tryAlternativeChassis r
      = Returns (Some ("failed to get any chassis: " ++ msg)%string) r'
    /\ col r' = col r
    /\ trace (redfish.net (env r')) = trace (redfish.net (env r)) ++ [EvChassis].
Proof.
  intros Hclient Hreply.
  destruct r as [c [[b cn cc sc tr] [a cf cm]]]; cbn in *; subst cm.
  eexists. split.
  - unfold power.tryAlternativeChassis. run_client. run_collector. rewrite Hreply. cbn.
    reflexivity.
  - cbn. split; reflexivity.
Qed.

(** The deferred unlocks of the scan touch the collector only. *)
Lemma deferring_unlocks_env {A} (pending : nat) (body : M (Run power.PowerCollector) A)
    (r : Run power.PowerCollector) :
  env (Facts.stateOf (deferring (onCol (power.unlocks pending)) body r))
  = env (Facts.stateOf (body r)).
Proof.
  unfold deferring, onCol, zoom, bind, ret.
  destruct (body r) as [a s|s|msg s]; cbn; [| reflexivity |];
    destruct (power.unlocks pending (col s)); reflexivity.
Qed.

(** Whatever its outcome, the scan queries chassis of its list only, and
    none that is denylisted. *)
Lemma scanChassis_queries (chassis : list (option Chassis)) :
  forall (pending : nat) (r : Run power.PowerCollector),
  exists evs,
    trace (redfish.net (env (Facts.stateOf (power.scanChassis chassis pending r))))
      = trace (redfish.net (env r)) ++ evs
    /\ Forall (fun ev => exists c, In (Some c) chassis
                                   /\ ID c <> power.denylisted
                                   /\ ev = EvPower (ID c)) evs.
Proof.
  induction chassis as [|[c|] rest IH]; intros pending r.
  - exists []. split; [|constructor].
    cbn [power.scanChassis]. rewrite deferring_unlocks_env, app_nil_r.
    unfold bind, get, ret. destruct (size _ =? 0)%nat; reflexivity.
  - cbn [power.scanChassis].
    assert (Hweaken : forall evs,
              Forall (fun ev => exists c0, In (Some c0) rest
                                          /\ ID c0 <> power.denylisted
                                          /\ ev = EvPower (ID c0)) evs ->
              Forall (fun ev => exists c0, In (Some c0) (Some c :: rest)
                                          /\ ID c0 <> power.denylisted
                                          /\ ev = EvPower (ID c0)) evs).
    { intros evs Hevs. eapply Forall_impl; [exact Hevs|].
      intros ev (c0 & Hin & Hne & Hev).
      exists c0. split; [right; assumption | auto]. }
    destruct (String.eqb_spec (ID c) power.denylisted) as [Hdeny|Hallowed].
    + destruct (IH pending r) as (evs & Htrace & Hevs).
      exists evs. split; [assumption | apply Hweaken, Hevs].
    + assert (Hhere : exists c0, In (Some c0) (Some c :: rest)
                                 /\ ID c0 <> power.denylisted
                                 /\ EvPower (ID c) = EvPower (ID c0)).
      { exists c. split; [left; reflexivity | auto]. }
      destruct r as [[[m s rec t] rd] [[b cn cc sc tr] cl]].
      run_collector.
      destruct (PowerReply c) as [pw|msg]; cbn.
      * destruct m; cbn.
        -- exists [EvPower (ID c)]. split; [reflexivity|]. constructor; [exact Hhere|constructor].
        -- destruct (power.storePSUs rd (PowerSupplies pw)) as [m' n'] eqn:Hstore. cbn.
           destruct n' as [|n']; cbn.
           ++ match goal with
              | |- context [power.scanChassis rest ?p ?r0] =>
                  destruct (IH p r0) as (evs & Htrace & Hevs)
              end.
              exists (EvPower (ID c) :: evs). split.
              ** rewrite Htrace. cbn. rewrite <- app_assoc. reflexivity.
              ** constructor; [exact Hhere | apply Hweaken, Hevs].
           ++ exists [EvPower (ID c)]. split; [|constructor; [exact Hhere|constructor]].
              run_collector.
              match goal with
              | |- context [power.unlocks pending ?c0] =>
                  destruct (power.unlocks pending c0)
              end; reflexivity.
      * match goal with
        | |- context [power.scanChassis rest ?p ?r0] =>
            destruct (IH p r0) as (evs & Htrace & Hevs)
        end.
        exists (EvPower (ID c) :: evs). split.
        -- rewrite Htrace. cbn. rewrite <- app_assoc. reflexivity.
        -- constructor; [exact Hhere | apply Hweaken, Hevs].
  - exists []. split; [|constructor].
    cbn [power.scanChassis]. rewrite deferring_unlocks_env, app_nil_r. reflexivity.
Qed.

(** X15.  Whatever its outcome -- a return, an error, a park or a panic -- the
    fallback never queries the power data of the denylisted chassis. *)
Theorem fallback_never_queries_denylisted (r : Run power.PowerCollector) :
  ~ In (EvPower power.denylisted) (trace (redfish.net (env r))) ->
  ~ In (EvPower power.denylisted)
      (trace (redfish.net (env (Facts.stateOf (power.tryAlternativeChassis r))))).
Proof.
  intros Hbefore.
  assert (Hscan : forall chassis (r0 : Run power.PowerCollector),
            ~ In (EvPower power.denylisted) (trace (redfish.net (env r0))) ->
            ~ In (EvPower power.denylisted)
                (trace (redfish.net (env (Facts.stateOf (power.scanChassis chassis 0 r0)))))).
  { intros chassis r0 Hr0.
    destruct (scanChassis_queries chassis 0 r0) as (evs & -> & Hevs).
    rewrite in_app_iff. intros [Hin|Hin]; [contradiction|].
    rewrite Forall_forall in Hevs. apply list_elem_of_In in Hin.
    destruct (Hevs _ Hin) as (c & _ & Hne & [= Heq]). congruence. }
  destruct r as [c [[b cn cc sc tr] [a cf cm]]]. cbn in Hbefore.
  unfold power.tryAlternativeChassis. run_client. run_collector.
  destruct cm; cbn; [exact Hbefore|].
  destruct (chassisReply b cc) as [chassis [msg|]]; cbn.
  - rewrite in_app_iff. intros [Hin|[Habs|[]]]; [contradiction | discriminate].
  - apply Hscan. cbn. rewrite in_app_iff. intros [Hin|[Habs|[]]]; [contradiction | discriminate].
Qed.

End Fallback.

(** ** The system collector *)

Section SystemMore.
Import collector.
Context `{GoFloatLib}.

(** Every reading of the processors is stored under its own name. *)
Lemma foldl_storeCPU_names powerState (cpus : list Processor) :
  forall m : gmap string system.systemReading,
    (forall k r, m !! k = Some r -> system.name r = k) ->
    forall k r, foldl (system.storeCPU powerState) m cpus !! k = Some r -> system.name r = k.
Proof.
  induction cpus as [|cpu cpus IH]; intros m Hm; cbn [foldl]; [exact Hm|].
  apply IH. intros k r Hk. unfold system.storeCPU in Hk.
  apply lookup_insert_Some in Hk as [[<- <-]|[_ Hk]]; [reflexivity | eauto].
Qed.

(** X16.  Without processors -- their listing fails, or it is empty -- the
    system collector ends with an empty snapshot and no error, and then
    sends nothing but its scrape time: the power state of the system is not
    reported either. *)
Theorem SystemUpdate_without_processors (r : Run system.SystemCollector)
    (sys : ComputerSystem) (others : list ComputerSystem) :
  mutex (base (col r)) = false ->
  systemsReply (bmc (redfish.net (env r))) (systemsCalls (redfish.net (env r)))
    = (sys :: others, None) ->
  (ProcessorsReply sys = Ok [] \/ exists msg, ProcessorsReply sys = Err msg) ->
  exists r',
    system.Update r = Returns None r'
    /\ system.readings (col r') = ∅
    /\ system.Collect (col r') = Returns (CollectScrapeTime (col r')) (col r').
Proof.
  intros Hfree Hreply Hcpus.
  destruct r as [[[m s rec t] rd f] [n cl]]; cbn in *; subst m.
  destruct Hcpus as [Hcpus|[msg Hcpus]].
  - eexists. split.
    + unfold system.Update. run_collector. rewrite Hreply. cbn. rewrite Hcpus. cbn.
      reflexivity.
    + cbn. split; reflexivity.
  - eexists. split.
    + unfold system.Update. run_collector. rewrite Hreply. cbn. rewrite Hcpus. cbn.
      reflexivity.
    + cbn. split; reflexivity.
Qed.

(** X17.  With at least one processor, the samples sent after the update
    include the power state of the system (1 when it is "On", 0 otherwise)
    and the memory health with the formatted memory size as its label. *)
Theorem SystemUpdate_sends_power_state (r : Run system.SystemCollector)
    (sys : ComputerSystem) (others : list ComputerSystem)
    (p : Processor) (rest : list Processor) :
  mutex (base (col r)) = false ->
  systemsReply (bmc (redfish.net (env r))) (systemsCalls (redfish.net (env r)))
    = (sys :: others, None) ->
  ProcessorsReply sys = Ok (p :: rest) ->
  exists r' sent,
    system.Update r = Returns None r'
    /\ system.Collect (col r') = Returns sent (col r')
    /\ In (ConstMetric "ipmi_system_power_state"
             (if String.eqb (PowerState sys) "On" then 1%float else 0%float) []) sent
    /\ In (ConstMetric "ipmi_memory_health"
             (healthOf (Health (mem_Status (memorySummary sys))))
             [Sprintf_0f (TotalSystemMemoryGiB (memorySummary sys))]) sent.
Proof.
  intros Hfree Hreply Hcpus.
  destruct r as [[[m s rec t] rd f] [n cl]]; cbn in *; subst m.
  set (ps := if String.eqb (PowerState sys) "On" then 1%float else 0%float).
  set (c0 := {| system.baseCollector :=
                  {| mutex := true; scrapeTime := s; recorded := rec; target := t |};
                system.readings := ∅; system.firstCPUID := f |}).
  (* the entry of the first processor *)
  assert (Hentry : exists reading,
            system.readings (system.storeSystem sys ps (p :: rest) c0) !! proc_ID p
              = Some reading
            /\ system.name reading = proc_ID p
            /\ system.powerState reading = ps
            /\ system.health reading = healthOf (Health (mem_Status (memorySummary sys)))
            /\ system.totalMemoryGiB reading
               = Sprintf_0f (TotalSystemMemoryGiB (memorySummary sys))).
  { unfold system.storeSystem. cbn [system.set_firstCPUID system.set_readings
      system.readings system.firstCPUID foldl c0].
    assert (Hkey : is_Some (foldl (system.storeCPU ps) (system.storeCPU ps ∅ p) rest
                            !! proc_ID p)).
    { apply foldl_storeCPU_keeps. unfold system.storeCPU. rewrite lookup_insert_eq. eauto. }
    assert (Hsize : (0 <? size (foldl (system.storeCPU ps) (system.storeCPU ps ∅ p) rest))%nat
                    = true).
    { apply Nat.ltb_lt. pose proof (map_size_ne_0_lookup_2 _ _ Hkey). lia. }
    rewrite Hsize. cbn. rewrite lookup_insert_eq. eexists. split; [reflexivity|].
    destruct Hkey as [old Hold]. rewrite Hold. cbn.
    split; [|auto].
    eapply (foldl_storeCPU_names ps (p :: rest) ∅); [|exact Hold].
    intros k r0 Hk. rewrite lookup_empty in Hk. discriminate. }
  destruct Hentry as (reading & Hlook & Hname & Hps & Hhealth & Htotal).
  assert (Hfirst : system.firstCPUID (system.storeSystem sys ps (p :: rest) c0) = proc_ID p).
  { destruct (storeSystem_first_entry sys ps p rest c0) as (_ & _ & _ & _ & Hf). exact Hf. }
  eexists. eexists. split; [|split].
  - unfold system.Update. run_collector. rewrite Hreply. cbn. rewrite Hcpus. cbn.
    rewrite !storeSystem_base. cbn. reflexivity.
  - unfold system.Collect. run_collector. rewrite ?storeSystem_base. cbn. reflexivity.
  - assert (Hin : In (proc_ID p, reading)
                    (map_to_list (system.readings (system.storeSystem sys ps (p :: rest) c0)))).
    { apply list_elem_of_In, elem_of_map_to_list, Hlook. }
    assert (Hsent : forall sample,
              In sample (system.collectReading (proc_ID p) reading) ->
              In sample
                (concat (map (fun kv => system.collectReading
                                          (system.firstCPUID
                                             (system.storeSystem sys ps (p :: rest) c0))
                                          (snd kv))
                           (map_to_list (system.readings
                                           (system.storeSystem sys ps (p :: rest) c0)))))).
    { intros sample Hsample.
      apply in_concat. exists (system.collectReading (proc_ID p) reading).
      split; [|exact Hsample].
      apply in_map_iff. exists (proc_ID p, reading). rewrite Hfirst. auto. }
    assert (Hcollected : system.collectReading (proc_ID p) reading
              = [ConstMetric "ipmi_system_power_state" ps [];
                 ConstMetric "ipmi_memory_health"
                   (healthOf (Health (mem_Status (memorySummary sys))))
                   [Sprintf_0f (TotalSystemMemoryGiB (memorySummary sys))];
                 ConstMetric "ipmi_cpu_health"
                   (healthOf (Health (mem_Status (memorySummary sys))))
                   [proc_ID p; system.model reading;
                    fmt.Sprintf_dZ (int_of_float64 (system.cores reading))]]).
    { unfold system.collectReading.
      rewrite Hname, String.eqb_refl, Hps, Hhealth, Htotal. reflexivity. }
    rewrite Hcollected in Hsent.
    split; (apply in_or_app; left; apply Hsent; cbn; auto).
Qed.

End SystemMore.

(** ** The registry of clients *)

Section Registry.
Import main.

Lemma unlock_after_lock (w : World) :
  mutex (sherlock w) = false -> set_mutex false (set_mutex true w) = w.
Proof. destruct w as [[c cl m lg] n]. cbn. intros ->. reflexivity. Qed.

(** The three ways [getClient] ends when the orchestrator's mutex is free. *)
Lemma getClient_cached (hostname : string) (w : World) (client : redfish.Client) :
  mutex (sherlock w) = false ->
  clients (sherlock w) !! hostname = Some client ->
  getClient hostname w = Returns (Ok client) w.
Proof.
  intros Hfree Hcached. rewrite <- (unlock_after_lock w Hfree) at 2.
  destruct w as [[c cl m lg] n]; cbn in *; subst m.
  unfold getClient, mutex_Lock, mutex_Unlock, Mutex.Lock, Mutex.Unlock, deferring, bind, get, ret.
  cbn. rewrite Hcached. reflexivity.
Qed.

Lemma getClient_connected (hostname : string) (w : World) :
  mutex (sherlock w) = false ->
  clients (sherlock w) !! hostname = None ->
  connectReply (bmc (network w)) (connects (network w)) = None ->
  getClient hostname w
  = Returns (Ok (Facts.clientFor (cfg (sherlock w)) hostname (connects (network w))))
      (set_client hostname
         (Facts.clientFor (cfg (sherlock w)) hostname (connects (network w)))
         (set_network (Facts.dialled ("https://" ++ hostname)%string (network w)) w)).
Proof.
  intros Hfree Hnew Hreply.
  destruct w as [[c cl m lg] n]; cbn in *; subst m.
  unfold getClient, mutex_Lock, mutex_Unlock, Mutex.Lock, Mutex.Unlock, onNetwork,
    redfish.NewClient, redfish.connect, gofish.Connect, deferring, zoom, bind, get, ret, modify.
  cbn. rewrite Hnew. cbn. rewrite Hreply. reflexivity.
Qed.

Lemma getClient_refused (hostname : string) (w : World) (msg : string) :
  mutex (sherlock w) = false ->
  clients (sherlock w) !! hostname = None ->
  connectReply (bmc (network w)) (connects (network w)) = Some msg ->
  getClient hostname w
  = Returns (Err ("failed to connect to Redfish API: " ++ msg)%string)
      (set_network (Facts.dialled ("https://" ++ hostname)%string (network w)) w).
Proof.
  intros Hfree Hnew Hreply.
  destruct w as [[c cl m lg] n]; cbn in *; subst m.
  unfold getClient, mutex_Lock, mutex_Unlock, Mutex.Lock, Mutex.Unlock, onNetwork,
    redfish.NewClient, redfish.connect, gofish.Connect, deferring, zoom, bind, get, ret, modify.
  cbn. rewrite Hnew. cbn. rewrite Hreply. reflexivity.
Qed.

Lemma getClient_held (hostname : string) (w : World) :
  mutex (sherlock w) = true -> getClient hostname w = Blocked w.
Proof.
  intros Hheld. unfold getClient, mutex_Lock, Mutex.Lock, bind. rewrite Hheld. reflexivity.
Qed.

(** X18.  One session per hostname.  When [getClient] has returned a client
    for a hostname, asking again returns that same client and changes
    nothing: no second connection is made. *)
Theorem getClient_reuses_session (hostname : string) (w w1 : World)
    (client : redfish.Client) :
  getClient hostname w = Returns (Ok client) w1 ->
  getClient hostname w1 = Returns (Ok client) w1
  /\ clients (sherlock w1) !! hostname = Some client.
Proof.
  intros Hfirst.
  destruct (mutex (sherlock w)) eqn:Hmutex.
  { rewrite getClient_held in Hfirst by assumption. discriminate. }
  destruct (clients (sherlock w) !! hostname) as [cached|] eqn:Hcached.
  - rewrite (getClient_cached _ _ _ Hmutex Hcached) in Hfirst.
    injection Hfirst as <- <-.
    split; [apply getClient_cached|]; assumption.
  - destruct (connectReply (bmc (network w)) (connects (network w))) as [msg|] eqn:Hreply.
    + rewrite (getClient_refused _ _ _ Hmutex Hcached Hreply) in Hfirst. discriminate.
    + rewrite (getClient_connected _ _ Hmutex Hcached Hreply) in Hfirst.
      injection Hfirst as <- <-.
      assert (Hnow : clients (sherlock
                (set_client hostname
                   (Facts.clientFor (cfg (sherlock w)) hostname (connects (network w)))
                   (set_network (Facts.dialled ("https://" ++ hostname)%string (network w)) w)))
              !! hostname
              = Some (Facts.clientFor (cfg (sherlock w)) hostname (connects (network w)))).
      { cbn. apply lookup_insert_eq. }
      split; [|exact Hnow].
      apply getClient_cached; [|exact Hnow].
      destruct w as [[c cl m lg] n]. exact Hmutex.
Qed.

(** X19.  The first request for a hostname connects to [https://] followed by
    the hostname, with the credentials of the configuration, and stores the
    client; a connection that is refused is reported and stores nothing, so
    the next request connects again. *)
Theorem getClient_first_request (hostname : string) (w : World) :
  mutex (sherlock w) = false ->
  clients (sherlock w) !! hostname = None ->
  exists r w1,
    getClient hostname w = Returns r w1
    /\ trace (network w1) = trace (network w) ++ [EvConnect ("https://" ++ hostname)%string]
    /\ match connectReply (bmc (network w)) (connects (network w)) with
       | None =>
           r = Ok (Facts.clientFor (cfg (sherlock w)) hostname (connects (network w)))
           /\ clients (sherlock w1)
              = <[hostname := Facts.clientFor (cfg (sherlock w)) hostname
                                (connects (network w))]> (clients (sherlock w))
       | Some msg =>
           r = Err ("failed to connect to Redfish API: " ++ msg)%string
           /\ clients (sherlock w1) = clients (sherlock w)
       end.
Proof.
  intros Hfree Hnew.
  destruct (connectReply (bmc (network w)) (connects (network w))) as [msg|] eqn:Hreply.
  - eexists. eexists. split; [apply getClient_refused; eassumption|].
    destruct w as [[c cl m lg] n]. cbn. auto.
  - eexists. eexists. split; [apply getClient_connected; eassumption|].
    destruct w as [[c cl m lg] n]. cbn. auto.
Qed.

End Registry.

Section Scrapes.
Import collector main.
Context `{GoFloatLib}.

Lemma sameOthers_refl target w : Facts.sameOthers target w w.
Proof. intros h _. reflexivity. Qed.

Lemma sameOthers_trans target w1 w2 w3 :
  Facts.sameOthers target w1 w2 -> Facts.sameOthers target w2 w3 ->
  Facts.sameOthers target w1 w3.
Proof. intros H12 H23 h Hh. rewrite (H23 h Hh). apply H12, Hh. Qed.

(** Whatever its outcome, [getClient] touches the entry of its hostname
    only. *)
Lemma getClient_sameOthers (hostname : string) (w : World) :
  Facts.sameOthers hostname w (Facts.stateOf (getClient hostname w)).
Proof.
  destruct (mutex (sherlock w)) eqn:Hmutex.
  { rewrite getClient_held by assumption. apply sameOthers_refl. }
  destruct (clients (sherlock w) !! hostname) as [cached|] eqn:Hcached.
  { rewrite (getClient_cached _ _ _ Hmutex Hcached). apply sameOthers_refl. }
  destruct (connectReply (bmc (network w)) (connects (network w))) as [msg|] eqn:Hreply.
  - rewrite (getClient_refused _ _ _ Hmutex Hcached Hreply). intros h _. reflexivity.
  - rewrite (getClient_connected _ _ Hmutex Hcached Hreply). intros h Hh.
    cbn. apply lookup_insert_ne. congruence.
Qed.

Lemma clients_logFailures (errs : list string) :
  forall w, clients (sherlock (foldl logFailure w errs)) = clients (sherlock w).
Proof.
  induction errs as [|e errs IH]; intros w; cbn [foldl]; [reflexivity|].
  rewrite IH. reflexivity.
Qed.

(** X20.  A scrape touches the session of its own target only.  Whatever the
    outcome of [collectTarget] -- a return, a park or a panic -- the client
    cached for every other hostname is the one that was there before. *)
Theorem collectTarget_leaves_other_sessions (sched : list nat) (target : string) (w : World) :
  Facts.sameOthers target w (Facts.stateOf (collectTarget sched target w)).
Proof.
  pose proof (getClient_sameOthers target w) as Hget.
  unfold collectTarget, bind at 1.
  destruct (getClient target w) as [[client|e] w1|w1|msg w1]; cbn [Facts.stateOf] in Hget;
    [| exact Hget | exact Hget | exact Hget].
  eapply sameOthers_trans; [exact Hget|].
  assert (Hpublish : forall f, Facts.sameOthers target w1 (publish target f w1)).
  { intros f h Hh. cbn. apply lookup_insert_ne. congruence. }
  unfold bind at 1, zoom.
  destruct ((fanOut sched target;;; get) (startFanOut client w1)) as [f f'|f'|msg f'];
    cbn [Facts.stateOf]; [| apply Hpublish | apply Hpublish].
  unfold bind at 1, modify. unfold bind, scoped, ret.
  assert (Hlogged : Facts.sameOthers target w1
                      (foldl logFailure (publish target f' w1) (errChan f))).
  { intros h Hh. rewrite clients_logFailures. apply Hpublish, Hh. }
  destruct (forEach Collect (collectors f)); exact Hlogged.
Qed.

(** X21.  A target that cannot be connected to is answered with an empty
    exposition, not with an error: the failure is logged, nothing is
    cached, and no collector runs. *)
Theorem metricsHandler_unreachable_target (sched : list nat)
    (query : list (string * string)) (w : World) (msg : string) :
  Query_Get query "target" <> "" ->
  mutex (sherlock w) = false ->
  clients (sherlock w) !! Spec.stripped (Query_Get query "target") = None ->
  connectReply (bmc (network w)) (connects (network w)) = Some msg ->
  exists w1,
    metricsHandler sched query w = Returns (Exposition []) w1
    /\ clients (sherlock w1) = clients (sherlock w)
    /\ logger (sherlock w1)
       = logger (sherlock w)
         ++ [ {| level := "error"; msg := "failed to connect to redfish api";
                 fields := [("target", Spec.stripped (Query_Get query "target"));
                            ("error", ("failed to connect to Redfish API: " ++ msg)%string)] |} ]
    /\ trace (network w1)
       = trace (network w)
         ++ [EvConnect ("https://" ++ Spec.stripped (Query_Get query "target"))%string].
Proof.
  intros Hpresent Hfree Hnew Hreply.
  eexists. split.
  - unfold metricsHandler.
    destruct (String.eqb_spec (Query_Get query "target") ""); [contradiction|].
    fold (Spec.stripped (Query_Get query "target")).
    unfold bind at 1, collectTarget, bind at 1.
    rewrite (getClient_refused _ _ _ Hfree Hnew Hreply). reflexivity.
  - destruct w as [[c cl m lg] n]. cbn. auto.
Qed.

End Scrapes.

(** ** Shutdown *)

Section Shutdown.
Import main.

(** The world after the loop of [Close] went through [entries], all free. *)
Lemma closeEach_free (entries : list (string * redfish.Client)) :
  Forall (fun kv => redfish.mutex (snd kv) = false) entries ->
  forall w,
  exists w',
    closeEach entries w = Returns tt w'
    /\ clients (sherlock w') = foldl (fun m kv => delete (fst kv) m) (clients (sherlock w)) entries
    /\ trace (network w') = trace (network w) ++ Facts.logouts entries
    /\ mutex (sherlock w') = mutex (sherlock w).
Proof.
  induction 1 as [|[target client] entries Hfree _ IH]; intros w.
  - exists w. cbn. rewrite app_nil_r. auto.
  - cbn in Hfree. destruct client as [a cf m]. cbn in Hfree. subst m.
    destruct w as [[c cl mx lg] [b cn cc sc tr]].
    destruct a as [h|].
    + match type of IH with
      | forall w, _ =>
          destruct (IH {| sherlock := {| cfg := c; clients := delete target cl;
                                         mutex := mx; logger := lg |};
                          network := {| bmc := b; connects := cn; chassisCalls := cc;
                                        systemsCalls := sc;
                                        trace := tr ++ [EvLogout h] |} |})
            as (w' & Hrun & Hclients & Htrace & Hmutex)
      end.
      exists w'. split; [|split; [|split]]; cbn in *.
      * unfold closeClient, bind, zoom, modify. cbn.
        rewrite delete_insert_eq. exact Hrun.
      * exact Hclients.
      * rewrite Htrace, <- app_assoc. reflexivity.
      * exact Hmutex.
    + match type of IH with
      | forall w, _ =>
          destruct (IH {| sherlock := {| cfg := c; clients := delete target cl;
                                         mutex := mx; logger := lg |};
                          network := {| bmc := b; connects := cn; chassisCalls := cc;
                                        systemsCalls := sc; trace := tr |} |})
            as (w' & Hrun & Hclients & Htrace & Hmutex)
      end.
      exists w'. split; [|split; [|split]]; cbn in *.
      * unfold closeClient, bind, zoom, modify. cbn.
        rewrite delete_insert_eq. exact Hrun.
      * exact Hclients.
      * exact Htrace.
      * exact Hmutex.
Qed.

(** Deleting the keys of a list of entries. *)
Lemma lookup_foldl_delete (entries : list (string * redfish.Client)) :
  forall (m : gmap string redfish.Client) (k : string),
    foldl (fun m kv => delete (fst kv) m) m entries !! k
    = if decide (k ∈ entries.*1) then None else m !! k.
Proof.
  induction entries as [|[t c] entries IH]; intros m k; cbn [foldl].
  - reflexivity.
  - rewrite IH. cbn [fmap list_fmap fst].
    destruct (decide (k ∈ entries.*1)) as [Hin|Hout].
    + rewrite decide_True by (right; exact Hin). reflexivity.
    + destruct (decide (k = t)) as [->|Hne].
      * rewrite decide_True by left. apply lookup_delete_eq.
      * rewrite decide_False by (intros Hk; apply elem_of_cons in Hk as [?|?]; contradiction).
        apply lookup_delete_ne. congruence.
Qed.

(** X22.  [Close] logs out every cached connection once and empties the
    registry, provided no client's mutex is held. *)
Theorem Close_empties_registry (w : World) :
  mutex (sherlock w) = false ->
  (forall hostname client,
      clients (sherlock w) !! hostname = Some client -> redfish.mutex client = false) ->
  exists w',
    Close w = Returns tt w'
    /\ clients (sherlock w') = ∅
    /\ trace (network w')
       = trace (network w) ++ Facts.logouts (map_to_list (clients (sherlock w)))
    /\ mutex (sherlock w') = false.
Proof.
  intros Hfree Hclients.
  assert (Hall : Forall (fun kv => redfish.mutex (snd kv) = false)
                   (map_to_list (clients (sherlock w)))).
  { apply Forall_forall. intros [h c] Hin. apply elem_of_map_to_list in Hin.
    cbn. eapply Hclients, Hin. }
  destruct (closeEach_free _ Hall (set_mutex true w)) as (w' & Hrun & Hcl & Htr & Hmx).
  exists (set_mutex false w'). split; [|split; [|split]].
  - unfold Close, mutex_Lock, mutex_Unlock, Mutex.Lock, Mutex.Unlock, deferring, bind, get.
    rewrite Hfree.
    change (clients (sherlock (set_mutex true w))) with (clients (sherlock w)).
    rewrite Hrun. cbn. rewrite Hmx. reflexivity.
  - cbn. rewrite Hcl. apply map_eq. intros k. rewrite lookup_foldl_delete, lookup_empty.
    change (clients (sherlock (set_mutex true w))) with (clients (sherlock w)).
    destruct (decide (k ∈ (map_to_list (clients (sherlock w))).*1))
      as [_|Hout]; [reflexivity|].
    destruct (clients (sherlock w) !! k) as [c|] eqn:Hk; [|reflexivity].
    exfalso. apply Hout. apply list_elem_of_fmap. exists (k, c).
    split; [reflexivity|]. apply elem_of_map_to_list, Hk.
  - cbn. exact Htr.
  - reflexivity.
Qed.

(** The loop of [Close] parks at the first client whose mutex is held. *)
Lemma closeEach_parks (entries : list (string * redfish.Client)) :
  Exists (fun kv => redfish.mutex (snd kv) = true) entries ->
  forall w, exists w',
    closeEach entries w = Blocked w' /\ mutex (sherlock w') = mutex (sherlock w).
Proof.
  induction entries as [|[target client] entries IH]; intros Hheld w.
  - inversion Hheld.
  - destruct (redfish.mutex client) eqn:Hm.
    + destruct client as [a cf m]. cbn in Hm. subst m.
      eexists. cbn [closeEach]. unfold closeClient, bind, zoom, redfish.Close,
        redfish.mutex_Lock, Mutex.Lock. cbn. split; reflexivity.
    + assert (Hrest : Exists (fun kv => redfish.mutex (snd kv) = true) entries).
      { inversion Hheld as [? ? Hhere|? ? Hthere]; subst; [|assumption].
        cbn in Hhere. congruence. }
      cbn [closeEach]. unfold bind at 1.
      destruct (closeEach_free [(target, client)]
                  ltac:(constructor; [exact Hm | constructor]) w)
        as (w1 & Hone & _ & _ & Hmx).
      cbn [closeEach] in Hone. unfold bind at 1 in Hone.
      destruct (closeClient target client w) as [[] w2|w2|msg w2]; try discriminate.
      cbn in Hone. injection Hone as ->.
      destruct (IH Hrest w1) as (w' & Hrun & Hmx').
      exists w'. split; [exact Hrun | congruence].
Qed.

(** X23.  Shutdown hangs on a parked session.  If the mutex of any cached
    client is held -- as it is after a resolution that met an
    authentication error -- [Close] never returns: it parks while it holds
    the orchestrator's own mutex. *)
Theorem Close_parks_on_held_client (w : World) (hostname : string) (client : redfish.Client) :
  mutex (sherlock w) = false ->
  clients (sherlock w) !! hostname = Some client ->
  redfish.mutex client = true ->
  exists w', Close w = Blocked w' /\ mutex (sherlock w') = true.
Proof.
  intros Hfree Hcached Hheld.
  assert (Hex : Exists (fun kv => redfish.mutex (snd kv) = true)
                  (map_to_list (clients (sherlock w)))).
  { apply Exists_exists. exists (hostname, client).
    split; [apply elem_of_map_to_list, Hcached | exact Hheld]. }
  destruct (closeEach_parks _ Hex (set_mutex true w)) as (w' & Hrun & Hmx).
  exists w'. split.
  - unfold Close, mutex_Lock, Mutex.Lock, deferring, bind, get. rewrite Hfree.
    change (clients (sherlock (set_mutex true w))) with (clients (sherlock w)).
    rewrite Hrun. reflexivity.
  - rewrite Hmx. reflexivity.
Qed.

End Shutdown.

(** ** A scrape of a target whose session is parked *)

Section Parked.
Import collector main.
Context `{GoFloatLib}.

Lemma GetMainChassis_held (e : redfish.Env) :
  redfish.mutex (redfish.client e) = true -> redfish.GetMainChassis e = Blocked e.
Proof.
  intros Hheld. unfold redfish.GetMainChassis, redfish.mutex_Lock, Mutex.Lock, bind.
  rewrite Hheld. reflexivity.
Qed.

(** The four collectors that resolve a chassis park on a held client. *)
Lemma SensorUpdate_held (r : Run sensors.SensorCollector) :
  redfish.mutex (redfish.client (env r)) = true ->
  exists r', sensors.Update r = Blocked r' /\ env r' = env r.
Proof.
  intros Hheld. destruct r as [c [n [a cf m]]]. cbn in Hheld. subst m.
  unfold sensors.Update. change (redfish.GetChassisWithID "1") with redfish.GetMainChassis.
  run_collector.
  match goal with |- context [if ?held then Blocked _ else _] => destruct held end;
    run_client; eauto.
Qed.

Lemma PowerUpdate_held (r : Run power.PowerCollector) :
  redfish.mutex (redfish.client (env r)) = true ->
  exists r', power.Update r = Blocked r' /\ env r' = env r.
Proof.
  intros Hheld. destruct r as [c [n [a cf m]]]. cbn in Hheld. subst m.
  unfold power.Update. change (redfish.GetChassisWithID "1") with redfish.GetMainChassis.
  run_collector.
  match goal with |- context [if ?held then Blocked _ else _] => destruct held end;
    run_client; eauto.
Qed.

Lemma FansUpdate_held (r : Run fans.FansCollector) :
  redfish.mutex (redfish.client (env r)) = true ->
  exists r', fans.Update r = Blocked r' /\ env r' = env r.
Proof.
  intros Hheld. destruct r as [c [n [a cf m]]]. cbn in Hheld. subst m.
  unfold fans.Update.
  run_collector.
  match goal with |- context [if ?held then Blocked _ else _] => destruct held end;
    run_client; eauto.
Qed.

Lemma TelemetryUpdate_held (r : Run telemetry.TelemetryCollector) :
  redfish.mutex (redfish.client (env r)) = true ->
  exists r', telemetry.Update r = Blocked r' /\ env r' = env r.
Proof.
  intros Hheld. destruct r as [c [n [a cf m]]]. cbn in Hheld. subst m.
  unfold telemetry.Update.
  run_collector.
  match goal with |- context [if ?held then Blocked _ else _] => destruct held end;
    run_client; eauto.
Qed.

(** The system collector goes to the service directly: it never touches the
    client's mutex, whatever its outcome. *)
Lemma SystemUpdate_keeps_client (r : Run system.SystemCollector) :
  redfish.client (env (Facts.stateOf (system.Update r))) = redfish.client (env r).
Proof.
  destruct r as [c [n cl]]. unfold system.Update. run_collector.
  repeat match goal with
         | |- context [match ?x with _ => _ end] =>
             match x with
             | context [match _ with _ => _ end] => fail 1
             | _ => destruct x eqn:?; cbn
             end
         end; reflexivity.
Qed.

(** A goroutine on a held client: every collector but the system collector
    parks, and none changes the client or its own type. *)
Lemma Update_on_held_client (c : AnyCollector) (e : redfish.Env) :
  redfish.mutex (redfish.client e) = true ->
  redfish.mutex (redfish.client (env (Facts.stateOf (Update {| col := c; env := e |})))) = true
  /\ typeName (col (Facts.stateOf (Update {| col := c; env := e |}))) = typeName c
  /\ (typeName c <> "*collector.SystemCollector" ->
      exists r', Update {| col := c; env := e |} = Blocked r').
Proof.
  intros Hheld. destruct c as [c|c|c|c|c]; cbn [Update AnyCollector_Collector col].
  - pose proof (SystemUpdate_keeps_client {| col := c; env := e |}) as Hkeeps.
    unfold dispatchRun. cbn [col env] in *.
    destruct (system.Update {| col := c; env := e |}) as [err r|r|msg r];
      cbn in *; rewrite Hkeeps; repeat split; try assumption; intros []; reflexivity.
  - destruct (SensorUpdate_held {| col := c; env := e |} Hheld) as (r' & Hrun & Henv).
    unfold dispatchRun. cbn [col env] in *. rewrite Hrun. cbn. rewrite Henv.
    repeat split; eauto.
  - destruct (PowerUpdate_held {| col := c; env := e |} Hheld) as (r' & Hrun & Henv).
    unfold dispatchRun. cbn [col env] in *. rewrite Hrun. cbn. rewrite Henv.
    repeat split; eauto.
  - destruct (FansUpdate_held {| col := c; env := e |} Hheld) as (r' & Hrun & Henv).
    unfold dispatchRun. cbn [col env] in *. rewrite Hrun. cbn. rewrite Henv.
    repeat split; eauto.
  - destruct (TelemetryUpdate_held {| col := c; env := e |} Hheld) as (r' & Hrun & Henv).
    unfold dispatchRun. cbn [col env] in *. rewrite Hrun. cbn. rewrite Henv.
    repeat split; eauto.
Qed.

Lemma kinds_insert (cs : list AnyCollector) (index : nat) (c c' : AnyCollector) :
  cs !! index = Some c -> typeName c' = typeName c ->
  Facts.kinds (<[index := c']> cs) = Facts.kinds cs.
Proof.
  intros Hc Hsame. unfold Facts.kinds.
  change (map typeName) with (fmap (M := list) typeName).
  rewrite list_fmap_insert, Hsame. apply list_insert_id.
  rewrite list_lookup_fmap, Hc. reflexivity.
Qed.

Lemma runTask_around_held_client (target : string) (index : nat) (f f' : FanOut) :
  Facts.aroundHeldClient f ->
  runTask target index f = Returns tt f' ->
  Facts.aroundHeldClient f'
  /\ (parked f <> [] -> parked f' <> [])
  /\ (1 <= index <= 4 -> parked f' <> []).
Proof.
  intros [Hheld Hkinds]. unfold runTask.
  destruct (collectors f !! index) as [c|] eqn:Hc.
  - destruct (Update_on_held_client c (shared f) Hheld) as (Hstill & Hsame & Hparks).
    assert (Hkind : 1 <= index <= 4 -> typeName c <> "*collector.SystemCollector").
    { intros Hindex.
      assert (Hat : Facts.fiveKinds !! index = Some (typeName c)).
      { rewrite <- Hkinds. unfold Facts.kinds.
        change (map typeName) with (fmap (M := list) typeName).
        rewrite list_lookup_fmap, Hc. reflexivity. }
      destruct index as [|[|[|[|[|index]]]]]; try lia;
        cbn in Hat; injection Hat as <-; discriminate. }
    destruct (Update {| col := c; env := shared f |}) as [err r|r|msg r];
      [| |discriminate]; intros [= <-]; cbn in *.
    + split; [split; [assumption | cbn; rewrite (kinds_insert _ _ c); assumption]|].
      split; [auto|]. intros Hindex.
      destruct (Hparks (Hkind Hindex)) as (r' & Hr'). discriminate.
    + split; [split; [assumption | cbn; rewrite (kinds_insert _ _ c); assumption]|].
      split; intros _; destruct (parked f); discriminate.
  - intros [= <-]. split; [split; assumption|]. split; [auto|].
    intros Hindex. apply lookup_ge_None in Hc.
    assert (Hlen : length (Facts.kinds (collectors f)) = 5) by (rewrite Hkinds; reflexivity).
    unfold Facts.kinds in Hlen. rewrite length_map in Hlen. lia.
Qed.

Lemma runTasks_around_held_client (target : string) (sched : list nat) : forall f f',
  Facts.aroundHeldClient f ->
  parked f <> [] \/ (exists index, In index sched /\ 1 <= index <= 4) ->
  runTasks target sched f = Returns tt f' ->
  parked f' <> [].
Proof.
  induction sched as [|index rest IH]; intros f f' Hinv Hsome; cbn [runTasks].
  - intros [= <-]. destruct Hsome as [?|(index & [] & _)]. assumption.
  - unfold bind at 1.
    destruct (runTask target index f) as [[] f1|f1|msg f1] eqn:Hfirst; try discriminate.
    destruct (runTask_around_held_client _ _ _ _ Hinv Hfirst) as (Hinv1 & Hkeeps & Hparks).
    apply IH; [assumption|].
    destruct Hsome as [Hparked|(i & [<-|Hin] & Hi)]; eauto.
Qed.

(** X24.  A parked session poisons its target.  Once the mutex of the cached
    client of a target is held -- as it is after a resolution met an
    authentication error -- no later scrape of that target returns: the
    goroutines of the sensor, power, fans and telemetry collectors park on
    the client, and [wg.Wait] waits for them for ever. *)
Theorem collectTarget_never_returns_on_parked_session
    (sched : list nat) (target : string) (w : World) (client : redfish.Client) :
  mutex (sherlock w) = false ->
  clients (sherlock w) !! target = Some client ->
  redfish.mutex client = true ->
  (exists index, In index sched /\ 1 <= index <= 4) ->
  forall samples w', collectTarget sched target w <> Returns samples w'.
Proof.
  intros Hfree Hcached Hheld Hsched samples w'.
  unfold collectTarget, bind at 1.
  rewrite (getClient_cached _ _ _ Hfree Hcached).
  unfold bind at 1, zoom.
  destruct (setTarget_newCollectors target) as (cs & Hset & _).
  assert (Hkinds : Facts.kinds cs = Facts.fiveKinds).
  { cbn in Hset. injection Hset as <-. reflexivity. }
  assert (Hfan : forall u f, fanOut sched target (startFanOut client w) <> Returns u f).
  { intros u f. unfold fanOut, bind at 1, zoom. cbn [startFanOut collectors].
    rewrite Hset. unfold bind at 1.
    destruct (runTasks target sched (set_collectors cs (startFanOut client w)))
      as [[] f1|f1|msg f1] eqn:Hrun; try discriminate.
    apply runTasks_around_held_client in Hrun; [|split; assumption|right; assumption].
    unfold wg_Wait. destruct (parked f1); [contradiction|discriminate]. }
  unfold bind at 1.
  destruct (fanOut sched target (startFanOut client w)) as [u f|f|msg f] eqn:Hrun;
    [exfalso; eapply Hfan; reflexivity| |]; discriminate.
Qed.

End Parked.

(** ** The further properties on the scenarios *)

(** A connected client, closed. *)
Lemma Close_logs_out_each_time_witness :
  redfish.Close (Scenario.connected Scenario.healthy)
  = Returns tt (redfish.set_net
                  (emit (EvLogout 0) (redfish.net (Scenario.connected Scenario.healthy)))
                  (Scenario.connected Scenario.healthy))
  /\ (redfish.Close ;;; redfish.Close) (Scenario.connected Scenario.healthy)
     = Returns tt (redfish.set_net
                     (emit (EvLogout 0)
                        (emit (EvLogout 0) (redfish.net (Scenario.connected Scenario.healthy))))
                     (Scenario.connected Scenario.healthy)).
Proof.
  exact (Close_logs_out_each_time (Scenario.connected Scenario.healthy) 0 eq_refl eq_refl).
Defined.

(** Two fans named Fan1 and one without a name. *)
Lemma FansUpdate_snapshot_witness :
  exists r',
    fans.Update {| collector.col := fans.NewFansCollector;
                   collector.env := Scenario.connected Scenario.crowded |}
    = Returns None r'
    /\ forall k,
         fans.fans (collector.col r') !! k
         = if String.eqb k "" then None
           else fans.fanMetricOf
                  <$> Facts.lastWith fan_Name k (Fans Scenario.crowdedThermal).
Proof.
  exact (FansUpdate_snapshot
           {| collector.col := fans.NewFansCollector;
              collector.env := Scenario.connected Scenario.crowded |}
           Scenario.chassisCrowded _ Scenario.crowdedThermal eq_refl eq_refl eq_refl).
Defined.

(** A voltage sensor named like a temperature sensor. *)
Lemma SensorUpdate_snapshot_witness :
  exists r',
    @sensors.Update Scenario.lib {| collector.col := sensors.NewSensorCollector;
                      collector.env := Scenario.connected Scenario.crowded |}
    = Returns None r'
    /\ forall k,
         sensors.readings (collector.col r') !! k
         = if String.eqb k "" then None
           else match Facts.lastWith volt_Name k
                        (Voltages (Scenario.powerOf [Scenario.psu "PSU1" "OK"])) with
                | Some volt => Some (@sensors.voltageReading Scenario.lib volt)
                | None =>
                    sensors.temperatureReading
                      <$> Facts.lastWith temp_Name k (Temperatures Scenario.crowdedThermal)
                end.
Proof.
  exact (@SensorUpdate_snapshot Scenario.lib
           {| collector.col := sensors.NewSensorCollector;
              collector.env := Scenario.connected Scenario.crowded |}
           Scenario.chassisCrowded _ Scenario.crowdedThermal
           (Scenario.powerOf [Scenario.psu "PSU1" "OK"]) eq_refl eq_refl eq_refl eq_refl).
Defined.

(** A primary chassis without power data. *)
Lemma SensorUpdate_keeps_temperatures_witness :
  exists r',
    @sensors.Update Scenario.lib {| collector.col := sensors.NewSensorCollector;
                      collector.env := Scenario.connected Scenario.thermalOnly |}
    = Returns None r'
    /\ forall k,
         sensors.readings (collector.col r') !! k
         = if String.eqb k "" then None
           else sensors.temperatureReading
                  <$> Facts.lastWith temp_Name k (Temperatures Scenario.thermal).
Proof.
  exact (@SensorUpdate_keeps_temperatures Scenario.lib
           {| collector.col := sensors.NewSensorCollector;
              collector.env := Scenario.connected Scenario.thermalOnly |}
           Scenario.chassisNoPower _ Scenario.thermal "power unavailable"
           eq_refl eq_refl eq_refl eq_refl).
Defined.

(** A primary chassis without thermal data. *)
Lemma SensorUpdate_stops_after_failed_thermal_witness :
  exists r',
    @sensors.Update Scenario.lib {| collector.col := sensors.NewSensorCollector;
                      collector.env := Scenario.connected Scenario.powerOnly |}
    = Returns None r'
    /\ sensors.readings (collector.col r') = ∅
    /\ trace (redfish.net (collector.env r'))
       = [EvConnect "https://bmc1"; EvChassis] ++ [EvThermal "1"].
Proof.
  exact (@SensorUpdate_stops_after_failed_thermal Scenario.lib
           {| collector.col := sensors.NewSensorCollector;
              collector.env := Scenario.connected Scenario.powerOnly |}
           Scenario.chassisNoThermal _ "thermal unavailable" eq_refl eq_refl eq_refl).
Defined.

(** The first power-control entry reports 0 watts, the second 250. *)
Lemma TelemetryUpdate_first_positive_witness :
  exists r',
    telemetry.Update {| collector.col := telemetry.NewTelemetryCollector;
                        collector.env := Scenario.connected Scenario.healthy |}
    = Returns None r'
    /\ telemetry.reading (collector.col r') = 250%float
    /\ telemetry.Collect (collector.col r')
       = Returns
           ([collector.ConstMetric "ipmi_telemetry_power_consumption_watts" 250%float []]
              ++ collector.CollectScrapeTime (collector.col r'))
           (collector.col r').
Proof.
  exact (TelemetryUpdate_first_positive
           {| collector.col := telemetry.NewTelemetryCollector;
              collector.env := Scenario.connected Scenario.healthy |}
           Scenario.chassis1 _
           (Scenario.powerOf [Scenario.psu "PSU1" "OK"; Scenario.psu "PSU2" "Warning"])
           eq_refl eq_refl eq_refl).
Defined.

(** The primary chassis of a healthy controller. *)
Lemma PowerUpdate_primary_never_falls_back_witness :
  exists r',
    power.Update {| collector.col := power.NewPowerCollector;
                    collector.env := Scenario.connected Scenario.healthy |}
    = Returns None r'
    /\ power.readings (collector.col r')
       = fst (power.storePSUs ∅ [Scenario.psu "PSU1" "OK"; Scenario.psu "PSU2" "Warning"])
    /\ (Spec.namedCount [Scenario.psu "PSU1" "OK"; Scenario.psu "PSU2" "Warning"] = 0 ->
        power.readings (collector.col r') = ∅)
    /\ trace (redfish.net (collector.env r'))
       = [EvConnect "https://bmc1"; EvChassis] ++ [EvPower "1"].
Proof.
  exact (PowerUpdate_primary_never_falls_back
           {| collector.col := power.NewPowerCollector;
              collector.env := Scenario.connected Scenario.healthy |}
           Scenario.chassis1 _
           (Scenario.powerOf [Scenario.psu "PSU1" "OK"; Scenario.psu "PSU2" "Warning"])
           eq_refl eq_refl eq_refl).
Defined.

(** The denylisted chassis comes first, then one with two supplies. *)
Lemma fallback_first_answer_wins_witness :
  exists r',
    power.tryAlternativeChassis
      {| collector.col := power.NewPowerCollector;
         collector.env := Scenario.connected Scenario.fallbackWithoutB |}
    = Returns None r'
    /\ power.readings (collector.col r')
       = fst (power.storePSUs (power.readings power.NewPowerCollector)
                [Scenario.psu "PSU1" "OK"; Scenario.psu "PSU2" "OK"])
    /\ trace (redfish.net (collector.env r'))
       = [EvConnect "https://bmc1"]
         ++ EvChassis :: Facts.failedQueries [Some Scenario.chassisA] ++ [EvPower "3"]
    /\ collector.mutex (collector.base (collector.col r')) = false.
Proof.
  apply (fallback_first_answer_wins
           {| collector.col := power.NewPowerCollector;
              collector.env := Scenario.connected Scenario.fallbackWithoutB |}
           [Some Scenario.chassisA] [] Scenario.chassisC
           (Scenario.powerOf [Scenario.psu "PSU1" "OK"; Scenario.psu "PSU2" "OK"]));
    try reflexivity.
  - constructor; [|constructor].
    exists Scenario.chassisA. split; [reflexivity | left; reflexivity].
  - discriminate.
  - vm_compute. lia.
Defined.

(** The only chassis is the denylisted one. *)
Lemma fallback_finds_nothing_witness :
  exists r',
    power.tryAlternativeChassis
      {| collector.col := power.NewPowerCollector;
         collector.env := Scenario.connected Scenario.noPower |}
    = Returns (Some "could not find any chassis with power supply information") r'
    /\ collector.col r' = power.NewPowerCollector
    /\ trace (redfish.net (collector.env r'))
       = [EvConnect "https://bmc1"]
         ++ EvChassis :: Facts.failedQueries [Some Scenario.chassisA].
Proof.
  apply (fallback_finds_nothing
           {| collector.col := power.NewPowerCollector;
              collector.env := Scenario.connected Scenario.noPower |}
           [Some Scenario.chassisA]);
    try reflexivity.
  constructor; [|constructor].
  exists Scenario.chassisA. split; [reflexivity | left; reflexivity].
Defined.

(** A listing with one chassis and a partial-retrieval error. *)
Lemma fallback_rejects_partial_listing_witness :
  exists r',
    power.tryAlternativeChassis
      {| collector.col := power.NewPowerCollector;
         collector.env := Scenario.connected Scenario.partialListing |}
    = Returns (Some "failed to get any chassis: failed to retrieve some items") r'
    /\ collector.col r' = power.NewPowerCollector
    /\ trace (redfish.net (collector.env r')) = [EvConnect "https://bmc1"] ++ [EvChassis].
Proof.
  exact (fallback_rejects_partial_listing
           {| collector.col := power.NewPowerCollector;
              collector.env := Scenario.connected Scenario.partialListing |}
           [Some Scenario.chassisC] "failed to retrieve some items" eq_refl eq_refl).
Defined.

(** The fallback scenario, where the scan parks. *)
Lemma fallback_never_queries_denylisted_witness :
  ~ In (EvPower power.denylisted)
      (trace (redfish.net (collector.env (Facts.stateOf
         (power.tryAlternativeChassis
            {| collector.col := power.NewPowerCollector;
               collector.env := Scenario.connected Scenario.fallback |}))))).
Proof.
  apply (fallback_never_queries_denylisted
           {| collector.col := power.NewPowerCollector;
              collector.env := Scenario.connected Scenario.fallback |}).
  simpl. intros [Hfirst|[]]. discriminate.
Defined.

(** A system whose processors cannot be listed. *)
Lemma SystemUpdate_without_processors_witness :
  exists r',
    @system.Update Scenario.lib
      {| collector.col := Scenario.staleSystemCollector;
         collector.env := Scenario.connected Scenario.noProcessors |}
    = Returns None r'
    /\ system.readings (collector.col r') = ∅
    /\ @system.Collect Scenario.lib (collector.col r')
       = Returns (collector.CollectScrapeTime (collector.col r')) (collector.col r').
Proof.
  apply (@SystemUpdate_without_processors Scenario.lib
           {| collector.col := Scenario.staleSystemCollector;
              collector.env := Scenario.connected Scenario.noProcessors |}
           Scenario.systemNoCPU []);
    try reflexivity.
  right. exists "processors unavailable". reflexivity.
Defined.

(** A system that is on, with two processors. *)
Lemma SystemUpdate_sends_power_state_witness :
  exists r' sent,
    @system.Update Scenario.lib
      {| collector.col := system.NewSystemCollector;
         collector.env := Scenario.connected Scenario.healthy |}
    = Returns None r'
    /\ @system.Collect Scenario.lib (collector.col r') = Returns sent (collector.col r')
    /\ In (collector.ConstMetric "ipmi_system_power_state" 1%float []) sent
    /\ In (collector.ConstMetric "ipmi_memory_health" 0%float ["64"]) sent.
Proof.
  exact (@SystemUpdate_sends_power_state Scenario.lib
           {| collector.col := system.NewSystemCollector;
              collector.env := Scenario.connected Scenario.healthy |}
           Scenario.system1 [] (Scenario.cpu "CPU1" "OK") [Scenario.cpu "CPU2" "OK"]
           eq_refl eq_refl eq_refl).
Defined.

(** The first request for bmc1, and the second. *)
Lemma getClient_reuses_session_witness :
  exists client w1,
    main.getClient "bmc1" (Scenario.fresh Scenario.healthy) = Returns (Ok client) w1
    /\ main.getClient "bmc1" w1 = Returns (Ok client) w1
    /\ main.clients (main.sherlock w1) !! "bmc1" = Some client.
Proof.
  exists (Facts.clientFor Scenario.appConfig "bmc1" 0).
  exists (main.set_client "bmc1" (Facts.clientFor Scenario.appConfig "bmc1" 0)
            (main.set_network
               (Facts.dialled "https://bmc1" (main.network (Scenario.fresh Scenario.healthy)))
               (Scenario.fresh Scenario.healthy))).
  split; [reflexivity|].
  apply (getClient_reuses_session "bmc1" (Scenario.fresh Scenario.healthy)).
  reflexivity.
Defined.

(** The first request for bmc1 on a controller that accepts the connection. *)
Lemma getClient_first_request_witness :
  exists r w1,
    main.getClient "bmc1" (Scenario.fresh Scenario.healthy) = Returns r w1
    /\ trace (main.network w1) = [] ++ [EvConnect "https://bmc1"]
    /\ r = Ok (Facts.clientFor Scenario.appConfig "bmc1" 0)
    /\ main.clients (main.sherlock w1)
       = <["bmc1" := Facts.clientFor Scenario.appConfig "bmc1" 0]> ∅.
Proof.
  exact (getClient_first_request "bmc1" (Scenario.fresh Scenario.healthy) eq_refl eq_refl).
Defined.

(** A scrape of a controller that refuses the connection. *)
Lemma metricsHandler_unreachable_target_witness :
  exists w1,
    @main.metricsHandler Scenario.lib [0; 1; 2; 3; 4] [("target", "https://bmc1")]
      (Scenario.fresh Scenario.refusing)
    = Returns (main.Exposition []) w1
    /\ main.clients (main.sherlock w1) = ∅
    /\ main.logger (main.sherlock w1)
       = [] ++ [ {| main.level := "error"; main.msg := "failed to connect to redfish api";
                    main.fields :=
                      [("target", "bmc1");
                       ("error",
                        "failed to connect to Redfish API: dial tcp: connection refused")] |} ]
    /\ trace (main.network w1) = [] ++ [EvConnect "https://bmc1"].
Proof.
  apply (@metricsHandler_unreachable_target Scenario.lib [0; 1; 2; 3; 4]
           [("target", "https://bmc1")] (Scenario.fresh Scenario.refusing)
           "dial tcp: connection refused");
    try reflexivity.
  discriminate.
Defined.

(** Two sessions in the registry, both free. *)
Lemma Close_empties_registry_witness :
  exists w',
    main.Close
      (Scenario.serving Scenario.healthy
         {[ "bmc1" := Scenario.session 0 false; "bmc2" := Scenario.session 1 false ]})
    = Returns tt w'
    /\ main.clients (main.sherlock w') = ∅
    /\ trace (main.network w')
       = trace (main.network
                  (Scenario.serving Scenario.healthy
                     {[ "bmc1" := Scenario.session 0 false;
                        "bmc2" := Scenario.session 1 false ]}))
         ++ Facts.logouts
              (map_to_list
                 (main.clients (main.sherlock
                    (Scenario.serving Scenario.healthy
                       {[ "bmc1" := Scenario.session 0 false;
                          "bmc2" := Scenario.session 1 false ]}))))
    /\ main.mutex (main.sherlock w') = false.
Proof.
  refine (Close_empties_registry
            (Scenario.serving Scenario.healthy
               {[ "bmc1" := Scenario.session 0 false; "bmc2" := Scenario.session 1 false ]})
            eq_refl _).
  intros hostname client Hcached.
  change (({[ "bmc1" := Scenario.session 0 false; "bmc2" := Scenario.session 1 false ]}
            : gmap string redfish.Client) !! hostname = Some client) in Hcached.
  apply lookup_insert_Some in Hcached as [[_ <-]|[_ Hcached]]; [reflexivity|].
  apply lookup_singleton_Some in Hcached as [_ <-]. reflexivity.
Defined.

(** The session of bmc1 is parked. *)
Lemma Close_parks_on_held_client_witness :
  exists w',
    main.Close (Scenario.serving Scenario.healthy {[ "bmc1" := Scenario.session 0 true ]})
    = Blocked w'
    /\ main.mutex (main.sherlock w') = true.
Proof.
  exact (Close_parks_on_held_client
           (Scenario.serving Scenario.healthy {[ "bmc1" := Scenario.session 0 true ]})
           "bmc1" (Scenario.session 0 true) eq_refl eq_refl eq_refl).
Defined.

(** A scrape of bmc1 while its session is parked. *)
Lemma collectTarget_never_returns_on_parked_session_witness :
  ~ exists samples w',
      @main.collectTarget Scenario.lib [0; 1; 2; 3; 4] "bmc1"
        (Scenario.serving Scenario.healthy {[ "bmc1" := Scenario.session 0 true ]})
      = Returns samples w'.
Proof.
  intros (samples & w' & Hreturns).
  refine (@collectTarget_never_returns_on_parked_session Scenario.lib [0; 1; 2; 3; 4] "bmc1"
            (Scenario.serving Scenario.healthy {[ "bmc1" := Scenario.session 0 true ]})
            (Scenario.session 0 true) eq_refl _ eq_refl _ samples w' Hreturns).
  - reflexivity.
  - exists 1. split; [simpl; auto | lia].
Defined.

